(** * api-pleno: the quote orchestrator and the history-window extractor

    A shallow embedding of [ApiController] (quote lookup, comparison,
    history window, gains projection) together with the line scanner that
    carves a date window out of the provider's streamed document.

    The repository holds two texts of the controller:
    - [src/controllers/ApiController.ts], where the scanner is written
      inline in [getStockHistoryBySymbol] (module [Inline] below);
    - a second text of the same class in which the scanner lives in a
      [HistorySearcher] class (module [Searcher] below).
    [getStockBySymbol] and [compareStockBySymbols] are the same in both. *)

From Stdlib Require Import String Ascii List Bool ZArith QArith Qround Qabs Qpower Lia Lqa.
From Stdlib Require Import SpecFloat DecimalString Morphisms.
Import ListNotations.
Local Open Scope string_scope.
Local Open Scope list_scope.

(** ** String primitives of the JS runtime used by the scanner *)

Module JS.

(** [line.includes(needle)] *)
Fixpoint includes (line needle : string) : bool :=
  if String.prefix needle line then true
  else match line with
       | EmptyString => false
       | String _ rest => includes rest needle
       end.

(** [s.endsWith(suffix)] *)
Fixpoint endsWith (s suffix : string) : bool :=
  if String.eqb s suffix then true
  else match s with
       | EmptyString => false
       | String _ rest => endsWith rest suffix
       end.

(** [s.slice(0, -1)]: the string without its last character. *)
Fixpoint slice_0_m1 (s : string) : string :=
  match s with
  | EmptyString => EmptyString
  | String c rest =>
      match rest with
      | EmptyString => EmptyString
      | String _ _ => String c (slice_0_m1 rest)
      end
  end.

(** [s.split('T')[0]]: the text before the first ['T']. *)
Fixpoint split_T_0 (s : string) : string :=
  match s with
  | EmptyString => EmptyString
  | String c rest => if Ascii.eqb c "T"%char then EmptyString
                     else String c (split_T_0 rest)
  end.

End JS.

(** ** Numbers

    A JS number is an IEEE 754 binary64 value; the operations are the
    ones of the standard library's executable specification. *)

Definition number := spec_float.

Definition prec : Z := 53.
Definition emax : Z := 1024.

Definition fmul (x y : number) : number := SFmul prec emax x y.
Definition fsub (x y : number) : number := SFsub prec emax x y.
Definition fdiv (x y : number) : number := SFdiv prec emax x y.
Definition of_Z (z : Z) : number := binary_normalize prec emax z 0 false.

(** The rational a finite number stands for (0 for the others). *)
Definition value (x : number) : Q :=
  match x with
  | S754_finite s m e =>
      let mag := if (0 <=? e)%Z then inject_Z (Z.pos m * 2 ^ e)
                 else Z.pos m # (2 ^ Z.to_pos (- e)) in
      if s then Qopp mag else mag
  | _ => 0
  end.

(** [Number.prototype.toFixed(2)], step "let n be an integer for which
    n / 10^2 - x is as close to zero as possible; if there are two such
    n, pick the larger": on the magnitude of x. *)
Definition hundredths (q : Q) : Z := Qfloor (Qabs q * 100 + (1 # 2)).

Definition digits (n : Z) : string := NilZero.string_of_uint (N.to_uint (Z.to_N n)).

(** The text [a.bb] of [n] hundredths, with the sign of a negative x. *)
Definition fixed2 (negative : bool) (n : Z) : string :=
  let frac := digits (n mod 100) in
  (if negative then "-" else EmptyString) ++ digits (n / 100) ++ "."
  ++ (if (n mod 100 <? 10)%Z then "0" ++ frac else frac).

(** ** Errors and the result envelope *)

Inductive BaseError : Type :=
| NotFoundError (field value : string)   (* new NotFoundError({ field: value }) *)
| UnknownError                           (* new UnknownError() *)
| ValidationError (message : string).    (* whatever ParameterValidator builds *)

(** [e instanceof NotFoundError] *)
Definition instanceof_NotFoundError (e : BaseError) : bool :=
  match e with
  | NotFoundError _ _ => true
  | _ => false
  end.

(** [ControllerSuccess<T> | BaseError[]] *)
Inductive Response (T : Type) : Type :=
| ControllerSuccess (result : T)
| Errors (errors : list BaseError).

Arguments ControllerSuccess {T} result.
Arguments Errors {T} errors.

(** [createErrorObject] returns an array as it is and wraps a single error. *)
Definition createErrorObject {T} (errors : list BaseError) : Response T := Errors errors.
Definition createErrorObject1 {T} (error : BaseError) : Response T := Errors [error].
Definition createSuccessObject {T} (result : T) : Response T := ControllerSuccess result.

(** ** Payloads *)

Record GetStockBySymbol : Type := {
  quote_name : string;
  quote_lastPrice : number;
  quote_pricedAt : string }.

Record HistoricPrices : Type := {
  opening : number;
  high : number;
  low : number;
  closing : number;
  pricedAt : string }.

Record GetStockHistoryBySymbol : Type := {
  history_name : string;
  prices : list HistoricPrices }.

Record GetProjectedGains : Type := {
  gains_name : string;
  gains_lastPrice : number;
  priceAtDate : number;
  purchasedAmount : number;
  purchasedAt : string;
  capitalGains : number }.

(** ** Collaborators

    The validator, the two provider clients and the JS built-ins the
    controller calls are not part of the controller; they are the fields
    of an environment. *)

Inductive ValidatationTypes : Type :=
| STRING | DATE | IS_NOT_WEEKEND | NOT_TODAY_OR_AFTER | DATE_INTERVAL | POSITIVE_NUMBER.

(** One argument of [getValidationErrors]: [[type, { field: value }]]
    (the value of [from_to] is a two-element array). *)
Definition Check : Type := ValidatationTypes * (string * list string).

(** What [yahooApiService.getStockBySymbol] does: it returns a quote or
    throws an error whose [code] may be set. *)
Inductive YahooReply : Type :=
| YahooQuote (symbol : string) (regularMarketPrice : number) (regularMarketTime : N)
| YahooThrows (code : option string).

(** What [alphaApiService.getStockHistoryAsStream] does: it returns a
    stream of lines (the ['data'] events of a byline stream, then
    ['end']) or throws. *)
Inductive AlphaReply : Type :=
| AlphaStream (lines : list string)
| AlphaThrows.

(** The parsed history document: date keys in key order, each with its
    labelled fields as the decimal text the provider sends. *)
Definition RawPrices : Type := list (string * list (string * string)).

Record Env : Type := {
  (** [ParameterValidator.getValidationErrors(...)]; [None] is [undefined] *)
  getValidationErrors : list Check -> option (list BaseError);
  yahoo_getStockBySymbol : string -> YahooReply;
  alpha_getStockHistoryAsStream : string -> AlphaReply;
  (** [JSON.parse]; [None] when it throws *)
  JSON_parse : string -> option RawPrices;
  (** [Number(v)]; [None] is [undefined] *)
  Number_ : option string -> number;
  (** [new Date(s).toISOString()]; [None] when it throws RangeError *)
  Date_toISOString : string -> option string;
  (** [new Date(ms).toISOString()] on epoch milliseconds *)
  Date_ms_toISOString : Z -> option string;
  (** [s.toUpperCase()] *)
  toUpperCase : string -> string }.

(** ** Provider calls

    An operation yields its value together with the provider requests it
    issued, in the order it issued them. *)

Inductive ProviderCall : Type :=
| YahooCall (symbol : string)
| AlphaCall (symbol : string).

Definition IO (A : Type) : Type := A * list ProviderCall.

Definition ret {A} (a : A) : IO A := (a, []).
Definition bind {A B} (m : IO A) (f : A -> IO B) : IO B :=
  let (a, l1) := m in
  let (b, l2) := f a in
  (b, l1 ++ l2).

Notation "x <- m ;; k" := (bind m (fun x => k))
  (at level 61, m at next level, right associativity).

(** The value an operation hands back, and the requests it issued. *)
Definition outcome {A} (m : IO A) : A := fst m.
Definition calls {A} (m : IO A) : list ProviderCall := snd m.

Definition callYahoo (E : Env) (symbol : string) : IO YahooReply :=
  (yahoo_getStockBySymbol E symbol, [YahooCall symbol]).
Definition callAlpha (E : Env) (symbol : string) : IO AlphaReply :=
  (alpha_getStockHistoryAsStream E symbol, [AlphaCall symbol]).

(** A call that may not return: an exception escapes it, or its promise
    never settles. *)
Inductive Completion (A : Type) : Type :=
| Returns (a : A)
| Faults.

Arguments Returns {A} a.
Arguments Faults {A}.

(** ** The operations both texts share *)

Section Shared.
Context (E : Env).

Definition getStockBySymbol (stock_name : string) : IO (Response GetStockBySymbol) :=
  match getValidationErrors E [(STRING, ("stock_name", [stock_name]))] with
  | Some validationErrors => ret (createErrorObject validationErrors)
  | None =>
      result <- callYahoo E stock_name ;;
      match result with
      | YahooQuote symbol regularMarketPrice regularMarketTime =>
          match Date_ms_toISOString E (Z.of_N regularMarketTime * 1000) with
          | Some iso =>
              ret (createSuccessObject
                     {| quote_name := symbol;
                        quote_lastPrice := regularMarketPrice;
                        quote_pricedAt := iso |})
          | None => ret (createErrorObject1 UnknownError)
          end
      | YahooThrows code =>
          let isANotFoundError :=
            match code with
            | Some c => String.eqb c "Not Found"
            | None => false
            end in
          if isANotFoundError
          then ret (createErrorObject1 (NotFoundError "stock_name" stock_name))
          else ret (createErrorObject1 UnknownError)
      end
  end.

(** The loop of [compareStockBySymbols], with its two arrays. *)
Fixpoint compareLoop (stocks : list string)
    (successArray : list GetStockBySymbol) (errorArray : list BaseError)
  : IO (list GetStockBySymbol * list BaseError) :=
  match stocks with
  | [] => ret (successArray, errorArray)
  | stock :: rest =>
      result <- getStockBySymbol stock ;;
      match result with
      | ControllerSuccess r => compareLoop rest (successArray ++ [r]) errorArray
      | Errors es => compareLoop rest successArray (errorArray ++ es)
      end
  end.

Definition compareStockBySymbols (stock_name : string) (stocks : list string)
  : IO (Response (list GetStockBySymbol)) :=
  arrays <- compareLoop (stock_name :: stocks) [] [] ;;
  let (successArray, errorArray) := arrays in
  let hasErrors := (0 <? length errorArray)%nat in
  if hasErrors then ret (createErrorObject errorArray)
  else ret (createSuccessObject successArray).

(** [formatJSONHistoryObject]: one price point per key, in key order. *)
Definition formatEntry (entry : string * list (string * string)) : option HistoricPrices :=
  let (key, saidObj) := entry in
  let field label := Number_ E (option_map snd (find (fun kv => String.eqb (fst kv) label) saidObj)) in
  match Date_toISOString E key with
  | Some iso =>
      Some {| opening := field "1. open";
              high := field "2. high";
              low := field "3. low";
              closing := field "4. close";
              pricedAt := iso |}
  | None => None
  end.

Fixpoint formatJSONHistoryObject (unformatedObject : RawPrices) : option (list HistoricPrices) :=
  match unformatedObject with
  | [] => Some []
  | entry :: rest =>
      match formatEntry entry with
      | Some p =>
          match formatJSONHistoryObject rest with
          | Some ps => Some (p :: ps)
          | None => None
          end
      | None => None
      end
  end.

(** [new Date(d).toISOString().split('T')[0]] *)
Definition formatDate (d : string) : option string :=
  option_map JS.split_T_0 (Date_toISOString E d).

(** [Number(x.toFixed(2))].  For a finite x below 10^21 the text is the
    fixed-point one; otherwise [toFixed] is [ToString], which [Number]
    reads back as x. *)
Definition toFixed2_Number (x : number) : number :=
  match x with
  | S754_finite s _ _ =>
      if Qle_bool (1000000000000000000000 # 1) (Qabs (value x)) then x
      else Number_ E (Some (fixed2 s (hundredths (value x))))
  | S754_zero _ => Number_ E (Some (fixed2 false 0))
  | _ => x
  end.

(** The checks of the three validating operations. *)
Definition historyChecks (stock_name from to : string) : list Check :=
  [ (STRING, ("stock_name", [stock_name]));
    (DATE, ("from", [from]));
    (DATE, ("to", [to]));
    (IS_NOT_WEEKEND, ("from", [from]));
    (IS_NOT_WEEKEND, ("to", [to]));
    (NOT_TODAY_OR_AFTER, ("from", [from]));
    (NOT_TODAY_OR_AFTER, ("to", [to]));
    (DATE_INTERVAL, ("from_to", [from; to])) ].

Definition gainsChecks (stock_name purchasedAmount purchasedAt : string) : list Check :=
  [ (STRING, ("stock_name", [stock_name]));
    (POSITIVE_NUMBER, ("purchasedAmount", [purchasedAmount]));
    (DATE, ("purchasedAt", [purchasedAt]));
    (IS_NOT_WEEKEND, ("purchasedAt", [purchasedAt]));
    (NOT_TODAY_OR_AFTER, ("purchasedAt", [purchasedAt])) ].

End Shared.

(** ** The controller with the [HistorySearcher] class *)

Module Searcher.

(** What a [try] block can catch: a thrown string, or some error object. *)
Inductive Thrown : Type :=
| ThrownText (text : string)
| ThrownError.

Inductive Try (A : Type) : Type :=
| Ok (a : A)
| Throw (t : Thrown).

Arguments Ok {A} a.
Arguments Throw {A} t.

(** [private searchingState = { reading: false, ending: false }] *)
Record searchingState : Type := {
  reading : bool;
  ending : bool }.

(** The promise of [scanStreamForTimeInterval] is settled by the first
    [resolve] or [reject]; later ones are ignored. *)
Inductive Settlement : Type :=
| Resolved (text : string)
| Rejected (reason : string).

Definition settle (promise : option Settlement) (s : Settlement) : option Settlement :=
  match promise with
  | None => Some s
  | Some _ => promise
  end.

(** The scanner's variables between two lines. *)
Record Scan : Type := {
  state : searchingState;
  result : string;
  promise : option Settlement }.

Definition removeLastCommaIfNecessary (result : string) : string :=
  if JS.endsWith result "," then JS.slice_0_m1 result else result.

Definition startReading (st : searchingState) : searchingState :=
  {| reading := true; ending := ending st |}.

Definition startLookingForLastObject (st : searchingState) : searchingState :=
  {| reading := reading st; ending := true |}.

Definition isScanningThrougSearchingInterval (st : searchingState) : bool :=
  Bool.eqb (reading st) true.

Definition shouldIgnoreForPerformance (st : searchingState) : bool :=
  Bool.eqb (reading st) false.

Definition foundStartOfWantedInterval (line firstDateToAppearInStream : string) : bool :=
  JS.includes line firstDateToAppearInStream && JS.includes line "{".

Definition finishedReadingLastObject (st : searchingState) (line : string) : bool :=
  ending st && JS.includes line "}".

Definition foundEndOfWantedInterval (line lastDateToAppearInStream : string) : bool :=
  JS.includes line lastDateToAppearInStream && JS.includes line "{".

Definition didntFoundStockInDatabase (line : string) : bool :=
  JS.includes line "Error Message".

(** The ['data'] listener of [scanStreamForTimeInterval]. *)
Definition onData (firstDateToAppearInStream lastDateToAppearInStream : string)
    (sc : Scan) (line : string) : Scan :=
  let promise1 :=
    if didntFoundStockInDatabase line
    then settle (promise sc) (Rejected "stock") else promise sc in
  let state1 :=
    if foundStartOfWantedInterval line firstDateToAppearInStream
    then startReading (state sc) else state sc in
  if shouldIgnoreForPerformance state1
  then {| state := state1; result := result sc; promise := promise1 |}
  else
    let state2 :=
      if foundEndOfWantedInterval line lastDateToAppearInStream
      then startLookingForLastObject state1 else state1 in
    let result1 :=
      if isScanningThrougSearchingInterval state2
      then (result sc ++ line)%string else result sc in
    if finishedReadingLastObject state2 line
    then
      let result2 := (removeLastCommaIfNecessary result1 ++ "}")%string in
      {| state := state2; result := result2;
         promise := settle promise1 (Resolved result2) |}
    else {| state := state2; result := result1; promise := promise1 |}.

(** The ['end'] listener. *)
Definition onEnd (sc : Scan) : Scan :=
  {| state := state sc; result := result sc;
     promise := settle (promise sc) (Rejected "fromto") |}.

Definition start : Scan :=
  {| state := {| reading := false; ending := false |};
     result := "{";
     promise := None |}.

Definition run (first last : string) (lines : list string) : Scan :=
  fold_left (onData first last) lines start.

(** The settlement the caller awaits. *)
Definition scanStreamForTimeInterval (historyStream : list string)
    (firstDateToAppearInStream lastDateToAppearInStream : string) : Settlement :=
  match promise (onEnd (run firstDateToAppearInStream lastDateToAppearInStream historyStream)) with
  | Some s => s
  | None => Rejected "fromto"
  end.

Section Controller.
Context (E : Env).

Definition searchTimeIntervalInHistory (historyStream : list string)
    (unformatedFromDate unformatedToDate : string) : Try (list HistoricPrices) :=
  match formatDate E unformatedToDate with
  | None => Throw ThrownError
  | Some formatedToDate =>
      match formatDate E unformatedFromDate with
      | None => Throw ThrownError
      | Some formatedFromDate =>
          match scanStreamForTimeInterval historyStream formatedToDate formatedFromDate with
          | Rejected reason => Throw (ThrownText reason)
          | Resolved result =>
              match JSON_parse E result with
              | None => Throw ThrownError
              | Some unformatedObject =>
                  match formatJSONHistoryObject E unformatedObject with
                  | None => Throw ThrownError
                  | Some prices => Ok prices
                  end
              end
          end
      end
  end.

(** The [catch] clause of [getStockHistoryBySymbol]. *)
Definition catchHistory (stock_name from to : string) (error : Thrown)
  : Response GetStockHistoryBySymbol :=
  match error with
  | ThrownText text =>
      if String.eqb text "fromto"
      then createErrorObject [NotFoundError "from" from; NotFoundError "to" to]
      else if String.eqb text "stock"
      then createErrorObject [NotFoundError "stock_name" stock_name]
      else createErrorObject1 UnknownError
  | ThrownError => createErrorObject1 UnknownError
  end.

Definition getStockHistoryBySymbol (stock_name from to : string)
  : IO (Response GetStockHistoryBySymbol) :=
  match getValidationErrors E (historyChecks stock_name from to) with
  | Some validationErrors => ret (createErrorObject validationErrors)
  | None =>
      reply <- callAlpha E stock_name ;;
      match reply with
      | AlphaThrows => ret (catchHistory stock_name from to ThrownError)
      | AlphaStream historyStream =>
          match searchTimeIntervalInHistory historyStream from to with
          | Ok prices =>
              ret (ControllerSuccess
                     {| history_name := toUpperCase E stock_name; prices := prices |})
          | Throw error => ret (catchHistory stock_name from to error)
          end
      end
  end.

(** [projectGains].  The two lookups are started one after the other and
    awaited together; [prices[0]] of an empty list is [undefined], and
    reading [closing] off it throws. *)
Definition projectGains (stock_name purchasedAmount purchasedAt : string)
  : IO (Completion (Response GetProjectedGains)) :=
  match getValidationErrors E (gainsChecks stock_name purchasedAmount purchasedAt) with
  | Some validationErrors => ret (Returns (Errors validationErrors))
  | None =>
      todaysValue <- getStockBySymbol E stock_name ;;
      onDateValue <- getStockHistoryBySymbol stock_name purchasedAt purchasedAt ;;
      match todaysValue with
      | Errors errs => ret (Returns (Errors errs))
      | ControllerSuccess today =>
          let totalToday := fmul (quote_lastPrice today) (Number_ E (Some purchasedAmount)) in
          match onDateValue with
          | Errors errs =>
              let didNotFindDate :=
                match errs with
                | e0 :: _ => instanceof_NotFoundError e0 && (length errs =? 2)%nat
                | [] => false
                end in
              if didNotFindDate
              then ret (Returns (Errors [NotFoundError "purchasedAt" purchasedAt]))
              else ret (Returns (Errors errs))
          | ControllerSuccess onDate =>
              match prices onDate with
              | [] => ret Faults
              | first :: _ =>
                  let totalOnDate := fmul (closing first) (Number_ E (Some purchasedAmount)) in
                  match Date_toISOString E purchasedAt with
                  | None => ret Faults
                  | Some iso =>
                      ret (Returns (ControllerSuccess
                        {| gains_name := toUpperCase E stock_name;
                           gains_lastPrice := quote_lastPrice today;
                           priceAtDate := closing first;
                           purchasedAmount := Number_ E (Some purchasedAmount);
                           purchasedAt := iso;
                           capitalGains := toFixed2_Number E (fsub totalToday totalOnDate) |}))
                  end
              end
          end
      end
  end.

End Controller.

End Searcher.

(** ** The controller with the scanner inline ([src/controllers/ApiController.ts]) *)

Module Inline.

(** [let searchingState = { reading: false, ending: false }] *)
Record searchingState : Type := {
  reading : bool;
  ending : bool }.

(** The variables the listeners close over, the stream's flowing flag,
    the promise returned to the caller, and whether an exception escaped
    a listener (the promise is then left pending). *)
Record Listener : Type := {
  state : searchingState;
  stringResult : string;
  flowing : bool;
  promise : option (Response GetStockHistoryBySymbol);
  faulted : bool }.

Definition resolve (promise : option (Response GetStockHistoryBySymbol))
    (r : Response GetStockHistoryBySymbol) : option (Response GetStockHistoryBySymbol) :=
  match promise with
  | None => Some r
  | Some _ => promise
  end.

Section Controller.
Context (E : Env).

(** The ['pause'] listener. *)
Definition onPause (stock_name : string) (l : Listener) : Listener :=
  let stringResult1 := (stringResult l ++ "}")%string in
  let hasError := String.eqb stringResult1 "{}" in
  if hasError
  then {| state := state l; stringResult := stringResult1; flowing := flowing l;
          promise := resolve (promise l) (Errors [NotFoundError "stock_name" stock_name]);
          faulted := faulted l |}
  else
    match JSON_parse E stringResult1 with
    | None => {| state := state l; stringResult := stringResult1; flowing := flowing l;
                 promise := promise l; faulted := true |}
    | Some rawPricesObj =>
        match formatJSONHistoryObject E rawPricesObj with
        | None => {| state := state l; stringResult := stringResult1; flowing := flowing l;
                     promise := promise l; faulted := true |}
        | Some pricesObj =>
            {| state := state l; stringResult := stringResult1; flowing := flowing l;
               promise := resolve (promise l)
                            (ControllerSuccess {| history_name := toUpperCase E stock_name;
                                                  prices := pricesObj |});
               faulted := faulted l |}
        end
    end.

(** [historyStream.pause()]: a flowing stream stops and emits ['pause']
    at once; a paused one does nothing. *)
Definition pause (stock_name : string) (l : Listener) : Listener :=
  if flowing l
  then onPause stock_name
         {| state := state l; stringResult := stringResult l; flowing := false;
            promise := promise l; faulted := faulted l |}
  else l.

(** The ['data'] listener. *)
Definition onData (stock_name firstDateToAppearInStream lastDateToAppearInList : string)
    (l : Listener) (line : string) : Listener :=
  let hasError := JS.includes line "Error Message" in
  let l1 := if hasError then pause stock_name l else l in
  if faulted l1 then l1
  else
    let foundStartOfWantedInterval :=
      JS.includes line firstDateToAppearInStream && JS.includes line "{" in
    let state1 :=
      if foundStartOfWantedInterval
      then {| reading := true; ending := ending (state l1) |} else state l1 in
    let isNotUsefull := negb (reading state1) in
    if isNotUsefull
    then {| state := state1; stringResult := stringResult l1; flowing := flowing l1;
            promise := promise l1; faulted := faulted l1 |}
    else
      let foundEndOfWantedInterval :=
        JS.includes line lastDateToAppearInList && JS.includes line "{" in
      let state2 :=
        if foundEndOfWantedInterval
        then {| reading := reading state1; ending := true |} else state1 in
      let stringResult1 :=
        if reading state2 then (stringResult l1 ++ line)%string else stringResult l1 in
      let isEndOfTheLastObject := ending state2 && JS.includes line "}," in
      if isEndOfTheLastObject
      then pause stock_name
             {| state := state2; stringResult := JS.slice_0_m1 stringResult1;
                flowing := flowing l1; promise := promise l1; faulted := faulted l1 |}
      else {| state := state2; stringResult := stringResult1; flowing := flowing l1;
              promise := promise l1; faulted := faulted l1 |}.

(** The ['end'] listener. *)
Definition onEnd (from to : string) (l : Listener) : Listener :=
  {| state := state l; stringResult := stringResult l; flowing := flowing l;
     promise := resolve (promise l) (Errors [NotFoundError "from" from; NotFoundError "to" to]);
     faulted := faulted l |}.

Definition start : Listener :=
  {| state := {| reading := false; ending := false |};
     stringResult := "{";
     flowing := true;
     promise := None;
     faulted := false |}.

(** The stream hands over its lines while it flows and emits ['end']
    after the last one; once paused it hands over nothing more. *)
Fixpoint deliver (stock_name from to first last : string)
    (lines : list string) (l : Listener) : Listener :=
  if flowing l && negb (faulted l)
  then match lines with
       | [] => onEnd from to l
       | line :: rest =>
           deliver stock_name from to first last rest (onData stock_name first last l line)
       end
  else l.

Definition settled (l : Listener) : Completion (Response GetStockHistoryBySymbol) :=
  match promise l with
  | Some r => Returns r
  | None => Faults
  end.

Definition getStockHistoryBySymbol (stock_name from to : string)
  : IO (Completion (Response GetStockHistoryBySymbol)) :=
  match getValidationErrors E (historyChecks stock_name from to) with
  | Some validationErrors => ret (Returns (createErrorObject validationErrors))
  | None =>
      reply <- callAlpha E stock_name ;;
      match reply with
      | AlphaThrows => ret (Returns (createErrorObject1 UnknownError))
      | AlphaStream historyStream =>
          match formatDate E to with
          | None => ret (Returns (createErrorObject1 UnknownError))
          | Some firstDateToAppearInStream =>
              match formatDate E from with
              | None => ret (Returns (createErrorObject1 UnknownError))
              | Some lastDateToAppearInList =>
                  ret (settled (deliver stock_name from to firstDateToAppearInStream
                                  lastDateToAppearInList historyStream start))
              end
          end
      end
  end.

(** [projectGains].  Here the two-error rewrite is applied to the failure
    of either side. *)
Definition projectGains (stock_name purchasedAmount purchasedAt : string)
  : IO (Completion (Response GetProjectedGains)) :=
  match getValidationErrors E (gainsChecks stock_name purchasedAmount purchasedAt) with
  | Some validationErrors => ret (Returns (Errors validationErrors))
  | None =>
      todaysValue <- getStockBySymbol E stock_name ;;
      onDateCompletion <- getStockHistoryBySymbol stock_name purchasedAt purchasedAt ;;
      match onDateCompletion with
      | Faults => ret Faults
      | Returns onDateValue =>
          match todaysValue with
          | Errors errs =>
              let didNotFindDate :=
                match errs with
                | e0 :: _ => instanceof_NotFoundError e0 && (length errs =? 2)%nat
                | [] => false
                end in
              if didNotFindDate
              then ret (Returns (Errors [NotFoundError "purchasedAt" purchasedAt]))
              else ret (Returns (Errors errs))
          | ControllerSuccess today =>
              let totalToday := fmul (quote_lastPrice today) (Number_ E (Some purchasedAmount)) in
              match onDateValue with
              | Errors errs =>
                  let didNotFindDate :=
                    match errs with
                    | e0 :: _ => instanceof_NotFoundError e0 && (length errs =? 2)%nat
                    | [] => false
                    end in
                  if didNotFindDate
                  then ret (Returns (Errors [NotFoundError "purchasedAt" purchasedAt]))
                  else ret (Returns (Errors errs))
              | ControllerSuccess onDate =>
                  match prices onDate with
                  | [] => ret Faults
                  | first :: _ =>
                      let totalOnDate := fmul (closing first) (Number_ E (Some purchasedAmount)) in
                      match Date_toISOString E purchasedAt with
                      | None => ret Faults
                      | Some iso =>
                          ret (Returns (ControllerSuccess
                            {| gains_name := toUpperCase E stock_name;
                               gains_lastPrice := quote_lastPrice today;
                               priceAtDate := closing first;
                               purchasedAmount := Number_ E (Some purchasedAmount);
                               purchasedAt := iso;
                               capitalGains := toFixed2_Number E (fsub totalToday totalOnDate) |}))
                      end
                  end
              end
          end
      end
  end.

End Controller.

End Inline.

(** ** A concrete environment

    Stand-ins for the built-ins on the inputs the controller feeds them
    (flat documents of text fields, plain decimal numerals, date-only
    strings, ASCII names), and services shaped like the mocks of the
    repository's tests: the three days of the example document, a symbol
    the quote provider does not know, and the provider's error
    document. *)

Module Fixture.

(** The double quote. *)
Definition dq : ascii := ascii_of_nat 34.
Definition q (s : string) : string := (String dq s ++ String dq EmptyString)%string.

Inductive token : Type :=
| TLBrace | TRBrace | TColon | TComma
| TStr (s : string).

(** Tokens of a JSON text without escapes; [cur] is the string literal
    being read, if any. *)
Fixpoint lex (s : string) (cur : option string) : option (list token) :=
  match s with
  | EmptyString => match cur with None => Some [] | Some _ => None end
  | String c rest =>
      match cur with
      | Some acc =>
          if Ascii.eqb c dq
          then option_map (cons (TStr acc)) (lex rest None)
          else if Ascii.eqb c "\"%char then None
          else lex rest (Some (acc ++ String c EmptyString)%string)
      | None =>
          if Ascii.eqb c " "%char || Ascii.eqb c "009"%char then lex rest None
          else if Ascii.eqb c dq then lex rest (Some EmptyString)
          else if Ascii.eqb c "{"%char then option_map (cons TLBrace) (lex rest None)
          else if Ascii.eqb c "}"%char then option_map (cons TRBrace) (lex rest None)
          else if Ascii.eqb c ":"%char then option_map (cons TColon) (lex rest None)
          else if Ascii.eqb c ","%char then option_map (cons TComma) (lex rest None)
          else None
      end
  end.

(** ["label": "text"] pairs up to the closing brace; no trailing comma. *)
Fixpoint parseFields (ts : list token) : option (list (string * string) * list token) :=
  match ts with
  | TStr k :: TColon :: TStr v :: TRBrace :: rest => Some ([(k, v)], rest)
  | TStr k :: TColon :: TStr v :: TComma :: rest =>
      match parseFields rest with
      | Some (fs, rest') => Some ((k, v) :: fs, rest')
      | None => None
      end
  | _ => None
  end.

Definition parseObject (ts : list token) : option (list (string * string) * list token) :=
  match ts with
  | TLBrace :: TRBrace :: rest => Some ([], rest)
  | TLBrace :: rest => parseFields rest
  | _ => None
  end.

(** ["date": { ... }] entries up to the closing brace of the document. *)
Fixpoint parseEntries (fuel : nat) (ts : list token) : option RawPrices :=
  match fuel with
  | O => None
  | S fuel' =>
      match ts with
      | TStr key :: TColon :: rest =>
          match parseObject rest with
          | Some (fields, TRBrace :: []) => Some [(key, fields)]
          | Some (fields, TComma :: rest') =>
              option_map (cons (key, fields)) (parseEntries fuel' rest')
          | _ => None
          end
      | _ => None
      end
  end.

Definition parseJSON (text : string) : option RawPrices :=
  match lex text None with
  | Some (TLBrace :: TRBrace :: []) => Some []
  | Some (TLBrace :: ts) => parseEntries (List.length ts) ts
  | _ => None
  end.

Definition NaN : number := S754_nan.

Definition isDigit (c : ascii) : bool :=
  (48 <=? nat_of_ascii c)%nat && (nat_of_ascii c <=? 57)%nat.

Fixpoint allDigits (s : string) : bool :=
  match s with
  | EmptyString => true
  | String c rest => isDigit c && allDigits rest
  end.

Definition natural (s : string) : Z :=
  match NilZero.uint_of_string s with
  | Some u => Z.of_N (N.of_uint u)
  | None => 0
  end.

(** The text before and after the first ['.']. *)
Fixpoint splitPoint (s : string) : string * string :=
  match s with
  | EmptyString => (EmptyString, EmptyString)
  | String c rest =>
      if Ascii.eqb c "."%char then (EmptyString, rest)
      else let (a, b) := splitPoint rest in (String c a, b)
  end.

(** [Number] on [undefined] and on numerals [-]digits[.digits]: the
    quotient of two integers, rounded once. *)
Definition toNumber (v : option string) : number :=
  match v with
  | None => NaN
  | Some text =>
      let (negative, body) :=
        match text with
        | String "-"%char rest => (true, rest)
        | _ => (false, text)
        end in
      let (whole, frac) := splitPoint body in
      if negb (allDigits whole && allDigits frac) || (String.length whole =? 0)%nat then NaN
      else
        let scale := (10 ^ Z.of_nat (String.length frac))%Z in
        let q := fdiv (of_Z (natural whole * scale + natural frac)) (of_Z scale) in
        if negative then SFopp q else q
  end.

Definition pad2 (n : Z) : string :=
  if (n <? 10)%Z then ("0" ++ digits n)%string else digits n.

Definition pad3 (n : Z) : string :=
  if (n <? 10)%Z then ("00" ++ digits n)%string
  else if (n <? 100)%Z then ("0" ++ digits n)%string else digits n.

Definition pad4 (n : Z) : string :=
  if (n <? 1000)%Z then ("0" ++ pad3 n)%string else digits n.

(** [new Date(ms).toISOString()] for the years 0000 to 9999. *)
Definition isoOfMillis (ms : Z) : option string :=
  let days := (ms / 86400000)%Z in
  let rem := (ms mod 86400000)%Z in
  let z := (days + 719468)%Z in
  let era := (z / 146097)%Z in
  let doe := (z - era * 146097)%Z in
  let yoe := ((doe - doe / 1460 + doe / 36524 - doe / 146096) / 365)%Z in
  let doy := (doe - (365 * yoe + yoe / 4 - yoe / 100))%Z in
  let mp := ((5 * doy + 2) / 153)%Z in
  let d := (doy - (153 * mp + 2) / 5 + 1)%Z in
  let m := (if (mp <? 10)%Z then mp + 3 else mp - 9)%Z in
  let y := (yoe + era * 400 + (if (m <=? 2)%Z then 1 else 0))%Z in
  if (0 <=? y)%Z && (y <=? 9999)%Z
  then Some (pad4 y ++ "-" ++ pad2 m ++ "-" ++ pad2 d ++ "T"
             ++ pad2 (rem / 3600000) ++ ":" ++ pad2 (rem / 60000 mod 60) ++ ":"
             ++ pad2 (rem / 1000 mod 60) ++ "." ++ pad3 (rem mod 1000) ++ "Z")%string
  else None.

(** [new Date(s).toISOString()] on date-only strings [YYYY-MM-DD]. *)
Definition isoOfDate (s : string) : option string :=
  let y := substring 0 4 s in
  let m := substring 5 2 s in
  let d := substring 8 2 s in
  if (String.length s =? 10)%nat
     && String.eqb (substring 4 1 s) "-" && String.eqb (substring 7 1 s) "-"
     && allDigits y && allDigits m && allDigits d
     && (1 <=? natural m)%Z && (natural m <=? 12)%Z
     && (1 <=? natural d)%Z && (natural d <=? 31)%Z
  then Some (s ++ "T00:00:00.000Z")%string
  else None.

Definition upper (c : ascii) : ascii :=
  let n := nat_of_ascii c in
  if (97 <=? n)%nat && (n <=? 122)%nat then ascii_of_nat (n - 32) else c.

Fixpoint upperCase (s : string) : string :=
  match s with
  | EmptyString => EmptyString
  | String c rest => String (upper c) (upperCase rest)
  end.

(** A validator that asks every value to be non-empty. *)
Definition checkOne (c : Check) : list BaseError :=
  let '(_, (field, values)) := c in
  if existsb (fun v => String.eqb v EmptyString) values
  then [ValidationError (field ++ " must not be empty")%string] else [].

Definition validate (checks : list Check) : option (list BaseError) :=
  match flat_map checkOne checks with
  | [] => None
  | errs => Some errs
  end.

Definition decimal (z scale : Z) : number := fdiv (of_Z z) (of_Z scale).

(** A quote provider like the one of the tests: one quote for every
    symbol but ["Non Existent"], which it reports as not found; ["down"]
    stands for any other fault. *)
Definition yahoo (price : number) (symbol : string) : YahooReply :=
  if String.eqb symbol "Non Existent" then YahooThrows (Some "Not Found")
  else if String.eqb symbol "down" then YahooThrows None
  else YahooQuote "IBM" price 946684800.

Definition day (date o h l c : string) (comma : bool) : list string :=
  [ ("    " ++ q date ++ ": {")%string;
    ("        " ++ q "1. open" ++ ": " ++ q o ++ ",")%string;
    ("        " ++ q "2. high" ++ ": " ++ q h ++ ",")%string;
    ("        " ++ q "3. low" ++ ": " ++ q l ++ ",")%string;
    ("        " ++ q "4. close" ++ ": " ++ q c)%string;
    if comma then "    }," else "    }" ].

(** The example document, a line per ['data'] event. *)
Definition AlphaReturnExample : list string :=
  ["{"]
  ++ day "2022-11-22" "147.6000" "149.3500" "147.0200" "149.1000" true
  ++ day "2022-11-21" "147.5500" "147.9280" "146.4500" "146.6800" true
  ++ day "2022-11-18" "146.5600" "148.3100" "145.9400" "147.6400" false
  ++ ["}"].

(** The provider's answer for a symbol it does not know. *)
Definition errorLine : string :=
  ("    " ++ q "Error Message" ++ ": " ++ q "Invalid API call.")%string.

Definition AlphaErrorExample : list string := [ "{"; errorLine; "}" ].

Definition alpha (stock_name : string) : AlphaReply :=
  if String.eqb stock_name "unknown" then AlphaStream AlphaErrorExample
  else AlphaStream AlphaReturnExample.

Definition env (price : number) (history : string -> AlphaReply) : Env :=
  {| getValidationErrors := validate;
     yahoo_getStockBySymbol := yahoo price;
     alpha_getStockHistoryAsStream := history;
     JSON_parse := parseJSON;
     Number_ := toNumber;
     Date_toISOString := isoOfDate;
     Date_ms_toISOString := isoOfMillis;
     toUpperCase := upperCase |}.

(** The mocked controller of the tests. *)
Definition mock : Env := env (decimal 1202 100) alpha.

(** What the mocked services hold. *)
Definition point (date o h l c : string) : HistoricPrices :=
  {| opening := toNumber (Some o);
     high := toNumber (Some h);
     low := toNumber (Some l);
     closing := toNumber (Some c);
     pricedAt := (date ++ "T00:00:00.000Z")%string |}.

Definition nov22 : HistoricPrices := point "2022-11-22" "147.6" "149.35" "147.02" "149.1".
Definition nov21 : HistoricPrices := point "2022-11-21" "147.55" "147.928" "146.45" "146.68".
Definition nov18 : HistoricPrices := point "2022-11-18" "146.56" "148.31" "145.94" "147.64".

Definition quote (price : number) : GetStockBySymbol :=
  {| quote_name := "IBM";
     quote_lastPrice := price;
     quote_pricedAt := "2000-01-01T00:00:00.000Z" |}.

Definition window (points : list HistoricPrices) : GetStockHistoryBySymbol :=
  {| history_name := "IBM"; prices := points |}.

(** A stream in which the provider's marker turns up once the window is
    open: after a complete day followed by a comma, and after a complete
    day without one. *)
Definition AlphaInterrupted (comma : bool) : list string :=
  ["{"]
  ++ day "2022-11-22" "147.6000" "149.3500" "147.0200" "149.1000" comma
  ++ [errorLine; "}"].

Definition interrupted (comma : bool) : Env :=
  env (decimal 1202 100) (fun _ => AlphaStream (AlphaInterrupted comma)).


End Fixture.

(** ** Vocabulary of the statements *)

(** The errors of a failure, the payload of a success. *)
Definition failureOf {T} (r : Response T) : list BaseError :=
  match r with
  | Errors es => es
  | ControllerSuccess _ => []
  end.

Definition successOf {T} (r : Response T) : list T :=
  match r with
  | ControllerSuccess x => [x]
  | Errors _ => []
  end.

Definition failed {T} (r : Response T) : bool :=
  match r with
  | Errors _ => true
  | ControllerSuccess _ => false
  end.

(** The lines of a window, one after the other as the scanner appends
    them. *)
Definition joined (lines : list string) : string :=
  fold_right String.append EmptyString lines.

(** The collapsing rule of the gains projection: a failure of two errors
    that starts with a [NotFoundError] becomes [NotFound(purchasedAt)]. *)
Definition collapse (purchasedAt : string) (errs : list BaseError) : list BaseError :=
  match errs with
  | [NotFoundError _ _; _] => [NotFoundError "purchasedAt" purchasedAt]
  | _ => errs
  end.








(** A magnitude with its sign bit. *)
Definition signed (negative : bool) (q : Q) : Q := if negative then (- q)%Q else q.

(** The gain as the code computes it. *)
Definition code_difference (amount lastPrice closePrice : number) : number :=
  fsub (fmul lastPrice amount) (fmul closePrice amount).

(** The projection assembled from a quote and the first price point of
    the day. *)
Definition projected (E : Env) (stock_name amount : string) (today : GetStockBySymbol)
    (first : HistoricPrices) (iso : string) : GetProjectedGains :=
  {| gains_name := toUpperCase E stock_name;
     gains_lastPrice := quote_lastPrice today;
     priceAtDate := closing first;
     purchasedAmount := Number_ E (Some amount);
     purchasedAt := iso;
     capitalGains :=
       toFixed2_Number E
         (code_difference (Number_ E (Some amount)) (quote_lastPrice today) (closing first)) |}.

(** A promise of the inline listener, once resolved with a success,
    carries the uppercased name. *)
Definition named (E : Env) (stock_name : string) (l : Inline.Listener) : Prop :=
  forall r, Inline.promise l = Some (ControllerSuccess r) ->
            history_name r = toUpperCase E stock_name.

(** The check the quote lookup hands to the validator. *)
Definition quoteChecks (stock_name : string) : list Check :=
  [(STRING, ("stock_name", [stock_name]))].

(** The validator answers with errors or with nothing, never with an
    empty list of errors. *)
Definition validator_reports_errors (E : Env) : Prop :=
  forall checks errs, getValidationErrors E checks = Some errs -> errs <> [].

(** ** The controller's instance

    [static instance], the private constructor with its default
    services, and [getInstance]. *)

Module Singleton.

Record ApiController : Type := {
  yahooApiService : string -> YahooReply;
  alphaApiService : string -> AlphaReply }.

Section Instance.
(** [new YahooApiService()] and [new AlphaVantageApiService()] *)
Variables (newYahooApiService : string -> YahooReply)
          (newAlphaVantageApiService : string -> AlphaReply).

(** The constructor: an argument left [undefined] takes its default. *)
Definition construct (yahoo : option (string -> YahooReply))
    (alpha : option (string -> AlphaReply)) : ApiController :=
  {| yahooApiService := match yahoo with Some y => y | None => newYahooApiService end;
     alphaApiService := match alpha with Some a => a | None => newAlphaVantageApiService end |}.

(** [getInstance] on the static field: the controller returned and the
    field afterwards. *)
Definition getInstance (instance : option ApiController)
    (yahoo : option (string -> YahooReply)) (alpha : option (string -> AlphaReply))
  : ApiController * option ApiController :=
  match instance with
  | None => let created := construct yahoo alpha in (created, Some created)
  | Some existing => (existing, instance)
  end.

(** Successive calls, each with its arguments; the controllers returned. *)
Fixpoint getInstances (instance : option ApiController)
    (arguments : list (option (string -> YahooReply) * option (string -> AlphaReply)))
  : list ApiController :=
  match arguments with
  | [] => []
  | (yahoo, alpha) :: rest =>
      let (returned, instance') := getInstance instance yahoo alpha in
      returned :: getInstances instance' rest
  end.

End Instance.
End Singleton.

(** ** More vocabulary *)

(** Whether the validator lets a symbol through to the quote provider. *)
Definition passes (E : Env) (stock_name : string) : bool :=
  match getValidationErrors E [(STRING, ("stock_name", [stock_name]))] with
  | None => true
  | Some _ => false
  end.

(** The response made of the text of a window: what [JSON.parse] and the
    formatter make of it, with the answer to give when either throws. *)
Definition responseOf {R} (E : Env) (stock_name text : string)
    (success : GetStockHistoryBySymbol -> R) (thrown : R) : R :=
  match JSON_parse E text with
  | None => thrown
  | Some raw =>
      match formatJSONHistoryObject E raw with
      | None => thrown
      | Some points =>
          success {| history_name := toUpperCase E stock_name; prices := points |}
      end
  end.

(** The lines of a window: those up to the one that names the last day,
    that line, and the rest of the last day's record. *)
Definition windowLines (before : list string) (closing : string) (body : list string)
  : list string :=
  before ++ closing :: body.

(** The number a finite or zero product stands for can be subtracted
    from itself. *)
Definition is_number (x : number) : bool :=
  match x with
  | S754_finite _ _ _ | S754_zero _ => true
  | _ => false
  end.

(** * Properties *)

(** ** The call log *)

Lemma outcome_ret {A} (a : A) : outcome (ret a) = a.
Proof. reflexivity. Qed.

Lemma calls_ret {A} (a : A) : calls (ret a) = [].
Proof. reflexivity. Qed.

Lemma outcome_bind {A B} (m : IO A) (f : A -> IO B) :
  outcome (bind m f) = outcome (f (outcome m)).
Proof.
  unfold bind, outcome. destruct m as [a l1]. cbn [fst].
  destruct (f a) as [b l2]. reflexivity.
Qed.

Lemma calls_bind {A B} (m : IO A) (f : A -> IO B) :
  calls (bind m f) = calls m ++ calls (f (outcome m)).
Proof.
  unfold bind, outcome, calls. destruct m as [a l1]. cbn [fst snd].
  destruct (f a) as [b l2]. reflexivity.
Qed.

Lemma io_eq {A} (m : IO A) : m = (outcome m, calls m).
Proof. destruct m; reflexivity. Qed.

Create Rewrite HintDb io.
#[local] Hint Rewrite @outcome_ret @calls_ret @outcome_bind @calls_bind : io.

Ltac io := autorewrite with io; cbn [outcome calls fst snd callYahoo callAlpha].

(** Split a conjunction into its parts, and nothing else. *)
Ltac conj := repeat match goal with |- _ /\ _ => split end.

(** Case analysis on the scrutinee of the first [match] of the goal or of
    a hypothesis. *)
Ltac split_match :=
  match goal with
  | |- context [match ?x with _ => _ end] => destruct x eqn:?
  | H : context [match ?x with _ => _ end] |- _ => destruct x eqn:?
  end.


(** ** Names *)

Section Names.
Context (E : Env).
Let named := named E.

Lemma named_resolve stock_name l p r :
  named stock_name l ->
  (forall h, r = ControllerSuccess h -> history_name h = toUpperCase E stock_name) ->
  Inline.promise p = Inline.resolve (Inline.promise l) r ->
  named stock_name p.
Proof.
  intros Hl Hr Hp h Hh. rewrite Hp in Hh. unfold Inline.resolve in Hh.
  destruct (Inline.promise l) eqn:Hpl.
  - apply Hl. rewrite Hpl. exact Hh.
  - injection Hh as Hh. apply Hr. exact Hh.
Qed.

Lemma named_onPause stock_name l :
  named stock_name l -> named stock_name (Inline.onPause E stock_name l).
Proof.
  intros Hl. unfold Inline.onPause.
  destruct (String.eqb _ "{}").
  - eapply named_resolve; [exact Hl | | reflexivity]. discriminate.
  - destruct (JSON_parse E _) as [raw|]; [|exact Hl].
    destruct (formatJSONHistoryObject E raw) as [ps|]; [|exact Hl].
    eapply named_resolve; [exact Hl | | reflexivity].
    intros h Hh. injection Hh as <-. reflexivity.
Qed.

Lemma named_pause stock_name l :
  named stock_name l -> named stock_name (Inline.pause E stock_name l).
Proof.
  intros Hl. unfold Inline.pause. destruct (Inline.flowing l); [|exact Hl].
  apply named_onPause. exact Hl.
Qed.

Lemma named_onData stock_name first last l line :
  named stock_name l -> named stock_name (Inline.onData E stock_name first last l line).
Proof.
  intros Hl. unfold Inline.onData.
  set (l1 := if JS.includes line "Error Message" then Inline.pause E stock_name l else l).
  assert (H1 : named stock_name l1).
  { subst l1. destruct (JS.includes line "Error Message"); [apply named_pause|]; exact Hl. }
  clearbody l1.
  destruct (Inline.faulted l1); [exact H1|].
  repeat split_match; try apply named_pause; exact H1.
Qed.

Lemma named_deliver stock_name from to first last lines : forall l,
  named stock_name l ->
  named stock_name (Inline.deliver E stock_name from to first last lines l).
Proof.
  induction lines as [|line rest IH]; intros l Hl; cbn [Inline.deliver].
  - destruct (Inline.flowing l && negb (Inline.faulted l)); [|exact Hl].
    eapply named_resolve; [exact Hl | | reflexivity]. discriminate.
  - destruct (Inline.flowing l && negb (Inline.faulted l)); [|exact Hl].
    apply IH. apply named_onData. exact Hl.
Qed.

Lemma searcher_history_name stock_name from to r :
  outcome (Searcher.getStockHistoryBySymbol E stock_name from to) = ControllerSuccess r ->
  history_name r = toUpperCase E stock_name.
Proof.
  unfold Searcher.getStockHistoryBySymbol.
  destruct (getValidationErrors E _); io; [discriminate|].
  destruct (alpha_getStockHistoryAsStream E stock_name) as [lines|]; io; [|discriminate].
  destruct (Searcher.searchTimeIntervalInHistory E lines from to) as [ps|error]; io.
  - intros H. injection H as <-. reflexivity.
  - unfold Searcher.catchHistory. repeat split_match; discriminate.
Qed.

Lemma inline_history_name stock_name from to r :
  outcome (Inline.getStockHistoryBySymbol E stock_name from to)
    = Returns (ControllerSuccess r) ->
  history_name r = toUpperCase E stock_name.
Proof.
  unfold Inline.getStockHistoryBySymbol.
  destruct (getValidationErrors E _); io; [discriminate|].
  destruct (alpha_getStockHistoryAsStream E stock_name) as [lines|]; io; [|discriminate].
  destruct (formatDate E to) as [first|]; io; [|discriminate].
  destruct (formatDate E from) as [last|]; io; [|discriminate].
  unfold Inline.settled.
  destruct (Inline.promise _) eqn:Hp; [|discriminate].
  intros H. injection H as ->.
  eapply named_deliver; [|exact Hp]. intros h Hh. discriminate.
Qed.

End Names.

Lemma searcher_gains_name (E : Env) stock_name amount date g :
  outcome (Searcher.projectGains E stock_name amount date) = Returns (ControllerSuccess g) ->
  gains_name g = toUpperCase E stock_name.
Proof.
  unfold Searcher.projectGains.
  destruct (getValidationErrors E _); io; [discriminate|].
  destruct (outcome (getStockBySymbol E stock_name)); io; [|discriminate].
  destruct (outcome (Searcher.getStockHistoryBySymbol E stock_name date date)) as [h|errs]; io.
  - destruct (prices h); io; [discriminate|].
    destruct (Date_toISOString E date); io; [|discriminate].
    intros H. injection H as <-. reflexivity.
  - repeat split_match; io; discriminate.
Qed.

Lemma inline_gains_name (E : Env) stock_name amount date g :
  outcome (Inline.projectGains E stock_name amount date) = Returns (ControllerSuccess g) ->
  gains_name g = toUpperCase E stock_name.
Proof.
  unfold Inline.projectGains.
  destruct (getValidationErrors E _); io; [discriminate|].
  destruct (outcome (Inline.getStockHistoryBySymbol E stock_name date date)) as [[h|errs]|];
    io; destruct (outcome (getStockBySymbol E stock_name)); io; try discriminate.
  - destruct (prices h); io; [discriminate|].
    destruct (Date_toISOString E date); io; [|discriminate].
    intros H. injection H as <-. reflexivity.
  - repeat split_match; io; discriminate.
  - repeat split_match; io; discriminate.
  - repeat split_match; io; discriminate.
Qed.

Lemma quote_name_is_symbol (E : Env) stock_name q :
  outcome (getStockBySymbol E stock_name) = ControllerSuccess q ->
  exists price time,
    yahoo_getStockBySymbol E stock_name = YahooQuote (quote_name q) price time.
Proof.
  unfold getStockBySymbol.
  destruct (getValidationErrors E _); io; [discriminate|].
  destruct (yahoo_getStockBySymbol E stock_name) as [symbol price time|code]; io.
  - destruct (Date_ms_toISOString E _); io; [|discriminate].
    intros H. injection H as <-. exists price, time. reflexivity.
  - destruct code as [c|]; [destruct (String.eqb c "Not Found")|]; io; discriminate.
Qed.

(** C10.  Every successful history window and gains projection, from
    either text of the controller, reports [stock_name.toUpperCase()]
    whatever the caller's casing; a successful quote reports the [symbol]
    field of the provider's reply as it is. *)
Theorem C10_reported_names (E : Env) (stock_name : string) :
  (forall from to r,
      outcome (Searcher.getStockHistoryBySymbol E stock_name from to) = ControllerSuccess r ->
      history_name r = toUpperCase E stock_name) /\
  (forall from to r,
      outcome (Inline.getStockHistoryBySymbol E stock_name from to)
        = Returns (ControllerSuccess r) ->
      history_name r = toUpperCase E stock_name) /\
  (forall amount date g,
      outcome (Searcher.projectGains E stock_name amount date) = Returns (ControllerSuccess g) ->
      gains_name g = toUpperCase E stock_name) /\
  (forall amount date g,
      outcome (Inline.projectGains E stock_name amount date) = Returns (ControllerSuccess g) ->
      gains_name g = toUpperCase E stock_name) /\
  (forall q,
      outcome (getStockBySymbol E stock_name) = ControllerSuccess q ->
      exists price time,
        yahoo_getStockBySymbol E stock_name = YahooQuote (quote_name q) price time).
Proof.
  repeat split; intros.
  - eapply searcher_history_name; eassumption.
  - eapply inline_history_name; eassumption.
  - eapply searcher_gains_name; eassumption.
  - eapply inline_gains_name; eassumption.
  - eapply quote_name_is_symbol; eassumption.
Qed.

(** The mocked controller asked about ["ibm"]: windows and projections
    are named ["IBM"] by uppercasing, the quote by the provider. *)
Lemma C10_reported_names_witness :
  (exists r,
      outcome (Searcher.getStockHistoryBySymbol Fixture.mock "ibm" "2022-11-21" "2022-11-22")
        = ControllerSuccess r /\ history_name r = "IBM") /\
  (exists r,
      outcome (Inline.getStockHistoryBySymbol Fixture.mock "ibm" "2022-11-21" "2022-11-22")
        = Returns (ControllerSuccess r) /\ history_name r = "IBM") /\
  (exists g,
      outcome (Searcher.projectGains Fixture.mock "ibm" "10" "2022-11-22")
        = Returns (ControllerSuccess g) /\ gains_name g = "IBM") /\
  (exists g,
      outcome (Inline.projectGains Fixture.mock "ibm" "10" "2022-11-22")
        = Returns (ControllerSuccess g) /\ gains_name g = "IBM") /\
  (exists q,
      outcome (getStockBySymbol Fixture.mock "ibm") = ControllerSuccess q /\
      exists price time,
        yahoo_getStockBySymbol Fixture.mock "ibm" = YahooQuote (quote_name q) price time).
Proof.
  destruct (C10_reported_names Fixture.mock "ibm") as (H1 & H2 & H3 & H4 & H5).
  assert (Q1 : { r | outcome (Searcher.getStockHistoryBySymbol Fixture.mock "ibm"
                                "2022-11-21" "2022-11-22") = ControllerSuccess r })
    by (eexists; vm_compute; reflexivity).
  assert (Q2 : { r | outcome (Inline.getStockHistoryBySymbol Fixture.mock "ibm"
                                "2022-11-21" "2022-11-22") = Returns (ControllerSuccess r) })
    by (eexists; vm_compute; reflexivity).
  assert (Q3 : { g | outcome (Searcher.projectGains Fixture.mock "ibm" "10" "2022-11-22")
                     = Returns (ControllerSuccess g) })
    by (eexists; vm_compute; reflexivity).
  assert (Q4 : { g | outcome (Inline.projectGains Fixture.mock "ibm" "10" "2022-11-22")
                     = Returns (ControllerSuccess g) })
    by (eexists; vm_compute; reflexivity).
  assert (Q5 : { q | outcome (getStockBySymbol Fixture.mock "ibm") = ControllerSuccess q })
    by (eexists; vm_compute; reflexivity).
  destruct Q1 as [r1 E1], Q2 as [r2 E2], Q3 as [g3 E3], Q4 as [g4 E4], Q5 as [q5 E5].
  repeat split.
  - exists r1. split; [exact E1 | exact (H1 _ _ _ E1)].
  - exists r2. split; [exact E2 | exact (H2 _ _ _ E2)].
  - exists g3. split; [exact E3 | exact (H3 _ _ _ E3)].
  - exists g4. split; [exact E4 | exact (H4 _ _ _ E4)].
  - exists q5. split; [exact E5 | exact (H5 _ E5)].
Defined.


(** ** Comparison *)

Section Comparison.
Context (E : Env).

Let lookup (s : string) : Response GetStockBySymbol := outcome (getStockBySymbol E s).
Let requests (s : string) : list ProviderCall := calls (getStockBySymbol E s).

(** The loop visits the symbols from left to right, one lookup each, and
    files every result in one of the two arrays. *)
Lemma compareLoop_spec stocks : forall successArray errorArray,
  compareLoop E stocks successArray errorArray
  = ((successArray ++ flat_map successOf (map lookup stocks),
      errorArray ++ flat_map failureOf (map lookup stocks)),
     flat_map requests stocks).
Proof.
  induction stocks as [|stock rest IH]; intros sa ea; cbn [compareLoop map flat_map].
  - unfold ret. rewrite !app_nil_r. reflexivity.
  - rewrite (io_eq (bind _ _)). io.
    fold (lookup stock) (requests stock).
    destruct (lookup stock) as [r|es] eqn:Hl; rewrite IH; cbn [outcome calls fst snd successOf failureOf];
      rewrite <- ?app_assoc; reflexivity.
Qed.

Lemma compare_calls stock_name stocks :
  calls (compareStockBySymbols E stock_name stocks)
  = flat_map requests (stock_name :: stocks).
Proof.
  unfold compareStockBySymbols. io. rewrite compareLoop_spec.
  cbn [outcome calls fst snd].
  destruct (0 <? _)%nat; io; rewrite app_nil_r; reflexivity.
Qed.

Lemma compare_outcome stock_name stocks :
  outcome (compareStockBySymbols E stock_name stocks)
  = let results := map lookup (stock_name :: stocks) in
    if (0 <? length (flat_map failureOf results))%nat
    then Errors (flat_map failureOf results)
    else ControllerSuccess (flat_map successOf results).
Proof.
  unfold compareStockBySymbols. io. rewrite compareLoop_spec.
  cbn [outcome calls fst snd app]. cbv zeta.
  destruct (0 <? _)%nat; io; reflexivity.
Qed.

Lemma all_succeeded (results : list (Response GetStockBySymbol)) :
  existsb failed results = false ->
  flat_map failureOf results = [] /\
  map ControllerSuccess (flat_map successOf results) = results.
Proof.
  induction results as [|r rest IH]; cbn [existsb flat_map map]; [auto|].
  intros H. apply orb_false_iff in H as [Hr Hrest].
  destruct (IH Hrest) as [IH1 IH2].
  destruct r as [x|es]; [|discriminate]. cbn. rewrite IH1, IH2. auto.
Qed.

Lemma quote_validation_short_circuit stock_name errs :
  getValidationErrors E (quoteChecks stock_name) = Some errs ->
  getStockBySymbol E stock_name = (Errors errs, []).
Proof.
  unfold getStockBySymbol, quoteChecks. intros ->. reflexivity.
Qed.

Lemma quote_failure_nonempty stock_name errs :
  validator_reports_errors E ->
  lookup stock_name = Errors errs -> errs <> [].
Proof.
  intros HV. subst lookup. cbv beta. unfold getStockBySymbol.
  destruct (getValidationErrors E _) as [ve|] eqn:Hv; io.
  - intros H. injection H as <-. eapply HV. exact Hv.
  - repeat split_match; io; intros H; try discriminate; injection H as <-; discriminate.
Qed.

Lemma some_failed (results : list (Response GetStockBySymbol)) :
  (forall r errs, In r results -> r = Errors errs -> errs <> []) ->
  existsb failed results = true ->
  (0 <? length (flat_map failureOf results))%nat = true.
Proof.
  intros Hne H. apply existsb_exists in H as (r & Hin & Hr).
  destruct r as [x|es]; [discriminate|].
  apply Nat.ltb_lt.
  assert (Hes : es <> []) by (eapply Hne; [exact Hin | reflexivity]).
  apply in_split in Hin as (l1 & l2 & ->).
  rewrite flat_map_app. cbn [flat_map failureOf]. rewrite !length_app.
  destruct es; [congruence|]. cbn [length]. lia.
Qed.

End Comparison.

(** C5.  The comparison looks every symbol up once, in input order.  If
    any lookup fails, the result is the failure made of every lookup's
    errors, in input order; otherwise it is the success holding every
    quote, in input order; and it is a success only when no lookup
    failed.  The validator is taken to answer with errors or with
    nothing. *)
Theorem C5_comparison (E : Env) (stock_name : string) (stocks : list string) :
  validator_reports_errors E ->
  let symbols := stock_name :: stocks in
  let results := map (fun s => outcome (getStockBySymbol E s)) symbols in
  calls (compareStockBySymbols E stock_name stocks)
    = flat_map (fun s => calls (getStockBySymbol E s)) symbols /\
  (existsb failed results = true ->
   outcome (compareStockBySymbols E stock_name stocks)
     = Errors (flat_map failureOf results)) /\
  (existsb failed results = false ->
   outcome (compareStockBySymbols E stock_name stocks)
     = ControllerSuccess (flat_map successOf results) /\
   map ControllerSuccess (flat_map successOf results) = results) /\
  (forall quotes,
      outcome (compareStockBySymbols E stock_name stocks) = ControllerSuccess quotes ->
      existsb failed results = false).
Proof.
  intros HV symbols results.
  assert (Hne : forall r errs, In r results -> r = Errors errs -> errs <> []).
  { intros r errs Hin ->. apply in_map_iff in Hin as (s & Hs & _).
    eapply quote_failure_nonempty; eassumption. }
  pose proof (compare_outcome E stock_name stocks) as Hout. cbv zeta in Hout.
  fold symbols in Hout. fold results in Hout.
  split; [apply compare_calls|].
  split; [|split].
  - intros Hf. rewrite Hout, (some_failed results Hne Hf). reflexivity.
  - intros Hf. destruct (all_succeeded results Hf) as [H0 Hs].
    split; [|exact Hs]. rewrite Hout, H0. reflexivity.
  - intros quotes Hq. destruct (existsb failed results) eqn:Hf; [|reflexivity].
    rewrite Hout, (some_failed results Hne Hf) in Hq. discriminate.
Qed.

Lemma fixture_validator_reports_errors price history :
  validator_reports_errors (Fixture.env price history).
Proof.
  intros checks errs. cbn [getValidationErrors Fixture.env]. unfold Fixture.validate.
  destruct (flat_map Fixture.checkOne checks); [discriminate|].
  intros H. injection H as <-. discriminate.
Qed.

(** The comparison of the tests: the first and the third symbol are
    unknown to the provider, and both failures come back, in order. *)
Lemma C5_comparison_witness :
  validator_reports_errors Fixture.mock /\
  calls (compareStockBySymbols Fixture.mock "Non Existent" ["ibm"; "Non Existent"])
    = [YahooCall "Non Existent"; YahooCall "ibm"; YahooCall "Non Existent"] /\
  outcome (compareStockBySymbols Fixture.mock "Non Existent" ["ibm"; "Non Existent"])
    = Errors [NotFoundError "stock_name" "Non Existent";
              NotFoundError "stock_name" "Non Existent"].
Proof.
  pose proof (C5_comparison Fixture.mock "Non Existent" ["ibm"; "Non Existent"]
                (fixture_validator_reports_errors _ _)) as H.
  cbv zeta in H. destruct H as (Hc & Hf & _).
  split; [apply fixture_validator_reports_errors|]. split.
  - rewrite Hc. vm_compute. reflexivity.
  - rewrite Hf; vm_compute; reflexivity.
Defined.

(** ** Validation comes first *)

Lemma history_validation_short_circuit (E : Env) stock_name from to errs :
  getValidationErrors E (historyChecks stock_name from to) = Some errs ->
  Searcher.getStockHistoryBySymbol E stock_name from to = (Errors errs, []) /\
  Inline.getStockHistoryBySymbol E stock_name from to = (Returns (Errors errs), []).
Proof.
  intros H. unfold Searcher.getStockHistoryBySymbol, Inline.getStockHistoryBySymbol.
  rewrite H. split; reflexivity.
Qed.

Lemma gains_validation_short_circuit (E : Env) stock_name amount date errs :
  getValidationErrors E (gainsChecks stock_name amount date) = Some errs ->
  Searcher.projectGains E stock_name amount date = (Returns (Errors errs), []) /\
  Inline.projectGains E stock_name amount date = (Returns (Errors errs), []).
Proof.
  intros H. unfold Searcher.projectGains, Inline.projectGains.
  rewrite H. split; reflexivity.
Qed.

Lemma compare_rejected_symbol (E : Env) stock_name stocks before symbol after errs :
  stock_name :: stocks = before ++ symbol :: after ->
  getValidationErrors E (quoteChecks symbol) = Some errs ->
  calls (compareStockBySymbols E stock_name stocks)
    = flat_map (fun s => calls (getStockBySymbol E s)) before
      ++ flat_map (fun s => calls (getStockBySymbol E s)) after /\
  (errs <> [] ->
   outcome (compareStockBySymbols E stock_name stocks)
     = Errors (flat_map failureOf (map (fun s => outcome (getStockBySymbol E s)) before)
               ++ errs
               ++ flat_map failureOf (map (fun s => outcome (getStockBySymbol E s)) after))).
Proof.
  intros Hsplit Hv.
  pose proof (quote_validation_short_circuit E symbol errs Hv) as Hq.
  split.
  - rewrite compare_calls, Hsplit, flat_map_app. cbn [flat_map].
    rewrite Hq. reflexivity.
  - intros Hne. rewrite compare_outcome. cbv zeta.
    rewrite Hsplit, map_app, flat_map_app. cbn [map flat_map]. rewrite Hq.
    cbn [outcome fst failureOf].
    destruct (0 <? _)%nat eqn:Hlen; [reflexivity|].
    apply Nat.ltb_ge in Hlen. rewrite !length_app in Hlen.
    destruct errs; [congruence|]. cbn [length] in Hlen. lia.
Qed.

(** C9, as the code has it.  A quote lookup, a history window and a gains
    projection whose parameters the validator rejects return the
    validator's list as it is and call no provider.  The comparison has
    no validation of its own: a symbol the validator rejects costs no
    provider call and its errors appear as they are, at the symbol's
    place, in the returned failure, next to the calls and the errors of
    the other symbols. *)
Theorem C9_validation_first (E : Env) :
  (forall stock_name errs,
      getValidationErrors E (quoteChecks stock_name) = Some errs ->
      getStockBySymbol E stock_name = (Errors errs, [])) /\
  (forall stock_name from to errs,
      getValidationErrors E (historyChecks stock_name from to) = Some errs ->
      Searcher.getStockHistoryBySymbol E stock_name from to = (Errors errs, []) /\
      Inline.getStockHistoryBySymbol E stock_name from to = (Returns (Errors errs), [])) /\
  (forall stock_name amount date errs,
      getValidationErrors E (gainsChecks stock_name amount date) = Some errs ->
      Searcher.projectGains E stock_name amount date = (Returns (Errors errs), []) /\
      Inline.projectGains E stock_name amount date = (Returns (Errors errs), [])) /\
  (forall stock_name stocks before symbol after errs,
      stock_name :: stocks = before ++ symbol :: after ->
      getValidationErrors E (quoteChecks symbol) = Some errs ->
      calls (compareStockBySymbols E stock_name stocks)
        = flat_map (fun s => calls (getStockBySymbol E s)) before
          ++ flat_map (fun s => calls (getStockBySymbol E s)) after /\
      (errs <> [] ->
       outcome (compareStockBySymbols E stock_name stocks)
         = Errors (flat_map failureOf (map (fun s => outcome (getStockBySymbol E s)) before)
                   ++ errs
                   ++ flat_map failureOf (map (fun s => outcome (getStockBySymbol E s)) after)))).
Proof.
  split; [|split; [|split]].
  - apply quote_validation_short_circuit.
  - apply history_validation_short_circuit.
  - apply gains_validation_short_circuit.
  - apply compare_rejected_symbol.
Qed.

(** An empty symbol, which the validator of the fixture rejects. *)
Lemma C9_validation_first_witness :
  getStockBySymbol Fixture.mock EmptyString
    = (Errors [ValidationError "stock_name must not be empty"], []) /\
  Searcher.getStockHistoryBySymbol Fixture.mock EmptyString "2022-11-21" "2022-11-22"
    = (Errors [ValidationError "stock_name must not be empty"], []) /\
  Inline.projectGains Fixture.mock EmptyString "10" "2022-11-22"
    = (Returns (Errors [ValidationError "stock_name must not be empty"]), []) /\
  calls (compareStockBySymbols Fixture.mock "ibm" [EmptyString; "Non Existent"])
    = [YahooCall "ibm"; YahooCall "Non Existent"] /\
  outcome (compareStockBySymbols Fixture.mock "ibm" [EmptyString; "Non Existent"])
    = Errors [ValidationError "stock_name must not be empty";
              NotFoundError "stock_name" "Non Existent"].
Proof.
  destruct (C9_validation_first Fixture.mock) as (Hq & Hh & Hg & Hc).
  split; [apply Hq; reflexivity|].
  split; [apply (Hh EmptyString "2022-11-21" "2022-11-22"); reflexivity|].
  split; [apply (Hg EmptyString "10" "2022-11-22"); reflexivity|].
  destruct (Hc "ibm" [EmptyString; "Non Existent"] ["ibm"] EmptyString ["Non Existent"]
              [ValidationError "stock_name must not be empty"] eq_refl eq_refl) as [H1 H2].
  split.
  - rewrite H1. vm_compute. reflexivity.
  - rewrite H2 by discriminate. vm_compute. reflexivity.
Defined.

(** C9 as stated fails on the comparison: the validator rejects the
    first symbol with a non-empty list, and yet the provider is called
    for the second one and the result is not the validator's list. *)
Lemma C9_counterexample :
  getValidationErrors Fixture.mock (quoteChecks EmptyString)
    = Some [ValidationError "stock_name must not be empty"] /\
  calls (compareStockBySymbols Fixture.mock EmptyString ["Non Existent"])
    = [YahooCall "Non Existent"] /\
  outcome (compareStockBySymbols Fixture.mock EmptyString ["Non Existent"])
    = Errors [ValidationError "stock_name must not be empty";
              NotFoundError "stock_name" "Non Existent"] /\
  compareStockBySymbols Fixture.mock EmptyString ["Non Existent"]
    <> (Errors [ValidationError "stock_name must not be empty"], []).
Proof.
  conj; try (vm_compute; reflexivity).
  vm_compute. discriminate.
Qed.

(** ** Strings *)

Lemma append_nil_r (s : string) : (s ++ EmptyString)%string = s.
Proof. induction s as [|c s IH]; cbn; congruence. Qed.

Lemma append_assoc (a b c : string) : ((a ++ b) ++ c)%string = (a ++ b ++ c)%string.
Proof. induction a as [|x a IH]; cbn; congruence. Qed.

(** ** The scanner of [HistorySearcher] *)

Module SearcherFacts.
Import Searcher.

Section Scanning.
Variables first last : string.

Lemma run_app pre post :
  run first last (pre ++ post) = fold_left (onData first last) post (run first last pre).
Proof. unfold run. apply fold_left_app. Qed.

(** Before the window opens, a line that neither opens it nor carries
    the marker changes nothing. *)
Lemma onData_idle sc line :
  reading (state sc) = false ->
  foundStartOfWantedInterval line first = false ->
  didntFoundStockInDatabase line = false ->
  onData first last sc line = sc.
Proof.
  intros Hr Hs He. unfold onData. rewrite Hs, He.
  unfold shouldIgnoreForPerformance. rewrite Hr. destruct sc; reflexivity.
Qed.

Lemma idle_lines lines : forall sc,
  reading (state sc) = false ->
  Forall (fun line => foundStartOfWantedInterval line first = false /\
                      didntFoundStockInDatabase line = false) lines ->
  fold_left (onData first last) lines sc = sc.
Proof.
  induction lines as [|line rest IH]; intros sc Hr Hall; [reflexivity|].
  inversion Hall as [|? ? [Hs He] Hrest]; subst. cbn [fold_left].
  rewrite onData_idle by assumption. apply IH; assumption.
Qed.

(** A settled promise stays as it is. *)
Lemma onData_settled sc line s :
  promise sc = Some s -> promise (onData first last sc line) = Some s.
Proof.
  intros Hp. unfold onData. rewrite Hp.
  repeat split_match; cbn [promise settle]; reflexivity.
Qed.

Lemma settled_lines lines : forall sc s,
  promise sc = Some s -> promise (fold_left (onData first last) lines sc) = Some s.
Proof.
  induction lines as [|line rest IH]; intros sc s Hp; [exact Hp|].
  cbn [fold_left]. apply IH. apply onData_settled. exact Hp.
Qed.

(** The marker rejects a promise that is still pending. *)
Lemma onData_marker sc line :
  promise sc = None ->
  didntFoundStockInDatabase line = true ->
  promise (onData first last sc line) = Some (Rejected "stock").
Proof.
  intros Hp He. unfold onData. rewrite Hp, He.
  repeat split_match; cbn [promise settle]; reflexivity.
Qed.

Lemma scan_settled lines s :
  promise (run first last lines) = Some s ->
  scanStreamForTimeInterval lines first last = s.
Proof.
  intros Hp. unfold scanStreamForTimeInterval, onEnd. cbn [promise].
  rewrite Hp. reflexivity.
Qed.

Lemma scan_marker pre line post :
  promise (run first last pre) = None ->
  didntFoundStockInDatabase line = true ->
  scanStreamForTimeInterval (pre ++ line :: post) first last = Rejected "stock".
Proof.
  intros Hp He. apply scan_settled. rewrite run_app. cbn [fold_left].
  apply settled_lines. apply onData_marker; assumption.
Qed.

(** Inside the window, a line without the marker that does not close the
    last object is appended and nothing else happens. *)
Lemma onData_reading sc line :
  reading (state sc) = true ->
  didntFoundStockInDatabase line = false ->
  finishedReadingLastObject
    (if foundEndOfWantedInterval line last
     then startLookingForLastObject (state sc) else state sc) line = false ->
  onData first last sc line
  = {| state := if foundEndOfWantedInterval line last
                then startLookingForLastObject (state sc) else state sc;
       result := (result sc ++ line)%string;
       promise := promise sc |}.
Proof.
  intros Hr He Hf. unfold onData. rewrite He.
  assert (H1 : (if foundStartOfWantedInterval line first
                then startReading (state sc) else state sc) = state sc).
  { destruct (foundStartOfWantedInterval line first); [|reflexivity].
    unfold startReading. destruct (state sc) as [r e]. cbn in Hr. subst r. reflexivity. }
  rewrite H1. unfold shouldIgnoreForPerformance. rewrite Hr. cbn [Bool.eqb].
  rewrite Hf.
  assert (H2 : isScanningThrougSearchingInterval
                 (if foundEndOfWantedInterval line last
                  then startLookingForLastObject (state sc) else state sc) = true).
  { unfold isScanningThrougSearchingInterval.
    destruct (foundEndOfWantedInterval line last); cbn [startLookingForLastObject reading];
      rewrite Hr; reflexivity. }
  rewrite H2. reflexivity.
Qed.

(** While the last object is being read, lines without a closing brace
    and without the marker are appended one after the other. *)
Lemma finishing_lines body : forall sc,
  reading (state sc) = true ->
  ending (state sc) = true ->
  Forall (fun line => JS.includes line "}" = false /\
                      didntFoundStockInDatabase line = false) body ->
  fold_left (onData first last) body sc
  = {| state := state sc;
       result := (result sc ++ joined body)%string;
       promise := promise sc |}.
Proof.
  induction body as [|line rest IH]; intros sc Hr He Hall.
  - cbn. rewrite append_nil_r. destruct sc; reflexivity.
  - inversion Hall as [|? ? [Hb Hm] Hrest]; subst. cbn [fold_left].
    assert (Hst : (if foundEndOfWantedInterval line last
                   then startLookingForLastObject (state sc) else state sc) = state sc).
    { destruct (foundEndOfWantedInterval line last); [|reflexivity].
      unfold startLookingForLastObject. destruct (state sc) as [r e]. cbn in He. subst e.
      reflexivity. }
    rewrite onData_reading; try assumption.
    2:{ rewrite Hst. unfold finishedReadingLastObject. rewrite Hb. apply andb_false_r. }
    rewrite Hst. rewrite IH; try assumption. cbn [state result promise joined fold_right].
    rewrite append_assoc. reflexivity.
Qed.

(** The line that closes the last object settles the promise with the
    text read so far, a trailing comma removed if there is one, and the
    closing brace. *)
Lemma onData_close sc line :
  reading (state sc) = true ->
  ending (state sc) = true ->
  promise sc = None ->
  didntFoundStockInDatabase line = false ->
  JS.includes line "}" = true ->
  promise (onData first last sc line)
  = Some (Resolved (removeLastCommaIfNecessary (result sc ++ line) ++ "}")).
Proof.
  intros Hr He Hp Hm Hb. unfold onData. rewrite Hm, Hp.
  destruct (state sc) as [r e] eqn:Hst. cbn in Hr, He. subst r e.
  unfold shouldIgnoreForPerformance, finishedReadingLastObject,
    isScanningThrougSearchingInterval.
  destruct (foundStartOfWantedInterval line first),
           (foundEndOfWantedInterval line last);
    cbn [startReading startLookingForLastObject reading ending Bool.eqb andb promise settle];
    rewrite Hb; reflexivity.
Qed.

Lemma scan_close pre line post :
  reading (state (run first last pre)) = true ->
  ending (state (run first last pre)) = true ->
  promise (run first last pre) = None ->
  didntFoundStockInDatabase line = false ->
  JS.includes line "}" = true ->
  scanStreamForTimeInterval (pre ++ line :: post) first last
  = Resolved (removeLastCommaIfNecessary (result (run first last pre) ++ line) ++ "}").
Proof.
  intros Hr He Hp Hm Hb. apply scan_settled. rewrite run_app. cbn [fold_left].
  apply settled_lines. apply onData_close; assumption.
Qed.

End Scanning.

(** The trim looks at the last character: a text that does not end with
    a comma is kept whole, and of one that does only that comma goes. *)
Lemma removeLastComma_kept text :
  JS.endsWith text "," = false -> removeLastCommaIfNecessary text = text.
Proof. unfold removeLastCommaIfNecessary. intros ->. reflexivity. Qed.

Lemma endsWith_comma text : JS.endsWith (text ++ ",") "," = true.
Proof.
  induction text as [|c text IH]; [reflexivity|].
  cbn [String.append JS.endsWith]. rewrite IH. destruct (String.eqb _ _); reflexivity.
Qed.

Lemma slice_comma text : JS.slice_0_m1 (text ++ ",") = text.
Proof.
  induction text as [|c text IH]; [reflexivity|].
  cbn [String.append JS.slice_0_m1]. rewrite IH.
  destruct text; reflexivity.
Qed.

Lemma removeLastComma_dropped text :
  removeLastCommaIfNecessary (text ++ ",") = text.
Proof.
  unfold removeLastCommaIfNecessary. rewrite endsWith_comma. apply slice_comma.
Qed.

(** A window of one day: the line that opens it also starts the search
    for the last object. *)
Lemma onData_open_single d sc line :
  promise sc = None ->
  foundStartOfWantedInterval line d = true ->
  didntFoundStockInDatabase line = false ->
  JS.includes line "}" = false ->
  onData d d sc line
  = {| state := {| reading := true; ending := true |};
       result := (result sc ++ line)%string;
       promise := None |}.
Proof.
  intros Hp Hs Hm Hb. unfold onData. rewrite Hm, Hp.
  assert (He : foundEndOfWantedInterval line d = true) by exact Hs.
  rewrite Hs, He.
  unfold shouldIgnoreForPerformance, finishedReadingLastObject,
    isScanningThrougSearchingInterval.
  cbn [startReading startLookingForLastObject reading ending Bool.eqb andb].
  rewrite Hb. reflexivity.
Qed.

Lemma single_day_scan d pre header body close post :
  Forall (fun line => foundStartOfWantedInterval line d = false /\
                      didntFoundStockInDatabase line = false) pre ->
  foundStartOfWantedInterval header d = true ->
  didntFoundStockInDatabase header = false ->
  JS.includes header "}" = false ->
  Forall (fun line => JS.includes line "}" = false /\
                      didntFoundStockInDatabase line = false) body ->
  JS.includes close "}" = true ->
  didntFoundStockInDatabase close = false ->
  scanStreamForTimeInterval (pre ++ header :: body ++ close :: post) d d
  = Resolved (removeLastCommaIfNecessary ("{" ++ header ++ joined body ++ close) ++ "}").
Proof.
  intros Hpre Hh Hhm Hhb Hbody Hc Hcm.
  assert (Hrun : run d d ((pre ++ [header]) ++ body)
                 = {| state := {| reading := true; ending := true |};
                      result := ("{" ++ header ++ joined body)%string;
                      promise := None |}).
  { rewrite run_app, run_app. unfold run.
    rewrite (idle_lines d d pre start eq_refl Hpre).
    cbn [fold_left].
    rewrite (onData_open_single d start header eq_refl Hh Hhm Hhb).
    rewrite finishing_lines by (try reflexivity; exact Hbody).
    cbn [state result promise start]. rewrite append_assoc. reflexivity. }
  replace (pre ++ header :: body ++ close :: post)
    with (((pre ++ [header]) ++ body) ++ close :: post)
    by (rewrite <- !app_assoc; reflexivity).
  rewrite scan_close; rewrite ?Hrun; try reflexivity; try assumption.
  cbn [result]. rewrite !append_assoc. reflexivity.
Qed.

(** A window of several days: the lines from the one that opens it to
    the first closing brace after the one that names its last day. *)
Lemma reading_lines first last middle : forall sc,
  reading (state sc) = true ->
  ending (state sc) = false ->
  Forall (fun line => foundEndOfWantedInterval line last = false /\
                      didntFoundStockInDatabase line = false) middle ->
  fold_left (onData first last) middle sc
  = {| state := state sc;
       result := (result sc ++ joined middle)%string;
       promise := promise sc |}.
Proof.
  induction middle as [|line rest IH]; intros sc Hr He Hall.
  - cbn. rewrite append_nil_r. destruct sc; reflexivity.
  - inversion Hall as [|? ? [Hl Hm] Hrest]; subst. cbn [fold_left].
    rewrite onData_reading; try assumption; rewrite Hl.
    2:{ unfold finishedReadingLastObject. rewrite He. reflexivity. }
    rewrite IH; try assumption. cbn [state result promise joined fold_right].
    rewrite append_assoc. reflexivity.
Qed.

Lemma onData_open first last sc line :
  reading (state sc) = false ->
  ending (state sc) = false ->
  foundStartOfWantedInterval line first = true ->
  foundEndOfWantedInterval line last = false ->
  didntFoundStockInDatabase line = false ->
  onData first last sc line
  = {| state := {| reading := true; ending := false |};
       result := (result sc ++ line)%string;
       promise := promise sc |}.
Proof.
  intros Hr He Hs Hl Hm. unfold onData. rewrite Hs, Hl, Hm.
  unfold shouldIgnoreForPerformance, finishedReadingLastObject,
    isScanningThrougSearchingInterval, startReading.
  cbn [reading ending Bool.eqb]. rewrite He. reflexivity.
Qed.

Lemma onData_last_day first last sc line :
  reading (state sc) = true ->
  foundEndOfWantedInterval line last = true ->
  didntFoundStockInDatabase line = false ->
  JS.includes line "}" = false ->
  onData first last sc line
  = {| state := {| reading := true; ending := true |};
       result := (result sc ++ line)%string;
       promise := promise sc |}.
Proof.
  intros Hr Hl Hm Hb.
  rewrite onData_reading; try assumption; rewrite Hl.
  - unfold startLookingForLastObject. rewrite Hr. reflexivity.
  - unfold finishedReadingLastObject. rewrite Hb. apply andb_false_r.
Qed.

Lemma window_scan first last pre opening middle closing body close post :
  Forall (fun line => foundStartOfWantedInterval line first = false /\
                      didntFoundStockInDatabase line = false) pre ->
  foundStartOfWantedInterval opening first = true ->
  foundEndOfWantedInterval opening last = false ->
  didntFoundStockInDatabase opening = false ->
  Forall (fun line => foundEndOfWantedInterval line last = false /\
                      didntFoundStockInDatabase line = false) middle ->
  foundEndOfWantedInterval closing last = true ->
  didntFoundStockInDatabase closing = false ->
  JS.includes closing "}" = false ->
  Forall (fun line => JS.includes line "}" = false /\
                      didntFoundStockInDatabase line = false) body ->
  JS.includes close "}" = true ->
  didntFoundStockInDatabase close = false ->
  scanStreamForTimeInterval
    (pre ++ opening :: middle ++ closing :: body ++ close :: post) first last
  = Resolved (removeLastCommaIfNecessary
                ("{" ++ opening ++ joined middle ++ closing ++ joined body ++ close) ++ "}").
Proof.
  intros Hpre Ho Hol Hom Hmid Hc Hcm Hcb Hbody Hcl Hclm.
  assert (Hrun : run first last ((((pre ++ [opening]) ++ middle) ++ [closing]) ++ body)
                 = {| state := {| reading := true; ending := true |};
                      result := ("{" ++ opening ++ joined middle ++ closing ++ joined body)%string;
                      promise := None |}).
  { rewrite !run_app. unfold run.
    rewrite (idle_lines first last pre start eq_refl Hpre).
    cbn [fold_left].
    rewrite (onData_open first last start opening eq_refl eq_refl Ho Hol Hom).
    rewrite (reading_lines first last middle) by (try reflexivity; exact Hmid).
    cbn [state result promise start fold_left].
    rewrite onData_last_day by (try reflexivity; assumption).
    rewrite (finishing_lines first last body) by (try reflexivity; exact Hbody).
    cbn [state result promise]. rewrite !append_assoc. reflexivity. }
  replace (pre ++ opening :: middle ++ closing :: body ++ close :: post)
    with (((((pre ++ [opening]) ++ middle) ++ [closing]) ++ body) ++ close :: post)
    by (rewrite <- !app_assoc; reflexivity).
  rewrite scan_close; rewrite ?Hrun; try reflexivity; try assumption.
  cbn [result]. rewrite !append_assoc. reflexivity.
Qed.

End SearcherFacts.

(** ** From the scan to the response *)

Section Pipeline.
Context (E : Env).
Variables (stock_name from to first last : string) (lines : list string).
Hypothesis valid : getValidationErrors E (historyChecks stock_name from to) = None.
Hypothesis stream : alpha_getStockHistoryAsStream E stock_name = AlphaStream lines.
Hypothesis date_to : formatDate E to = Some first.
Hypothesis date_from : formatDate E from = Some last.

Lemma searcher_calls :
  calls (Searcher.getStockHistoryBySymbol E stock_name from to) = [AlphaCall stock_name].
Proof.
  unfold Searcher.getStockHistoryBySymbol. rewrite valid. io. rewrite stream.
  destruct (Searcher.searchTimeIntervalInHistory E lines from to); reflexivity.
Qed.

Lemma searcher_rejected reason :
  Searcher.scanStreamForTimeInterval lines first last = Searcher.Rejected reason ->
  outcome (Searcher.getStockHistoryBySymbol E stock_name from to)
  = Searcher.catchHistory stock_name from to (Searcher.ThrownText reason).
Proof.
  intros Hscan. unfold Searcher.getStockHistoryBySymbol. rewrite valid. io. rewrite stream.
  unfold Searcher.searchTimeIntervalInHistory. rewrite date_to, date_from, Hscan.
  reflexivity.
Qed.

Lemma searcher_resolved text raw points :
  Searcher.scanStreamForTimeInterval lines first last = Searcher.Resolved text ->
  JSON_parse E text = Some raw ->
  formatJSONHistoryObject E raw = Some points ->
  outcome (Searcher.getStockHistoryBySymbol E stock_name from to)
  = ControllerSuccess {| history_name := toUpperCase E stock_name; prices := points |}.
Proof.
  intros Hscan Hparse Hformat. unfold Searcher.getStockHistoryBySymbol. rewrite valid. io.
  rewrite stream. unfold Searcher.searchTimeIntervalInHistory.
  rewrite date_to, date_from, Hscan, Hparse, Hformat. reflexivity.
Qed.

Lemma inline_delivered :
  Inline.getStockHistoryBySymbol E stock_name from to
  = (Inline.settled (Inline.deliver E stock_name from to first last lines Inline.start),
     [AlphaCall stock_name]).
Proof.
  unfold Inline.getStockHistoryBySymbol. rewrite valid.
  rewrite (io_eq (bind _ _)). io. rewrite stream, date_to, date_from. reflexivity.
Qed.

End Pipeline.

(** ** The inline scanner before the window opens *)

Module InlineFacts.
Import Inline.

Section Scanning.
Context (E : Env).
Variables stock_name from to first last : string.

Lemma inline_onData_idle l line :
  reading (state l) = false ->
  JS.includes line "Error Message" = false ->
  JS.includes line first && JS.includes line "{" = false ->
  faulted l = false ->
  onData E stock_name first last l line = l.
Proof.
  intros Hr Hm Hs Hf. unfold onData. rewrite Hm, Hf, Hs, Hr.
  cbn [negb]. destruct l; cbn in *; congruence.
Qed.

Lemma deliver_idle lines : forall l,
  flowing l = true ->
  faulted l = false ->
  reading (state l) = false ->
  Forall (fun line => JS.includes line "Error Message" = false /\
                      JS.includes line first && JS.includes line "{" = false) lines ->
  deliver E stock_name from to first last lines l = onEnd from to l.
Proof.
  induction lines as [|line rest IH]; intros l Hfl Hfa Hr Hall; cbn [deliver];
    rewrite Hfl, Hfa; cbn [andb negb]; [reflexivity|].
  inversion Hall as [|? ? [Hm Hs] Hrest]; subst.
  rewrite inline_onData_idle by assumption. apply IH; assumption.
Qed.

End Scanning.
End InlineFacts.

(** ** No overlap *)

Lemma not_included_no_trigger line date :
  JS.includes line date = false ->
  Searcher.foundStartOfWantedInterval line date = false.
Proof. unfold Searcher.foundStartOfWantedInterval. intros ->. reflexivity. Qed.

(** C6, as the code has it.  When neither boundary date appears in any
    line and no line carries the provider's marker, the window lookup of
    either text fails with exactly [NotFound(from), NotFound(to)]: no
    window, full or partial, is returned. *)
Theorem C6_no_overlap (E : Env) (stock_name from to first last : string)
    (lines : list string) :
  getValidationErrors E (historyChecks stock_name from to) = None ->
  alpha_getStockHistoryAsStream E stock_name = AlphaStream lines ->
  formatDate E to = Some first ->
  formatDate E from = Some last ->
  (forall line, In line lines ->
                JS.includes line first = false /\ JS.includes line last = false) ->
  (forall line, In line lines -> JS.includes line "Error Message" = false) ->
  outcome (Searcher.getStockHistoryBySymbol E stock_name from to)
    = Errors [NotFoundError "from" from; NotFoundError "to" to] /\
  outcome (Inline.getStockHistoryBySymbol E stock_name from to)
    = Returns (Errors [NotFoundError "from" from; NotFoundError "to" to]).
Proof.
  intros Hv Hs Ht Hf Hdates Hmarker. split.
  - rewrite (searcher_rejected E stock_name from to first last lines Hv Hs Ht Hf "fromto");
      [reflexivity|].
    unfold Searcher.scanStreamForTimeInterval, Searcher.run.
    rewrite SearcherFacts.idle_lines; [reflexivity | reflexivity |].
    apply Forall_forall. intros line Hin. split.
    + apply not_included_no_trigger. apply (Hdates line Hin).
    + apply (Hmarker line Hin).
  - rewrite (inline_delivered E stock_name from to first last lines Hv Hs Ht Hf).
    cbn [outcome fst].
    rewrite InlineFacts.deliver_idle; try reflexivity.
    apply Forall_forall. intros line Hin. split.
    + apply (Hmarker line Hin).
    + destruct (Hdates line Hin) as [-> _]. reflexivity.
Qed.

(** The request of the tests for dates the example document lacks. *)
Lemma C6_no_overlap_witness :
  outcome (Searcher.getStockHistoryBySymbol Fixture.mock "ibm" "2022-11-11" "2022-11-15")
    = Errors [NotFoundError "from" "2022-11-11"; NotFoundError "to" "2022-11-15"] /\
  outcome (Inline.getStockHistoryBySymbol Fixture.mock "ibm" "2022-11-11" "2022-11-15")
    = Returns (Errors [NotFoundError "from" "2022-11-11"; NotFoundError "to" "2022-11-15"]).
Proof.
  apply (C6_no_overlap Fixture.mock "ibm" "2022-11-11" "2022-11-15"
           "2022-11-15" "2022-11-11" Fixture.AlphaReturnExample);
    try reflexivity.
  - intros line Hin.
    assert (H := proj1 (forallb_forall
                          (fun l => negb (JS.includes l "2022-11-15")
                                    && negb (JS.includes l "2022-11-11"))
                          Fixture.AlphaReturnExample) eq_refl line Hin).
    cbv beta in H. apply andb_true_iff in H as [H1 H2].
    apply negb_true_iff in H1, H2. split; assumption.
  - intros line Hin.
    assert (H := proj1 (forallb_forall
                          (fun l => negb (JS.includes l "Error Message"))
                          Fixture.AlphaReturnExample) eq_refl line Hin).
    cbv beta in H. apply negb_true_iff in H. exact H.
Defined.

(** C6 as stated fails on the provider's error document: neither date
    appears in any of its lines, and the result is the single
    [NotFound(stock_name)], as the repository's test for an unknown
    stock expects. *)
Lemma C6_counterexample :
  alpha_getStockHistoryAsStream Fixture.mock "unknown" = AlphaStream Fixture.AlphaErrorExample /\
  forallb (fun line => negb (JS.includes line "2022-11-18") && negb (JS.includes line "2022-11-22"))
          Fixture.AlphaErrorExample = true /\
  outcome (Searcher.getStockHistoryBySymbol Fixture.mock "unknown" "2022-11-18" "2022-11-22")
    = Errors [NotFoundError "stock_name" "unknown"] /\
  outcome (Inline.getStockHistoryBySymbol Fixture.mock "unknown" "2022-11-18" "2022-11-22")
    = Returns (Errors [NotFoundError "stock_name" "unknown"]) /\
  outcome (Searcher.getStockHistoryBySymbol Fixture.mock "unknown" "2022-11-18" "2022-11-22")
    <> Errors [NotFoundError "from" "2022-11-18"; NotFoundError "to" "2022-11-22"].
Proof.
  conj; try (vm_compute; reflexivity).
  vm_compute. discriminate.
Qed.

(** ** Gains projection: which failure is returned *)

Section GainsFailures.
Context (E : Env).
Variables stock_name amount date : string.
Hypothesis valid : getValidationErrors E (gainsChecks stock_name amount date) = None.

Lemma searcher_gains_quote_failed qerrs :
  outcome (getStockBySymbol E stock_name) = Errors qerrs ->
  outcome (Searcher.projectGains E stock_name amount date) = Returns (Errors qerrs).
Proof.
  intros Hq. unfold Searcher.projectGains. rewrite valid. io. rewrite Hq. io. reflexivity.
Qed.

Lemma searcher_gains_history_failed today herrs :
  outcome (getStockBySymbol E stock_name) = ControllerSuccess today ->
  outcome (Searcher.getStockHistoryBySymbol E stock_name date date) = Errors herrs ->
  outcome (Searcher.projectGains E stock_name amount date)
  = Returns (Errors (collapse date herrs)).
Proof.
  intros Hq Hh. unfold Searcher.projectGains. rewrite valid. io. rewrite Hq, Hh.
  destruct herrs as [|e0 [|e1 [|e2 rest]]]; try destruct e0; reflexivity.
Qed.

Lemma inline_gains_quote_failed qerrs h :
  outcome (getStockBySymbol E stock_name) = Errors qerrs ->
  outcome (Inline.getStockHistoryBySymbol E stock_name date date) = Returns h ->
  outcome (Inline.projectGains E stock_name amount date)
  = Returns (Errors (collapse date qerrs)).
Proof.
  intros Hq Hh. unfold Inline.projectGains. rewrite valid. io. rewrite Hq, Hh.
  destruct qerrs as [|e0 [|e1 [|e2 rest]]]; try destruct e0; reflexivity.
Qed.

Lemma inline_gains_history_failed today herrs :
  outcome (getStockBySymbol E stock_name) = ControllerSuccess today ->
  outcome (Inline.getStockHistoryBySymbol E stock_name date date) = Returns (Errors herrs) ->
  outcome (Inline.projectGains E stock_name amount date)
  = Returns (Errors (collapse date herrs)).
Proof.
  intros Hq Hh. unfold Inline.projectGains. rewrite valid. io. rewrite Hq, Hh.
  destruct herrs as [|e0 [|e1 [|e2 rest]]]; try destruct e0; reflexivity.
Qed.

(** A quote lookup that passed its own validation fails with one error,
    which the collapsing rule leaves alone. *)
Lemma provider_failure_kept qerrs :
  getValidationErrors E (quoteChecks stock_name) = None ->
  outcome (getStockBySymbol E stock_name) = Errors qerrs ->
  collapse date qerrs = qerrs.
Proof.
  unfold getStockBySymbol, quoteChecks. intros ->. io.
  repeat split_match; io; intros H; try discriminate; injection H as <-; reflexivity.
Qed.

End GainsFailures.

(** C1, as the code has it.  In [projectGains] a failed quote lookup
    decides the result whatever the history lookup did: when both fail,
    the quote side's failure is returned.  The history side's failure,
    after the two-error collapse, is returned only when the quote side
    succeeded. *)
Theorem C1_quote_failure_first (E : Env) (stock_name amount date : string) :
  getValidationErrors E (gainsChecks stock_name amount date) = None ->
  (forall qerrs,
      outcome (getStockBySymbol E stock_name) = Errors qerrs ->
      outcome (Searcher.projectGains E stock_name amount date) = Returns (Errors qerrs) /\
      (forall h,
          outcome (Inline.getStockHistoryBySymbol E stock_name date date) = Returns h ->
          outcome (Inline.projectGains E stock_name amount date)
            = Returns (Errors (collapse date qerrs))) /\
      (getValidationErrors E (quoteChecks stock_name) = None ->
       collapse date qerrs = qerrs)) /\
  (forall today herrs,
      outcome (getStockBySymbol E stock_name) = ControllerSuccess today ->
      (outcome (Searcher.getStockHistoryBySymbol E stock_name date date) = Errors herrs ->
       outcome (Searcher.projectGains E stock_name amount date)
         = Returns (Errors (collapse date herrs))) /\
      (outcome (Inline.getStockHistoryBySymbol E stock_name date date)
         = Returns (Errors herrs) ->
       outcome (Inline.projectGains E stock_name amount date)
         = Returns (Errors (collapse date herrs)))).
Proof.
  intros Hv. split.
  - intros qerrs Hq. split; [|split].
    + apply searcher_gains_quote_failed; assumption.
    + intros h Hh. eapply inline_gains_quote_failed; eassumption.
    + intros Hqv. eapply provider_failure_kept; eassumption.
  - intros today herrs Hq. split; intros Hh.
    + eapply searcher_gains_history_failed; eassumption.
    + eapply inline_gains_history_failed; eassumption.
Qed.

(** A symbol the quote provider does not know, on a date the history
    lacks: both sides fail and the quote's error comes back.  A known
    symbol on the same date: the collapsed history error comes back. *)
Lemma C1_quote_failure_first_witness :
  outcome (Searcher.projectGains Fixture.mock "Non Existent" "10" "2022-11-25")
    = Returns (Errors [NotFoundError "stock_name" "Non Existent"]) /\
  outcome (Inline.projectGains Fixture.mock "Non Existent" "10" "2022-11-25")
    = Returns (Errors [NotFoundError "stock_name" "Non Existent"]) /\
  outcome (Searcher.projectGains Fixture.mock "ibm" "10" "2022-11-25")
    = Returns (Errors [NotFoundError "purchasedAt" "2022-11-25"]) /\
  outcome (Inline.projectGains Fixture.mock "ibm" "10" "2022-11-25")
    = Returns (Errors [NotFoundError "purchasedAt" "2022-11-25"]).
Proof.
  destruct (C1_quote_failure_first Fixture.mock "Non Existent" "10" "2022-11-25" eq_refl)
    as [Hboth _].
  destruct (Hboth [NotFoundError "stock_name" "Non Existent"] eq_refl) as (H1 & H2 & _).
  destruct (C1_quote_failure_first Fixture.mock "ibm" "10" "2022-11-25" eq_refl)
    as [_ Hhist].
  assert (Hq : { today | outcome (getStockBySymbol Fixture.mock "ibm") = ControllerSuccess today })
    by (eexists; vm_compute; reflexivity).
  destruct Hq as [today Hq].
  destruct (Hhist today [NotFoundError "from" "2022-11-25"; NotFoundError "to" "2022-11-25"] Hq)
    as [H3 H4].
  split; [exact H1|]. split; [|split].
  - apply (H2 (Errors [NotFoundError "from" "2022-11-25"; NotFoundError "to" "2022-11-25"])).
    vm_compute. reflexivity.
  - apply H3. vm_compute. reflexivity.
  - apply H4. vm_compute. reflexivity.
Defined.

(** C1 as stated fails: both lookups fail, and the caller gets the
    quote side's [NotFound(stock_name)], not the history side's
    collapsed [NotFound(purchasedAt)]. *)
Lemma C1_counterexample :
  outcome (getStockBySymbol Fixture.mock "Non Existent")
    = Errors [NotFoundError "stock_name" "Non Existent"] /\
  outcome (Searcher.getStockHistoryBySymbol Fixture.mock "Non Existent" "2022-11-25" "2022-11-25")
    = Errors [NotFoundError "from" "2022-11-25"; NotFoundError "to" "2022-11-25"] /\
  outcome (Inline.getStockHistoryBySymbol Fixture.mock "Non Existent" "2022-11-25" "2022-11-25")
    = Returns (Errors [NotFoundError "from" "2022-11-25"; NotFoundError "to" "2022-11-25"]) /\
  outcome (Searcher.projectGains Fixture.mock "Non Existent" "10" "2022-11-25")
    <> Returns (Errors [NotFoundError "purchasedAt" "2022-11-25"]) /\
  outcome (Inline.projectGains Fixture.mock "Non Existent" "10" "2022-11-25")
    <> Returns (Errors [NotFoundError "purchasedAt" "2022-11-25"]).
Proof.
  conj; try (vm_compute; reflexivity); vm_compute; discriminate.
Qed.

(** C3, as the code has it.  When the quote lookup succeeds and the
    single-day history lookup fails with [NotFound(from), NotFound(to)],
    the caller receives exactly [NotFound(purchasedAt)]. *)
Theorem C3_date_not_found_collapsed (E : Env) (stock_name amount date : string)
    (today : GetStockBySymbol) :
  getValidationErrors E (gainsChecks stock_name amount date) = None ->
  outcome (getStockBySymbol E stock_name) = ControllerSuccess today ->
  (outcome (Searcher.getStockHistoryBySymbol E stock_name date date)
     = Errors [NotFoundError "from" date; NotFoundError "to" date] ->
   outcome (Searcher.projectGains E stock_name amount date)
     = Returns (Errors [NotFoundError "purchasedAt" date])) /\
  (outcome (Inline.getStockHistoryBySymbol E stock_name date date)
     = Returns (Errors [NotFoundError "from" date; NotFoundError "to" date]) ->
   outcome (Inline.projectGains E stock_name amount date)
     = Returns (Errors [NotFoundError "purchasedAt" date])).
Proof.
  intros Hv Hq. split; intros Hh.
  - rewrite (searcher_gains_history_failed E stock_name amount date Hv today _ Hq Hh).
    reflexivity.
  - rewrite (inline_gains_history_failed E stock_name amount date Hv today _ Hq Hh).
    reflexivity.
Qed.

(** The projection of the tests on a date the example document lacks. *)
Lemma C3_date_not_found_collapsed_witness :
  outcome (Searcher.projectGains Fixture.mock "ibm" "10" "2022-11-25")
    = Returns (Errors [NotFoundError "purchasedAt" "2022-11-25"]) /\
  outcome (Inline.projectGains Fixture.mock "ibm" "10" "2022-11-25")
    = Returns (Errors [NotFoundError "purchasedAt" "2022-11-25"]).
Proof.
  assert (Hq : { today | outcome (getStockBySymbol Fixture.mock "ibm") = ControllerSuccess today })
    by (eexists; vm_compute; reflexivity).
  destruct Hq as [today Hq].
  destruct (C3_date_not_found_collapsed Fixture.mock "ibm" "10" "2022-11-25" today eq_refl Hq)
    as [H1 H2].
  split; [apply H1 | apply H2]; vm_compute; reflexivity.
Defined.

(** C3 as stated fails when the quote lookup fails too: the history
    lookup ends with [NotFound(from), NotFound(to)], and the caller
    receives the quote side's error. *)
Lemma C3_counterexample :
  outcome (Searcher.getStockHistoryBySymbol Fixture.mock "down" "2022-11-25" "2022-11-25")
    = Errors [NotFoundError "from" "2022-11-25"; NotFoundError "to" "2022-11-25"] /\
  outcome (Searcher.projectGains Fixture.mock "down" "10" "2022-11-25")
    = Returns (Errors [UnknownError]) /\
  outcome (Inline.getStockHistoryBySymbol Fixture.mock "down" "2022-11-25" "2022-11-25")
    = Returns (Errors [NotFoundError "from" "2022-11-25"; NotFoundError "to" "2022-11-25"]) /\
  outcome (Inline.projectGains Fixture.mock "down" "10" "2022-11-25")
    = Returns (Errors [UnknownError]) /\
  outcome (Searcher.projectGains Fixture.mock "down" "10" "2022-11-25")
    <> Returns (Errors [NotFoundError "purchasedAt" "2022-11-25"]).
Proof.
  conj; try (vm_compute; reflexivity); vm_compute; discriminate.
Qed.

(** ** Gains projection: the amount *)

(** *** Rounding to binary64

    [SFmul] and [SFsub] shift the exact mantissa right until it fits the
    format, round it and shift once more.  The mantissa after each shift
    is a quotient by a power of two, so the number delivered is an
    integer multiple [M] of the same [2^e] as the exact value, and [M]
    is off by at most two units of the last exponent. *)











Section Binary64.
Local Open Scope Q_scope.

#[local] Instance signed_comp (negative : bool) : Proper (Qeq ==> Qeq) (signed negative).
Proof. intros x y H. destruct negative; cbn [signed]; rewrite H; reflexivity. Qed.
































End Binary64.

(** *** The projection *)

Section GainsAmount.
Context (E : Env).
Variables stock_name amount date : string.
Variables (today : GetStockBySymbol) (onDate : GetStockHistoryBySymbol).
Variables (first : HistoricPrices) (rest : list HistoricPrices) (iso : string).
Hypothesis valid : getValidationErrors E (gainsChecks stock_name amount date) = None.
Hypothesis quote : outcome (getStockBySymbol E stock_name) = ControllerSuccess today.
Hypothesis points : prices onDate = first :: rest.
Hypothesis purchase_date : Date_toISOString E date = Some iso.

Let projection : GetProjectedGains :=
  projected E stock_name amount today first iso.

Lemma searcher_gains_success :
  outcome (Searcher.getStockHistoryBySymbol E stock_name date date) = ControllerSuccess onDate ->
  outcome (Searcher.projectGains E stock_name amount date)
  = Returns (ControllerSuccess projection).
Proof.
  intros Hh. unfold Searcher.projectGains. rewrite valid. io.
  rewrite quote, Hh, points, purchase_date. reflexivity.
Qed.

Lemma inline_gains_success :
  outcome (Inline.getStockHistoryBySymbol E stock_name date date)
    = Returns (ControllerSuccess onDate) ->
  outcome (Inline.projectGains E stock_name amount date)
  = Returns (ControllerSuccess projection).
Proof.
  intros Hh. unfold Inline.projectGains. rewrite valid. io.
  rewrite quote, Hh, points, purchase_date. reflexivity.
Qed.

End GainsAmount.





(** ** The window that ends on the last record *)

(** In [HistorySearcher] the line that closes the last object settles the
    scan whether or not a comma follows the brace: without a comma the
    text is kept whole, with one only the comma goes. *)
Lemma searcher_closes_without_comma (first last : string) pre close post :
  Searcher.reading (Searcher.state (Searcher.run first last pre)) = true ->
  Searcher.ending (Searcher.state (Searcher.run first last pre)) = true ->
  Searcher.promise (Searcher.run first last pre) = None ->
  Searcher.didntFoundStockInDatabase close = false ->
  JS.includes close "}" = true ->
  JS.endsWith (Searcher.result (Searcher.run first last pre) ++ close) "," = false ->
  Searcher.scanStreamForTimeInterval (pre ++ close :: post) first last
  = Searcher.Resolved (Searcher.result (Searcher.run first last pre) ++ close ++ "}").
Proof.
  intros Hr He Hp Hm Hb Hc.
  rewrite SearcherFacts.scan_close by assumption.
  rewrite SearcherFacts.removeLastComma_kept by assumption.
  rewrite append_assoc. reflexivity.
Qed.

Lemma searcher_closes_with_comma (first last : string) pre close post :
  Searcher.reading (Searcher.state (Searcher.run first last pre)) = true ->
  Searcher.ending (Searcher.state (Searcher.run first last pre)) = true ->
  Searcher.promise (Searcher.run first last pre) = None ->
  Searcher.didntFoundStockInDatabase (close ++ ",") = false ->
  JS.includes (close ++ ",") "}" = true ->
  Searcher.scanStreamForTimeInterval (pre ++ (close ++ ",")%string :: post) first last
  = Searcher.Resolved (Searcher.result (Searcher.run first last pre) ++ close ++ "}").
Proof.
  intros Hr He Hp Hm Hb.
  rewrite SearcherFacts.scan_close by assumption.
  rewrite <- append_assoc, SearcherFacts.removeLastComma_dropped.
  rewrite append_assoc. reflexivity.
Qed.

(** The inline scanner stops only on a line that holds the two
    characters [},], or on the marker: a stream without either runs to
    its end, whatever it accumulated. *)
Lemma inline_onData_no_stop (E : Env) stock_name first last l line :
  JS.includes line "Error Message" = false ->
  JS.includes line "}," = false ->
  Inline.flowing (Inline.onData E stock_name first last l line) = Inline.flowing l /\
  Inline.faulted (Inline.onData E stock_name first last l line) = Inline.faulted l /\
  Inline.promise (Inline.onData E stock_name first last l line) = Inline.promise l.
Proof.
  intros Hm Hc. unfold Inline.onData. rewrite Hm, Hc.
  destruct (Inline.faulted l) eqn:Hf; [rewrite Hf; auto|].
  rewrite andb_false_r.
  destruct (negb _); cbn; rewrite ?Hf; auto.
Qed.

Lemma inline_runs_to_end (E : Env) stock_name from to first last lines : forall l,
  Inline.flowing l = true ->
  Inline.faulted l = false ->
  Inline.promise l = None ->
  Forall (fun line => JS.includes line "Error Message" = false /\
                      JS.includes line "}," = false) lines ->
  Inline.settled (Inline.deliver E stock_name from to first last lines l)
  = Returns (Errors [NotFoundError "from" from; NotFoundError "to" to]).
Proof.
  induction lines as [|line rest IH]; intros l Hfl Hfa Hp Hall; cbn [Inline.deliver];
    rewrite Hfl, Hfa; cbn [andb negb].
  - unfold Inline.settled, Inline.onEnd. cbn [Inline.promise]. rewrite Hp. reflexivity.
  - inversion Hall as [|? ? [Hm Hc] Hrest]; subst.
    destruct (inline_onData_no_stop E stock_name first last l line Hm Hc) as (H1 & H2 & H3).
    apply IH; try assumption; congruence.
Qed.

(** C2.  The window of the repository's regression test, which ends on
    the last record of the document: the scanner of [HistorySearcher]
    returns the three days, the inline scanner of
    [src/controllers/ApiController.ts] runs past the closing line, which
    has no comma, and answers that the dates were not found. *)
Theorem C2_inline_misses_last_record :
  outcome (Inline.getStockHistoryBySymbol Fixture.mock "ibm" "2022-11-18" "2022-11-22")
    = Returns (Errors [NotFoundError "from" "2022-11-18"; NotFoundError "to" "2022-11-22"]) /\
  outcome (Searcher.getStockHistoryBySymbol Fixture.mock "ibm" "2022-11-18" "2022-11-22")
    = ControllerSuccess (Fixture.window [Fixture.nov22; Fixture.nov21; Fixture.nov18]).
Proof. split; vm_compute; reflexivity. Qed.

(** C4.  The single-day window on the last record of the document, with
    the date on one line only: [HistorySearcher] returns that one day,
    the inline scanner answers that the date was not found. *)
Theorem C4_inline_misses_last_day :
  outcome (Inline.getStockHistoryBySymbol Fixture.mock "ibm" "2022-11-18" "2022-11-18")
    = Returns (Errors [NotFoundError "from" "2022-11-18"; NotFoundError "to" "2022-11-18"]) /\
  outcome (Searcher.getStockHistoryBySymbol Fixture.mock "ibm" "2022-11-18" "2022-11-18")
    = ControllerSuccess (Fixture.window [Fixture.nov18]) /\
  outcome (Inline.getStockHistoryBySymbol Fixture.mock "ibm" "2022-11-22" "2022-11-22")
    = Returns (ControllerSuccess (Fixture.window [Fixture.nov22])).
Proof. conj; vm_compute; reflexivity. Qed.

(** C7.  The marker on a line that arrives while the window is being
    accumulated: [HistorySearcher] rejects with [NotFound(stock_name)];
    the inline scanner pauses and hands the text read so far to
    [JSON.parse], which throws in the listener when the text ends with a
    comma (the promise is never settled) and otherwise yields the days
    read so far as a success. *)
Theorem C7_inline_marker_during_accumulation :
  outcome (Inline.getStockHistoryBySymbol (Fixture.interrupted true) "ibm"
             "2022-11-21" "2022-11-22") = Faults /\
  outcome (Inline.getStockHistoryBySymbol (Fixture.interrupted false) "ibm"
             "2022-11-21" "2022-11-22")
    = Returns (ControllerSuccess (Fixture.window [Fixture.nov22])) /\
  outcome (Searcher.getStockHistoryBySymbol (Fixture.interrupted true) "ibm"
             "2022-11-21" "2022-11-22") = Errors [NotFoundError "stock_name" "ibm"] /\
  outcome (Searcher.getStockHistoryBySymbol (Fixture.interrupted false) "ibm"
             "2022-11-21" "2022-11-22") = Errors [NotFoundError "stock_name" "ibm"].
Proof. conj; vm_compute; reflexivity. Qed.

(** ** What [HistorySearcher] does on the inputs of C4 and C7 *)

Section SearcherWindows.
Context (E : Env).
Variables (stock_name from to first last : string) (lines : list string).
Hypothesis valid : getValidationErrors E (historyChecks stock_name from to) = None.
Hypothesis stream : alpha_getStockHistoryAsStream E stock_name = AlphaStream lines.
Hypothesis date_to : formatDate E to = Some first.
Hypothesis date_from : formatDate E from = Some last.

(** The marker on any line that arrives before the scan has settled,
    whether or not the window is open, aborts with
    [NotFound(stock_name)]. *)
Lemma searcher_marker_aborts pre line post :
  lines = pre ++ line :: post ->
  Searcher.promise (Searcher.run first last pre) = None ->
  JS.includes line "Error Message" = true ->
  outcome (Searcher.getStockHistoryBySymbol E stock_name from to)
  = Errors [NotFoundError "stock_name" stock_name].
Proof.
  intros Hl Hp Hm.
  rewrite (searcher_rejected E stock_name from to first last lines valid stream
             date_to date_from "stock"); [reflexivity|].
  rewrite Hl. apply SearcherFacts.scan_marker; assumption.
Qed.

(** A single day: the line that holds the date and an opening brace both
    opens the window and starts the search for its end; the window is
    the text from that line to the first closing brace, and its one
    record becomes the one price point. *)
Lemma searcher_single_day pre header body close post key fields point :
  first = last ->
  lines = pre ++ header :: body ++ close :: post ->
  Forall (fun line => Searcher.foundStartOfWantedInterval line first = false /\
                      JS.includes line "Error Message" = false) pre ->
  Searcher.foundStartOfWantedInterval header first = true ->
  JS.includes header "Error Message" = false ->
  JS.includes header "}" = false ->
  Forall (fun line => JS.includes line "}" = false /\
                      JS.includes line "Error Message" = false) body ->
  JS.includes close "}" = true ->
  JS.includes close "Error Message" = false ->
  JSON_parse E (Searcher.removeLastCommaIfNecessary ("{" ++ header ++ joined body ++ close) ++ "}")
    = Some [(key, fields)] ->
  formatEntry E (key, fields) = Some point ->
  outcome (Searcher.getStockHistoryBySymbol E stock_name from to)
  = ControllerSuccess {| history_name := toUpperCase E stock_name; prices := [point] |}.
Proof.
  intros Heq Hl Hpre Hh Hhm Hhb Hbody Hc Hcm Hparse Hformat. subst last.
  eapply (searcher_resolved E stock_name from to first first lines valid stream
            date_to date_from); [|exact Hparse|].
  - rewrite Hl. apply SearcherFacts.single_day_scan; assumption.
  - cbn [formatJSONHistoryObject]. rewrite Hformat. reflexivity.
Qed.

End SearcherWindows.

(** ** The repository's tests, run on the embedding

    The expectations of the controller's test file, on the mocked
    services; the controller with [HistorySearcher] meets all of them. *)

Module Tests.

Example getStockBySymbol_not_found :
  outcome (getStockBySymbol Fixture.mock "Non Existent")
  = Errors [NotFoundError "stock_name" "Non Existent"].
Proof. vm_compute. reflexivity. Qed.

Example compareStockBySymbols_quotes :
  outcome (compareStockBySymbols Fixture.mock "ibm" ["ibm"])
  = ControllerSuccess [Fixture.quote (Fixture.decimal 1202 100);
                       Fixture.quote (Fixture.decimal 1202 100)].
Proof. vm_compute. reflexivity. Qed.

Example compareStockBySymbols_not_found :
  outcome (compareStockBySymbols Fixture.mock "Non Existent" ["ibm"; "Non Existent"])
  = Errors [NotFoundError "stock_name" "Non Existent";
            NotFoundError "stock_name" "Non Existent"].
Proof. vm_compute. reflexivity. Qed.

Example history_same_date :
  outcome (Searcher.getStockHistoryBySymbol Fixture.mock "ibm" "2022-11-22" "2022-11-22")
  = ControllerSuccess (Fixture.window [Fixture.nov22]).
Proof. vm_compute. reflexivity. Qed.

Example history_different_dates :
  outcome (Searcher.getStockHistoryBySymbol Fixture.mock "ibm" "2022-11-21" "2022-11-22")
  = ControllerSuccess (Fixture.window [Fixture.nov22; Fixture.nov21]).
Proof. vm_compute. reflexivity. Qed.

Example history_dates_not_found :
  outcome (Searcher.getStockHistoryBySymbol Fixture.mock "ibm" "2022-11-11" "2022-11-15")
  = Errors [NotFoundError "from" "2022-11-11"; NotFoundError "to" "2022-11-15"].
Proof. vm_compute. reflexivity. Qed.

Example history_stock_not_found :
  outcome (Searcher.getStockHistoryBySymbol Fixture.mock "unknown" "2022-11-18" "2022-11-22")
  = Errors [NotFoundError "stock_name" "unknown"].
Proof. vm_compute. reflexivity. Qed.

Example projectGains_date_not_found :
  outcome (Searcher.projectGains Fixture.mock "ibm" "10" "2022-11-25")
  = Returns (Errors [NotFoundError "purchasedAt" "2022-11-25"]).
Proof. vm_compute. reflexivity. Qed.

(** The inline scanner agrees on the windows that do not end on the last
    record. *)
Example inline_history_different_dates :
  outcome (Inline.getStockHistoryBySymbol Fixture.mock "ibm" "2022-11-21" "2022-11-22")
  = Returns (ControllerSuccess (Fixture.window [Fixture.nov22; Fixture.nov21])).
Proof. vm_compute. reflexivity. Qed.

End Tests.

(** * Further properties of the controller *)

(** ** The instance *)

Lemma getInstances_existing newYahoo newAlpha existing arguments :
  Singleton.getInstances newYahoo newAlpha (Some existing) arguments
  = repeat existing (length arguments).
Proof.
  induction arguments as [|[yahoo alpha] rest IH]; [reflexivity|].
  cbn [Singleton.getInstances Singleton.getInstance length repeat]. rewrite IH. reflexivity.
Qed.

(** X1.  Starting without an instance, every call of [getInstance]
    returns the controller built from the arguments of the first call;
    the services handed to later calls are ignored. *)
Theorem getInstance_first_call_decides newYahoo newAlpha first rest :
  Singleton.getInstances newYahoo newAlpha None (first :: rest)
  = repeat (Singleton.construct newYahoo newAlpha (fst first) (snd first))
           (S (length rest)).
Proof.
  destruct first as [yahoo alpha].
  cbn [Singleton.getInstances Singleton.getInstance fst snd repeat].
  rewrite getInstances_existing. reflexivity.
Qed.

(** ** Which symbols reach the quote provider *)

Lemma quote_calls (E : Env) stock_name :
  calls (getStockBySymbol E stock_name)
  = if passes E stock_name then [YahooCall stock_name] else [].
Proof.
  unfold getStockBySymbol, passes.
  destruct (getValidationErrors E _); io; [reflexivity|].
  repeat split_match; io; reflexivity.
Qed.

(** X2.  The comparison calls the quote provider for the symbols the
    validator lets through, once each and in input order, and for no
    other. *)
Theorem compare_calls_provider (E : Env) stock_name stocks :
  calls (compareStockBySymbols E stock_name stocks)
  = map YahooCall (filter (passes E) (stock_name :: stocks)).
Proof.
  rewrite compare_calls.
  induction (stock_name :: stocks) as [|s rest IH]; [reflexivity|].
  cbn [flat_map filter]. rewrite IH, quote_calls.
  destruct (passes E s); reflexivity.
Qed.

(** X3.  A comparison never fails with an empty list of errors; and,
    with a validator that answers with errors or with nothing, a success
    holds exactly one quote per symbol. *)
Theorem compare_envelope (E : Env) stock_name stocks :
  (forall errs,
      outcome (compareStockBySymbols E stock_name stocks) = Errors errs -> errs <> []) /\
  (validator_reports_errors E ->
   forall quotes,
     outcome (compareStockBySymbols E stock_name stocks) = ControllerSuccess quotes ->
     length quotes = S (length stocks)).
Proof.
  pose proof (compare_outcome E stock_name stocks) as Hout. cbv zeta in Hout.
  set (results := map (fun s => outcome (getStockBySymbol E s)) (stock_name :: stocks)) in Hout.
  split.
  - intros errs H. rewrite Hout in H.
    match type of H with
    | (if (0 <? length ?l)%nat then _ else _) = _ => destruct l as [|e l']
    end; cbn in H; [discriminate|].
    injection H as <-. discriminate.
  - intros HV quotes H.
    assert (Hne : forall r errs, In r results -> r = Errors errs -> errs <> []).
    { intros r errs Hin ->. apply in_map_iff in Hin as (s & Hs & _).
      eapply quote_failure_nonempty; eassumption. }
    destruct (existsb failed results) eqn:Hf.
    + rewrite Hout, (some_failed results Hne Hf) in H. discriminate.
    + destruct (all_succeeded results Hf) as [H0 Hs].
      assert (Hlen : length (flat_map successOf results) = length results).
      { rewrite <- Hs at 2. rewrite length_map. reflexivity. }
      rewrite Hout, H0 in H. cbn [length Nat.ltb Nat.leb] in H. injection H as <-.
      change (length (flat_map successOf results) = S (length stocks)).
      rewrite Hlen. subst results. rewrite length_map. reflexivity.
Qed.

Lemma compare_envelope_witness :
  validator_reports_errors Fixture.mock /\
  exists quotes,
    outcome (compareStockBySymbols Fixture.mock "ibm" ["ibm"]) = ControllerSuccess quotes /\
    length quotes = 2%nat.
Proof.
  split; [apply fixture_validator_reports_errors|].
  eexists. split; [vm_compute; reflexivity|].
  apply (proj2 (compare_envelope Fixture.mock "ibm" ["ibm"])
           (fixture_validator_reports_errors _ _)).
  vm_compute. reflexivity.
Defined.

(** ** The price points *)

(** X4.  On a parsed document whose records are objects with text
    fields, as [RawPrices] has them: [formatJSONHistoryObject] returns
    when every key is a valid date; what it returns is one price point
    per key, in key order, the i-th point carrying the ISO instant of
    the i-th key and the numbers read off that key's record; and it
    throws when some key is not a valid date. *)
Theorem formatJSONHistoryObject_spec (E : Env) (raw : RawPrices) :
  ((forall entry, In entry raw -> Date_toISOString E (fst entry) <> None) ->
   exists points, formatJSONHistoryObject E raw = Some points) /\
  (forall points,
      formatJSONHistoryObject E raw = Some points ->
      length points = length raw /\
      map (fun p => Some (pricedAt p)) points
        = map (fun entry => Date_toISOString E (fst entry)) raw /\
      map (fun p => Some p) points = map (formatEntry E) raw) /\
  ((exists entry, In entry raw /\ Date_toISOString E (fst entry) = None) ->
   formatJSONHistoryObject E raw = None).
Proof.
  induction raw as [|[key fields] rest (IHt & IHs & IHn)]; cbn [formatJSONHistoryObject].
  - split; [intros _; exists []; reflexivity|]. split.
    + intros points H. injection H as <-. auto.
    + intros (e & [] & _).
  - destruct (formatEntry E (key, fields)) as [p|] eqn:Hp.
    + assert (Hiso : Date_toISOString E key = Some (pricedAt p)).
      { unfold formatEntry in Hp. destruct (Date_toISOString E key); [|discriminate].
        injection Hp as <-. reflexivity. }
      destruct (formatJSONHistoryObject E rest) as [ps|] eqn:Hrest.
      * split; [intros _; exists (p :: ps); reflexivity|]. split.
        -- intros points H. injection H as <-.
           destruct (IHs ps eq_refl) as (H1 & H2 & H3).
           cbn [length map fst]. rewrite H1, H2, H3, Hiso, Hp. auto.
        -- intros (e & Hin & He). destruct Hin as [Heq|Hin].
           ++ subst e. cbn in He. congruence.
           ++ assert (Hnone : Some ps = None) by (apply IHn; exists e; auto).
              discriminate.
      * split; [|split; [discriminate|reflexivity]].
        intros Hall. destruct IHt as [ps Hps]; [|discriminate].
        intros e Hin. apply Hall. right. exact Hin.
    + assert (Hkey : Date_toISOString E key = None).
      { unfold formatEntry in Hp. destruct (Date_toISOString E key); [discriminate|reflexivity]. }
      split; [|split; [discriminate|reflexivity]].
      intros Hall. exfalso. apply (Hall (key, fields)); [left; reflexivity|exact Hkey].
Qed.

Lemma formatJSONHistoryObject_spec_witness :
  (exists points,
      formatJSONHistoryObject Fixture.mock
        [("2022-11-22", [("4. close", "149.1")]); ("2022-11-21", [])] = Some points /\
      length points = 2%nat) /\
  formatJSONHistoryObject Fixture.mock
    [("2022-11-22", [("4. close", "149.1")]); ("yesterday", [])] = None.
Proof.
  split.
  - destruct (proj1 (formatJSONHistoryObject_spec Fixture.mock
                       [("2022-11-22", [("4. close", "149.1")]); ("2022-11-21", [])]))
      as [points Hpoints].
    + intros entry [<-|[<-|[]]]; vm_compute; discriminate.
    + exists points. split; [exact Hpoints|].
      exact (proj1 (proj1 (proj2 (formatJSONHistoryObject_spec Fixture.mock
                       [("2022-11-22", [("4. close", "149.1")]); ("2022-11-21", [])]))
                      points Hpoints)).
  - apply (proj2 (proj2 (formatJSONHistoryObject_spec Fixture.mock
                    [("2022-11-22", [("4. close", "149.1")]); ("yesterday", [])]))).
    exists ("yesterday", []). split; [right; left; reflexivity | reflexivity].
Defined.

(** ** The trailing comma *)

Lemma endsWith_comma_inv text :
  JS.endsWith text "," = true -> exists t, text = (t ++ ",")%string.
Proof.
  induction text as [|c rest IH]; cbn [JS.endsWith].
  - cbn. discriminate.
  - destruct (String.eqb (String c rest) ",") eqn:Heq.
    + intros _. apply String.eqb_eq in Heq. exists EmptyString. exact Heq.
    + intros H. destruct (IH H) as [t ->]. exists (String c t). reflexivity.
Qed.

(** X5.  [removeLastCommaIfNecessary] either leaves a text that does not
    end with a comma as it is, or removes exactly the comma it ends
    with. *)
Theorem removeLastCommaIfNecessary_spec (text : string) :
  (JS.endsWith text "," = false /\ Searcher.removeLastCommaIfNecessary text = text) \/
  (text = Searcher.removeLastCommaIfNecessary text ++ ",")%string.
Proof.
  destruct (JS.endsWith text ",") eqn:He.
  - right. destruct (endsWith_comma_inv text He) as [t ->].
    rewrite SearcherFacts.removeLastComma_dropped. reflexivity.
  - left. split; [reflexivity|]. apply SearcherFacts.removeLastComma_kept. exact He.
Qed.

(** ** Faults of the history lookup *)

(** X6.  When the history provider's client throws, or when one of the
    two dates cannot be turned into an ISO date, either text of
    [getStockHistoryBySymbol] answers with the single [Unknown] error;
    the provider has been called by then. *)
Theorem history_faults_are_unknown (E : Env) (stock_name from to : string) :
  getValidationErrors E (historyChecks stock_name from to) = None ->
  alpha_getStockHistoryAsStream E stock_name = AlphaThrows \/
  formatDate E to = None \/ formatDate E from = None ->
  Searcher.getStockHistoryBySymbol E stock_name from to
    = (Errors [UnknownError], [AlphaCall stock_name]) /\
  Inline.getStockHistoryBySymbol E stock_name from to
    = (Returns (Errors [UnknownError]), [AlphaCall stock_name]).
Proof.
  intros Hv Hfault.
  unfold Searcher.getStockHistoryBySymbol, Inline.getStockHistoryBySymbol,
    Searcher.searchTimeIntervalInHistory.
  rewrite Hv. unfold bind, callAlpha.
  destruct (alpha_getStockHistoryAsStream E stock_name) as [lines|] eqn:Ha;
    [|split; reflexivity].
  destruct Hfault as [Hthrow|[Hto|Hfrom]]; [discriminate| |].
  - rewrite Hto. split; reflexivity.
  - rewrite Hfrom. destruct (formatDate E to); split; reflexivity.
Qed.

Lemma history_faults_are_unknown_witness :
  Searcher.getStockHistoryBySymbol Fixture.mock "ibm" "2022-11-21" "tomorrow"
    = (Errors [UnknownError], [AlphaCall "ibm"]) /\
  Inline.getStockHistoryBySymbol Fixture.mock "ibm" "2022-11-21" "tomorrow"
    = (Returns (Errors [UnknownError]), [AlphaCall "ibm"]).
Proof.
  apply (history_faults_are_unknown Fixture.mock "ibm" "2022-11-21" "tomorrow" eq_refl).
  right. left. reflexivity.
Defined.

(** ** What a history lookup can answer *)

(** The scan is rejected with one of two reasons only. *)
Lemma onData_rejections first last sc line :
  (forall r, Searcher.promise sc = Some (Searcher.Rejected r) -> r = "stock") ->
  forall r, Searcher.promise (Searcher.onData first last sc line) = Some (Searcher.Rejected r) ->
            r = "stock".
Proof.
  intros Hsc r. unfold Searcher.onData.
  destruct (Searcher.promise sc) as [s|] eqn:Hp;
    repeat split_match; cbn [Searcher.promise Searcher.settle];
    intros H; try discriminate; try (apply Hsc; exact H);
    injection H as <-; reflexivity.
Qed.

Lemma run_rejections first last lines : forall sc,
  (forall r, Searcher.promise sc = Some (Searcher.Rejected r) -> r = "stock") ->
  forall r, Searcher.promise (fold_left (Searcher.onData first last) lines sc)
            = Some (Searcher.Rejected r) -> r = "stock".
Proof.
  induction lines as [|line rest IH]; intros sc Hsc; [exact Hsc|].
  cbn [fold_left]. apply IH. apply onData_rejections. exact Hsc.
Qed.

Lemma scan_rejections lines first last reason :
  Searcher.scanStreamForTimeInterval lines first last = Searcher.Rejected reason ->
  reason = "stock" \/ reason = "fromto".
Proof.
  unfold Searcher.scanStreamForTimeInterval, Searcher.onEnd, Searcher.run.
  cbn [Searcher.promise].
  destruct (Searcher.promise (fold_left _ lines Searcher.start)) as [s|] eqn:Hp;
    cbn [Searcher.settle].
  - intros ->. left. eapply run_rejections; [|exact Hp]. discriminate.
  - intros H. injection H as <-. right. reflexivity.
Qed.

(** What the inline listener resolves its promise with. *)
Lemma inline_resolutions (E : Env) stock_name from to first last lines : forall l,
  (forall r, Inline.promise l = Some r ->
             (exists points, r = ControllerSuccess {| history_name := toUpperCase E stock_name;
                                                       prices := points |}) \/
             r = Errors [NotFoundError "stock_name" stock_name] \/
             r = Errors [NotFoundError "from" from; NotFoundError "to" to]) ->
  forall r, Inline.promise (Inline.deliver E stock_name from to first last lines l) = Some r ->
            (exists points, r = ControllerSuccess {| history_name := toUpperCase E stock_name;
                                                      prices := points |}) \/
            r = Errors [NotFoundError "stock_name" stock_name] \/
            r = Errors [NotFoundError "from" from; NotFoundError "to" to].
Proof.
  set (ok := fun l : Inline.Listener =>
               forall r, Inline.promise l = Some r ->
                 (exists points, r = ControllerSuccess {| history_name := toUpperCase E stock_name;
                                                           prices := points |}) \/
                 r = Errors [NotFoundError "stock_name" stock_name] \/
                 r = Errors [NotFoundError "from" from; NotFoundError "to" to]).
  assert (Hresolve : forall l p r, ok l ->
            ((exists points, r = ControllerSuccess {| history_name := toUpperCase E stock_name;
                                                       prices := points |}) \/
             r = Errors [NotFoundError "stock_name" stock_name] \/
             r = Errors [NotFoundError "from" from; NotFoundError "to" to]) ->
            Inline.promise p = Inline.resolve (Inline.promise l) r -> ok p).
  { intros l p r Hl Hr Hp r' Hr'. rewrite Hp in Hr'. unfold Inline.resolve in Hr'.
    destruct (Inline.promise l) eqn:Hpl.
    - apply Hl. rewrite Hpl. exact Hr'.
    - injection Hr' as <-. exact Hr. }
  assert (Hpause : forall l, ok l -> ok (Inline.pause E stock_name l)).
  { intros l Hl. unfold Inline.pause. destruct (Inline.flowing l); [|exact Hl].
    unfold Inline.onPause. cbn [Inline.stringResult Inline.promise Inline.state
                                  Inline.flowing Inline.faulted].
    destruct (String.eqb _ "{}").
    - eapply Hresolve; [exact Hl | | reflexivity]. right. left. reflexivity.
    - destruct (JSON_parse E _) as [raw|]; [|exact Hl].
      destruct (formatJSONHistoryObject E raw) as [ps|]; [|exact Hl].
      eapply Hresolve; [exact Hl | | reflexivity]. left. exists ps. reflexivity. }
  assert (Hdata : forall l line, ok l -> ok (Inline.onData E stock_name first last l line)).
  { intros l line Hl. unfold Inline.onData.
    set (l1 := if JS.includes line "Error Message" then Inline.pause E stock_name l else l).
    assert (H1 : ok l1).
    { subst l1. destruct (JS.includes line "Error Message"); [apply Hpause|]; exact Hl. }
    clearbody l1. destruct (Inline.faulted l1); [exact H1|].
    repeat split_match; try apply Hpause; exact H1. }
  induction lines as [|line rest IH]; intros l Hl; cbn [Inline.deliver].
  - destruct (Inline.flowing l && negb (Inline.faulted l)); [|exact Hl].
    eapply Hresolve; [exact Hl | | reflexivity]. right. right. reflexivity.
  - destruct (Inline.flowing l && negb (Inline.faulted l)); [|exact Hl].
    apply IH. apply Hdata. exact Hl.
Qed.

Lemma history_cases (E : Env) (stock_name from to : string) :
  getValidationErrors E (historyChecks stock_name from to) = None ->
  let answers (r : Response GetStockHistoryBySymbol) :=
    (exists points, r = ControllerSuccess {| history_name := toUpperCase E stock_name;
                                              prices := points |}) \/
    r = Errors [NotFoundError "from" from; NotFoundError "to" to] \/
    r = Errors [NotFoundError "stock_name" stock_name] \/
    r = Errors [UnknownError] in
  calls (Searcher.getStockHistoryBySymbol E stock_name from to) = [AlphaCall stock_name] /\
  answers (outcome (Searcher.getStockHistoryBySymbol E stock_name from to)) /\
  calls (Inline.getStockHistoryBySymbol E stock_name from to) = [AlphaCall stock_name] /\
  (forall r, outcome (Inline.getStockHistoryBySymbol E stock_name from to) = Returns r ->
             answers r).
Proof.
  intros Hv answers. subst answers. cbv beta.
  pose (pick := fun r : Response GetStockHistoryBySymbol =>
    (exists points, r = ControllerSuccess {| history_name := toUpperCase E stock_name;
                                              prices := points |}) \/
    r = Errors [NotFoundError "from" from; NotFoundError "to" to] \/
    r = Errors [NotFoundError "stock_name" stock_name] \/
    r = Errors [UnknownError]).
  assert (Hunknown : pick (Errors [UnknownError])) by (right; right; right; reflexivity).
  assert (Hstock : pick (Errors [NotFoundError "stock_name" stock_name]))
    by (right; right; left; reflexivity).
  assert (Hdates : pick (Errors [NotFoundError "from" from; NotFoundError "to" to]))
    by (right; left; reflexivity).
  assert (Hwindow : forall ps, pick (ControllerSuccess {| history_name := toUpperCase E stock_name;
                                                          prices := ps |}))
    by (intros ps; left; exists ps; reflexivity).
  fold (pick (outcome (Searcher.getStockHistoryBySymbol E stock_name from to))).
  assert (Hinline : forall r,
            outcome (Inline.getStockHistoryBySymbol E stock_name from to) = Returns r -> pick r).
  { unfold Inline.getStockHistoryBySymbol. rewrite Hv. io.
    destruct (alpha_getStockHistoryAsStream E stock_name) as [lines|]; io.
    2:{ intros r H. injection H as <-. exact Hunknown. }
    destruct (formatDate E to) as [first|]; io.
    2:{ intros r H. injection H as <-. exact Hunknown. }
    destruct (formatDate E from) as [last|]; io.
    2:{ intros r H. injection H as <-. exact Hunknown. }
    intros r. unfold Inline.settled.
    destruct (Inline.promise _) as [r'|] eqn:Hp; [|discriminate].
    intros H. injection H as ->.
    destruct (inline_resolutions E stock_name from to first last lines Inline.start
                ltac:(discriminate) r Hp) as [[ps ->]|[->| ->]]; auto. }
  split; [|split; [|split; [|exact Hinline]]].
  - unfold Searcher.getStockHistoryBySymbol. rewrite Hv. io.
    destruct (alpha_getStockHistoryAsStream E stock_name) as [lines|]; [|reflexivity].
    destruct (Searcher.searchTimeIntervalInHistory E lines from to); reflexivity.
  - unfold Searcher.getStockHistoryBySymbol. rewrite Hv. io.
    destruct (alpha_getStockHistoryAsStream E stock_name) as [lines|]; [|exact Hunknown].
    unfold Searcher.searchTimeIntervalInHistory.
    destruct (formatDate E to) as [first|]; [|exact Hunknown].
    destruct (formatDate E from) as [last|]; [|exact Hunknown].
    destruct (Searcher.scanStreamForTimeInterval lines first last) as [text|reason] eqn:Hscan.
    + destruct (JSON_parse E text) as [raw|]; [|exact Hunknown].
      destruct (formatJSONHistoryObject E raw) as [ps|]; [|exact Hunknown].
      apply Hwindow.
    + destruct (scan_rejections _ _ _ _ Hscan) as [-> | ->]; [exact Hstock | exact Hdates].
  - unfold Inline.getStockHistoryBySymbol. rewrite Hv. io.
    destruct (alpha_getStockHistoryAsStream E stock_name) as [lines|]; [|reflexivity].
    destruct (formatDate E to), (formatDate E from); reflexivity.
Qed.

(** X7.  Once the validator has let the request through, a history
    lookup calls the provider once and answers in one of four ways: the
    window under the uppercased name, [NotFound(from), NotFound(to)],
    [NotFound(stock_name)], or [Unknown].  The inline text may also leave
    its promise pending. *)
Theorem history_answers (E : Env) (stock_name from to : string) :
  getValidationErrors E (historyChecks stock_name from to) = None ->
  let answers (r : Response GetStockHistoryBySymbol) :=
    (exists points, r = ControllerSuccess {| history_name := toUpperCase E stock_name;
                                              prices := points |}) \/
    r = Errors [NotFoundError "from" from; NotFoundError "to" to] \/
    r = Errors [NotFoundError "stock_name" stock_name] \/
    r = Errors [UnknownError] in
  calls (Searcher.getStockHistoryBySymbol E stock_name from to) = [AlphaCall stock_name] /\
  answers (outcome (Searcher.getStockHistoryBySymbol E stock_name from to)) /\
  calls (Inline.getStockHistoryBySymbol E stock_name from to) = [AlphaCall stock_name] /\
  (forall r, outcome (Inline.getStockHistoryBySymbol E stock_name from to) = Returns r ->
             answers r).
Proof. exact (history_cases E stock_name from to). Qed.

Lemma history_answers_witness :
  calls (Searcher.getStockHistoryBySymbol Fixture.mock "ibm" "2022-11-21" "2022-11-22")
    = [AlphaCall "ibm"] /\
  calls (Inline.getStockHistoryBySymbol Fixture.mock "unknown" "2022-11-21" "2022-11-22")
    = [AlphaCall "unknown"].
Proof.
  destruct (history_answers Fixture.mock "ibm" "2022-11-21" "2022-11-22" eq_refl)
    as (H1 & _).
  destruct (history_answers Fixture.mock "unknown" "2022-11-21" "2022-11-22" eq_refl)
    as (_ & _ & H3 & _).
  split; assumption.
Defined.

(** ** The failure list is never empty *)

Lemma searcher_history_failure_nonempty (E : Env) stock_name from to errs :
  validator_reports_errors E ->
  outcome (Searcher.getStockHistoryBySymbol E stock_name from to) = Errors errs ->
  errs <> [].
Proof.
  intros HV.
  destruct (getValidationErrors E (historyChecks stock_name from to)) as [ve|] eqn:Hv.
  - unfold Searcher.getStockHistoryBySymbol. rewrite Hv. io.
    intros H. injection H as <-. eapply HV. exact Hv.
  - destruct (history_cases E stock_name from to Hv) as (_ & Hs & _).
    intros H. rewrite H in Hs.
    destruct Hs as [[ps Hs]|[Hs|[Hs|Hs]]]; try discriminate;
      injection Hs as ->; discriminate.
Qed.

Lemma inline_history_failure_nonempty (E : Env) stock_name from to errs :
  validator_reports_errors E ->
  outcome (Inline.getStockHistoryBySymbol E stock_name from to) = Returns (Errors errs) ->
  errs <> [].
Proof.
  intros HV.
  destruct (getValidationErrors E (historyChecks stock_name from to)) as [ve|] eqn:Hv.
  - unfold Inline.getStockHistoryBySymbol. rewrite Hv. io.
    intros H. injection H as <-. eapply HV. exact Hv.
  - destruct (history_cases E stock_name from to Hv) as (_ & _ & _ & Hi).
    intros H. destruct (Hi _ H) as [[ps Hs]|[Hs|[Hs|Hs]]]; try discriminate;
      injection Hs as ->; discriminate.
Qed.

Lemma collapse_nonempty date errs : errs <> [] -> collapse date errs <> [].
Proof.
  destruct errs as [|e0 [|e1 [|e2 rest]]]; try destruct e0; cbn; congruence.
Qed.

(** X8.  With a validator that answers with errors or with nothing, no
    operation of the controller ever returns a failure without an error
    in it: the quote lookup, the history window and the gains
    projection, in either text. *)
Theorem failures_never_empty (E : Env) :
  validator_reports_errors E ->
  forall stock_name errs,
    (outcome (getStockBySymbol E stock_name) = Errors errs -> errs <> []) /\
    (forall from to,
        outcome (Searcher.getStockHistoryBySymbol E stock_name from to) = Errors errs ->
        errs <> []) /\
    (forall from to,
        outcome (Inline.getStockHistoryBySymbol E stock_name from to) = Returns (Errors errs) ->
        errs <> []) /\
    (forall amount date,
        outcome (Searcher.projectGains E stock_name amount date) = Returns (Errors errs) ->
        errs <> []) /\
    (forall amount date,
        outcome (Inline.projectGains E stock_name amount date) = Returns (Errors errs) ->
        errs <> []).
Proof.
  intros HV stock_name errs.
  split; [apply quote_failure_nonempty; exact HV|].
  split; [intros from to; apply searcher_history_failure_nonempty; exact HV|].
  split; [intros from to; apply inline_history_failure_nonempty; exact HV|].
  split; intros amount date.
  - unfold Searcher.projectGains.
    destruct (getValidationErrors E (gainsChecks stock_name amount date)) as [ve|] eqn:Hv; io.
    { intros H. injection H as <-. eapply HV. exact Hv. }
    destruct (outcome (getStockBySymbol E stock_name)) as [today|qerrs] eqn:Hq; io.
    2:{ intros H. injection H as <-. eapply quote_failure_nonempty; eassumption. }
    destruct (outcome (Searcher.getStockHistoryBySymbol E stock_name date date))
      as [onDate|herrs] eqn:Hh; io.
    + destruct (prices onDate); io; [discriminate|].
      destruct (Date_toISOString E date); io; discriminate.
    + assert (Hne : herrs <> []) by (eapply searcher_history_failure_nonempty; eassumption).
      destruct herrs as [|e0 [|e1 [|e2 rest]]]; try destruct e0; cbn; io;
        intros H; injection H as <-; congruence.
  - unfold Inline.projectGains.
    destruct (getValidationErrors E (gainsChecks stock_name amount date)) as [ve|] eqn:Hv; io.
    { intros H. injection H as <-. eapply HV. exact Hv. }
    destruct (outcome (Inline.getStockHistoryBySymbol E stock_name date date))
      as [onDateValue|] eqn:Hh; io; [|discriminate].
    destruct (outcome (getStockBySymbol E stock_name)) as [today|qerrs] eqn:Hq; io.
    2:{ assert (Hne : qerrs <> []) by (eapply quote_failure_nonempty; eassumption).
        destruct qerrs as [|e0 [|e1 [|e2 rest]]]; try destruct e0; cbn; io;
          intros H; injection H as <-; congruence. }
    destruct onDateValue as [onDate|herrs]; io.
    + destruct (prices onDate); io; [discriminate|].
      destruct (Date_toISOString E date); io; discriminate.
    + assert (Hne : herrs <> []) by (eapply inline_history_failure_nonempty; eassumption).
      destruct herrs as [|e0 [|e1 [|e2 rest]]]; try destruct e0; cbn; io;
        intros H; injection H as <-; congruence.
Qed.

Lemma failures_never_empty_witness :
  validator_reports_errors Fixture.mock /\
  exists errs,
    outcome (Searcher.projectGains Fixture.mock "ibm" "10" "2022-11-25") = Returns (Errors errs) /\
    errs <> [].
Proof.
  split; [apply fixture_validator_reports_errors|].
  eexists. split; [vm_compute; reflexivity|].
  destruct (failures_never_empty Fixture.mock (fixture_validator_reports_errors _ _)
              "ibm" [NotFoundError "purchasedAt" "2022-11-25"]) as (_ & _ & _ & H & _).
  apply (H "10" "2022-11-25"). vm_compute. reflexivity.
Defined.

(** ** The requests of a gains projection *)

Lemma history_calls (E : Env) stock_name from to :
  calls (Searcher.getStockHistoryBySymbol E stock_name from to)
    = match getValidationErrors E (historyChecks stock_name from to) with
      | None => [AlphaCall stock_name]
      | Some _ => []
      end /\
  calls (Inline.getStockHistoryBySymbol E stock_name from to)
    = match getValidationErrors E (historyChecks stock_name from to) with
      | None => [AlphaCall stock_name]
      | Some _ => []
      end.
Proof.
  destruct (getValidationErrors E (historyChecks stock_name from to)) as [ve|] eqn:Hv.
  - unfold Searcher.getStockHistoryBySymbol, Inline.getStockHistoryBySymbol.
    rewrite Hv. split; reflexivity.
  - destruct (history_cases E stock_name from to Hv) as (H1 & _ & H3 & _). split; assumption.
Qed.

(** X9.  A gains projection that passed validation starts both lookups,
    the quote first, whatever either of them answers: a failed quote does
    not spare the request to the history provider.  Each lookup calls its
    provider once if its own validation lets it through. *)
Theorem projectGains_calls (E : Env) (stock_name amount date : string) :
  getValidationErrors E (gainsChecks stock_name amount date) = None ->
  let requests :=
    (if passes E stock_name then [YahooCall stock_name] else [])
    ++ match getValidationErrors E (historyChecks stock_name date date) with
       | None => [AlphaCall stock_name]
       | Some _ => []
       end in
  calls (Searcher.projectGains E stock_name amount date) = requests /\
  calls (Inline.projectGains E stock_name amount date) = requests.
Proof.
  intros Hv requests. subst requests.
  destruct (history_calls E stock_name date date) as [Hs Hi].
  rewrite <- Hs at 1. rewrite <- Hi. rewrite <- !quote_calls.
  unfold Searcher.projectGains, Inline.projectGains. rewrite Hv. io.
  split.
  - f_equal. rewrite <- (app_nil_r (calls (Searcher.getStockHistoryBySymbol _ _ _ _))) at 2.
    f_equal. repeat split_match; reflexivity.
  - f_equal. rewrite <- (app_nil_r (calls (Inline.getStockHistoryBySymbol _ _ _ _))) at 2.
    f_equal. repeat split_match; reflexivity.
Qed.

Lemma projectGains_calls_witness :
  calls (Searcher.projectGains Fixture.mock "Non Existent" "10" "2022-11-22")
    = [YahooCall "Non Existent"; AlphaCall "Non Existent"] /\
  calls (Inline.projectGains Fixture.mock "Non Existent" "10" "2022-11-22")
    = [YahooCall "Non Existent"; AlphaCall "Non Existent"].
Proof.
  exact (projectGains_calls Fixture.mock "Non Existent" "10" "2022-11-22" eq_refl).
Defined.

(** ** A price that did not move *)

Lemma fsub_self (x : number) : is_number x = true -> fsub x x = S754_zero false.
Proof.
  destruct x as [s| | |s m e]; try discriminate; intros _.
  - destruct s; reflexivity.
  - unfold fsub, SFsub. rewrite Z.sub_diag. reflexivity.
Qed.

(** X10.  When the last price equals the close price of the purchase
    date and their product with the amount is a number, the projected
    gain is [Number("0.00")], in either text. *)
Theorem unchanged_price_no_gain (E : Env) (stock_name amount date : string)
    (today : GetStockBySymbol) (onDate : GetStockHistoryBySymbol)
    (first : HistoricPrices) (rest : list HistoricPrices) (iso : string) :
  getValidationErrors E (gainsChecks stock_name amount date) = None ->
  outcome (getStockBySymbol E stock_name) = ControllerSuccess today ->
  prices onDate = first :: rest ->
  Date_toISOString E date = Some iso ->
  quote_lastPrice today = closing first ->
  is_number (fmul (closing first) (Number_ E (Some amount))) = true ->
  (outcome (Searcher.getStockHistoryBySymbol E stock_name date date) = ControllerSuccess onDate ->
   exists g, outcome (Searcher.projectGains E stock_name amount date)
               = Returns (ControllerSuccess g) /\
             capitalGains g = Number_ E (Some "0.00")) /\
  (outcome (Inline.getStockHistoryBySymbol E stock_name date date)
     = Returns (ControllerSuccess onDate) ->
   exists g, outcome (Inline.projectGains E stock_name amount date)
               = Returns (ControllerSuccess g) /\
             capitalGains g = Number_ E (Some "0.00")).
Proof.
  intros Hv Hq Hp Hd Hsame Hnum.
  assert (Hzero : capitalGains (projected E stock_name amount today first iso)
                  = Number_ E (Some "0.00")).
  { cbn [capitalGains projected]. unfold code_difference. rewrite Hsame.
    rewrite fsub_self by exact Hnum. reflexivity. }
  split; intros Hh; exists (projected E stock_name amount today first iso);
    (split; [|exact Hzero]).
  - eapply searcher_gains_success; eassumption.
  - eapply inline_gains_success; eassumption.
Qed.

Lemma unchanged_price_no_gain_witness :
  exists g,
    outcome (Searcher.projectGains (Fixture.env (Fixture.decimal 1491 10) Fixture.alpha)
               "ibm" "10" "2022-11-22") = Returns (ControllerSuccess g) /\
    capitalGains g = Fixture.toNumber (Some "0.00").
Proof.
  apply (unchanged_price_no_gain (Fixture.env (Fixture.decimal 1491 10) Fixture.alpha)
           "ibm" "10" "2022-11-22"
           (Fixture.quote (Fixture.decimal 1491 10)) (Fixture.window [Fixture.nov22])
           Fixture.nov22 [] "2022-11-22T00:00:00.000Z" eq_refl).
  - vm_compute. reflexivity.
  - reflexivity.
  - reflexivity.
  - vm_compute. reflexivity.
  - vm_compute. reflexivity.
  - vm_compute. reflexivity.
Defined.

(** ** More on strings *)

Lemma joined_app (a b : list string) : joined (a ++ b) = (joined a ++ joined b)%string.
Proof.
  induction a as [|x a IH]; [reflexivity|].
  cbn [app joined fold_right]. fold (joined (a ++ b)) (joined a).
  rewrite IH, append_assoc. reflexivity.
Qed.

Lemma append_length (a b : string) :
  String.length (a ++ b) = (String.length a + String.length b)%nat.
Proof. induction a as [|c a IH]; cbn; congruence. Qed.

Lemma prefix_length (a s : string) :
  String.prefix a s = true -> (String.length a <= String.length s)%nat.
Proof.
  revert s. induction a as [|c a IH]; intros s; [cbn; lia|].
  destruct s as [|d s]; cbn [String.prefix String.length]; [discriminate|].
  destruct (Ascii.ascii_dec c d); [|discriminate].
  intros H. apply IH in H. lia.
Qed.

Lemma includes_length (line needle : string) :
  JS.includes line needle = true -> (String.length needle <= String.length line)%nat.
Proof.
  induction line as [|c line IH]; cbn [JS.includes].
  - destruct (String.prefix needle EmptyString) eqn:Hp; [|discriminate].
    intros _. apply prefix_length. exact Hp.
  - destruct (String.prefix needle (String c line)) eqn:Hp.
    + intros _. apply prefix_length. exact Hp.
    + intros H. apply IH in H. cbn. lia.
Qed.

Lemma prefix_weaken (a b s : string) :
  String.prefix (a ++ b) s = true -> String.prefix a s = true.
Proof.
  revert s. induction a as [|c a IH]; intros s.
  - intros _. destruct s; reflexivity.
  - destruct s as [|d s]; cbn [String.append String.prefix]; [discriminate|].
    destruct (Ascii.ascii_dec c d); [apply IH | discriminate].
Qed.

(** A line that holds a text holds every beginning of that text. *)
Lemma includes_weaken (line a b : string) :
  JS.includes line (a ++ b) = true -> JS.includes line a = true.
Proof.
  induction line as [|c line IH]; cbn [JS.includes].
  - destruct (String.prefix (a ++ b) EmptyString) eqn:Hp; [|discriminate].
    intros _. rewrite (prefix_weaken _ _ _ Hp). reflexivity.
  - destruct (String.prefix (a ++ b) (String c line)) eqn:Hp.
    + intros _. rewrite (prefix_weaken _ _ _ Hp). reflexivity.
    + intros H. rewrite (IH H). destruct (String.prefix a (String c line)); reflexivity.
Qed.

Lemma slice_length (s : string) :
  String.length (JS.slice_0_m1 s) = Nat.pred (String.length s).
Proof.
  induction s as [|c s IH]; [reflexivity|].
  cbn [JS.slice_0_m1]. destruct s as [|d s]; [reflexivity|].
  cbn [String.length] in *. rewrite IH. reflexivity.
Qed.

(** The text of an open window without its last character, closed by a
    brace, is not the empty object. *)
Lemma window_not_empty_object (window line : string) :
  JS.includes line "}," = true ->
  String.eqb (JS.slice_0_m1 ("{" ++ window ++ line) ++ "}") "{}" = false.
Proof.
  intros H. apply String.eqb_neq. intros Heq.
  apply (f_equal String.length) in Heq.
  rewrite append_length, slice_length in Heq.
  cbn [String.append String.length] in Heq. rewrite append_length in Heq.
  apply includes_length in H. cbn [String.length] in H, Heq. lia.
Qed.

(** ** Windows of [HistorySearcher] *)

Module SearcherWindows.
Import Searcher.

(** A line that names both the first and the last day to appear. *)
Lemma onData_opens_last_day first last sc line :
  foundStartOfWantedInterval line first = true ->
  foundEndOfWantedInterval line last = true ->
  didntFoundStockInDatabase line = false ->
  JS.includes line "}" = false ->
  onData first last sc line
  = {| state := {| reading := true; ending := true |};
       result := (result sc ++ line)%string;
       promise := promise sc |}.
Proof.
  intros Hs He Hm Hb. unfold onData. rewrite Hm, Hs, He.
  unfold shouldIgnoreForPerformance, finishedReadingLastObject,
    isScanningThrougSearchingInterval.
  cbn [startReading startLookingForLastObject reading ending Bool.eqb andb].
  rewrite Hb. reflexivity.
Qed.

(** The scan of a stream that holds a window: idle lines, the lines of
    the window from the one that opens it to the record of its last day,
    the line that closes that record, and anything after. *)
Lemma window_text first last pre before closing body close post :
  Forall (fun line => foundStartOfWantedInterval line first = false /\
                      didntFoundStockInDatabase line = false) pre ->
  foundStartOfWantedInterval (hd closing before) first = true ->
  Forall (fun line => foundEndOfWantedInterval line last = false /\
                      didntFoundStockInDatabase line = false) before ->
  foundEndOfWantedInterval closing last = true ->
  didntFoundStockInDatabase closing = false ->
  JS.includes closing "}" = false ->
  Forall (fun line => JS.includes line "}" = false /\
                      didntFoundStockInDatabase line = false) body ->
  JS.includes close "}" = true ->
  didntFoundStockInDatabase close = false ->
  scanStreamForTimeInterval (pre ++ windowLines before closing body ++ close :: post) first last
  = Resolved (removeLastCommaIfNecessary
                ("{" ++ joined (windowLines before closing body) ++ close) ++ "}").
Proof.
  intros Hpre Hstart Hbefore Hc Hcm Hcb Hbody Hcl Hclm. unfold windowLines.
  destruct before as [|opening middle].
  - cbn [hd app] in *.
    assert (Hrun : run first last ((pre ++ [closing]) ++ body)
                   = {| state := {| reading := true; ending := true |};
                        result := ("{" ++ closing ++ joined body)%string;
                        promise := None |}).
    { rewrite !SearcherFacts.run_app. unfold run.
      rewrite (SearcherFacts.idle_lines first last pre start eq_refl Hpre).
      cbn [fold_left].
      rewrite (onData_opens_last_day first last start closing Hstart Hc Hcm Hcb).
      rewrite (SearcherFacts.finishing_lines first last body) by (try reflexivity; exact Hbody).
      cbn [state result promise start]. rewrite append_assoc. reflexivity. }
    replace (pre ++ closing :: body ++ close :: post)
      with (((pre ++ [closing]) ++ body) ++ close :: post)
      by (rewrite <- !app_assoc; reflexivity).
    rewrite SearcherFacts.scan_close; rewrite ?Hrun; try reflexivity; try assumption.
  - cbn [hd] in Hstart. inversion Hbefore as [|? ? [Hol Hom] Hmid]; subst.
    rewrite <- !app_assoc. cbn [app].
    rewrite (SearcherFacts.window_scan first last pre opening middle closing body close post)
      by assumption.
    change (joined (opening :: middle ++ closing :: body))
      with (opening ++ joined (middle ++ closing :: body))%string.
    rewrite joined_app.
    change (joined (closing :: body)) with (closing ++ joined body)%string.
    rewrite !append_assoc. reflexivity.
Qed.

End SearcherWindows.

Lemma searcher_window_outcome (E : Env) (stock_name from to first last : string)
    (pre before : list string) (closing : string) (body : list string) (close : string)
    (post : list string) :
  getValidationErrors E (historyChecks stock_name from to) = None ->
  alpha_getStockHistoryAsStream E stock_name
    = AlphaStream (pre ++ windowLines before closing body ++ close :: post) ->
  formatDate E to = Some first ->
  formatDate E from = Some last ->
  Forall (fun line => Searcher.foundStartOfWantedInterval line first = false /\
                      JS.includes line "Error Message" = false) pre ->
  Searcher.foundStartOfWantedInterval (hd closing before) first = true ->
  Forall (fun line => Searcher.foundEndOfWantedInterval line last = false /\
                      JS.includes line "Error Message" = false) before ->
  Searcher.foundEndOfWantedInterval closing last = true ->
  JS.includes closing "Error Message" = false ->
  JS.includes closing "}" = false ->
  Forall (fun line => JS.includes line "}" = false /\
                      JS.includes line "Error Message" = false) body ->
  JS.includes close "}" = true ->
  JS.includes close "Error Message" = false ->
  outcome (Searcher.getStockHistoryBySymbol E stock_name from to)
  = responseOf E stock_name
      (Searcher.removeLastCommaIfNecessary
         ("{" ++ joined (windowLines before closing body) ++ close) ++ "}")
      ControllerSuccess (Errors [UnknownError]).
Proof.
  intros Hv Ha Hto Hfrom Hpre Hstart Hbefore Hc Hcm Hcb Hbody Hcl Hclm.
  unfold Searcher.getStockHistoryBySymbol. rewrite Hv. io. rewrite Ha.
  unfold Searcher.searchTimeIntervalInHistory. rewrite Hto, Hfrom.
  rewrite SearcherWindows.window_text by assumption.
  unfold responseOf.
  destruct (JSON_parse E _) as [raw|]; [|reflexivity].
  destruct (formatJSONHistoryObject E raw); reflexivity.
Qed.

(** X11.  The history window of [HistorySearcher].  On a stream made of
    lines that neither open the window nor carry the marker, then the
    lines of the window (the first one names the [to] date beside an
    opening brace; none before the one that names the [from] date beside
    an opening brace does so; from that line on none holds a closing
    brace), then a line with a closing brace, the response is what
    [JSON.parse] and the formatter make of the window's lines between
    braces, a trailing comma removed; [Unknown] if either throws.  What
    follows the closing line does not matter, and a day is a window of
    its own when one line names both dates. *)
Theorem searcher_window_response (E : Env) (stock_name from to first last : string)
    (pre before : list string) (closing : string) (body : list string) (close : string)
    (post : list string) :
  getValidationErrors E (historyChecks stock_name from to) = None ->
  alpha_getStockHistoryAsStream E stock_name
    = AlphaStream (pre ++ windowLines before closing body ++ close :: post) ->
  formatDate E to = Some first ->
  formatDate E from = Some last ->
  Forall (fun line => Searcher.foundStartOfWantedInterval line first = false /\
                      JS.includes line "Error Message" = false) pre ->
  Searcher.foundStartOfWantedInterval (hd closing before) first = true ->
  Forall (fun line => Searcher.foundEndOfWantedInterval line last = false /\
                      JS.includes line "Error Message" = false) before ->
  Searcher.foundEndOfWantedInterval closing last = true ->
  JS.includes closing "Error Message" = false ->
  JS.includes closing "}" = false ->
  Forall (fun line => JS.includes line "}" = false /\
                      JS.includes line "Error Message" = false) body ->
  JS.includes close "}" = true ->
  JS.includes close "Error Message" = false ->
  outcome (Searcher.getStockHistoryBySymbol E stock_name from to)
  = responseOf E stock_name
      (Searcher.removeLastCommaIfNecessary
         ("{" ++ joined (windowLines before closing body) ++ close) ++ "}")
      ControllerSuccess (Errors [UnknownError]).
Proof.
  exact (searcher_window_outcome E stock_name from to first last pre before closing body
           close post).
Qed.

(** The two-day window of the tests, cut out of the three-day document. *)
Lemma searcher_window_response_witness :
  outcome (Searcher.getStockHistoryBySymbol Fixture.mock "ibm" "2022-11-21" "2022-11-22")
  = ControllerSuccess (Fixture.window [Fixture.nov22; Fixture.nov21]).
Proof.
  rewrite (searcher_window_response Fixture.mock "ibm" "2022-11-21" "2022-11-22"
             "2022-11-22" "2022-11-21"
             ["{"]
             (Fixture.day "2022-11-22" "147.6000" "149.3500" "147.0200" "149.1000" true)
             (hd EmptyString
                 (Fixture.day "2022-11-21" "147.5500" "147.9280" "146.4500" "146.6800" true))
             (firstn 4 (tl (Fixture.day "2022-11-21" "147.5500" "147.9280" "146.4500"
                              "146.6800" true)))
             "    },"
             (Fixture.day "2022-11-18" "146.5600" "148.3100" "145.9400" "147.6400" false
              ++ ["}"]));
    try (vm_compute; reflexivity);
    vm_compute; repeat constructor.
Defined.

(** ** Windows of the inline scanner *)

Module InlineWindows.
Import Inline.

Section Scanning.
Context (E : Env).
Variables stock_name from to first last : string.

(** The listener while the stream flows and nothing is settled. *)
Let scanning (st : searchingState) (text : string) : Listener :=
  {| state := st; stringResult := text; flowing := true; promise := None; faulted := false |}.

Let idle := {| reading := false; ending := false |}.
Let opened := {| reading := true; ending := false |}.
Let finishing := {| reading := true; ending := true |}.

Lemma deliver_cons st text line rest :
  deliver E stock_name from to first last (line :: rest) (scanning st text)
  = deliver E stock_name from to first last rest
      (onData E stock_name first last (scanning st text) line).
Proof. reflexivity. Qed.

Lemma deliver_paused lines l :
  flowing l = false -> deliver E stock_name from to first last lines l = l.
Proof. intros H. destruct lines; cbn [deliver]; rewrite H; reflexivity. Qed.

Lemma step_idle text line :
  JS.includes line "Error Message" = false ->
  JS.includes line first && JS.includes line "{" = false ->
  onData E stock_name first last (scanning idle text) line = scanning idle text.
Proof. intros Hm Hs. unfold onData. rewrite Hm, Hs. reflexivity. Qed.

Lemma step_open text line :
  JS.includes line "Error Message" = false ->
  JS.includes line first && JS.includes line "{" = true ->
  JS.includes line last && JS.includes line "{" = false ->
  onData E stock_name first last (scanning idle text) line = scanning opened (text ++ line).
Proof. intros Hm Hs He. unfold onData. rewrite Hm, Hs, He. reflexivity. Qed.

Lemma step_open_last_day text line :
  JS.includes line "Error Message" = false ->
  JS.includes line first && JS.includes line "{" = true ->
  JS.includes line last && JS.includes line "{" = true ->
  JS.includes line "}," = false ->
  onData E stock_name first last (scanning idle text) line = scanning finishing (text ++ line).
Proof. intros Hm Hs He Hc. unfold onData. rewrite Hm, Hs, He, Hc. reflexivity. Qed.

Lemma step_read text line :
  JS.includes line "Error Message" = false ->
  JS.includes line last && JS.includes line "{" = false ->
  onData E stock_name first last (scanning opened text) line = scanning opened (text ++ line).
Proof.
  intros Hm He. unfold onData. rewrite Hm, He.
  destruct (JS.includes line first && JS.includes line "{"); reflexivity.
Qed.

Lemma step_last_day text line :
  JS.includes line "Error Message" = false ->
  JS.includes line last && JS.includes line "{" = true ->
  JS.includes line "}," = false ->
  onData E stock_name first last (scanning opened text) line = scanning finishing (text ++ line).
Proof.
  intros Hm He Hc. unfold onData. rewrite Hm, He, Hc.
  destruct (JS.includes line first && JS.includes line "{"); reflexivity.
Qed.

Lemma step_finish text line :
  JS.includes line "Error Message" = false ->
  JS.includes line "}," = false ->
  onData E stock_name first last (scanning finishing text) line
  = scanning finishing (text ++ line).
Proof.
  intros Hm Hc. unfold onData. rewrite Hm, Hc.
  destruct (JS.includes line first && JS.includes line "{"),
           (JS.includes line last && JS.includes line "{"); reflexivity.
Qed.

(** The line that stops the stream: the last character of the text goes,
    whatever it is, and the ['pause'] listener takes over. *)
Lemma step_close text line :
  JS.includes line "Error Message" = false ->
  JS.includes line "}," = true ->
  onData E stock_name first last (scanning finishing text) line
  = onPause E stock_name
      {| state := finishing; stringResult := JS.slice_0_m1 (text ++ line);
         flowing := false; promise := None; faulted := false |}.
Proof.
  intros Hm Hc. unfold onData. rewrite Hm, Hc.
  destruct (JS.includes line first && JS.includes line "{"),
           (JS.includes line last && JS.includes line "{"); reflexivity.
Qed.

Lemma deliver_idle_lines pre rest text :
  Forall (fun line => JS.includes line "Error Message" = false /\
                      JS.includes line first && JS.includes line "{" = false) pre ->
  deliver E stock_name from to first last (pre ++ rest) (scanning idle text)
  = deliver E stock_name from to first last rest (scanning idle text).
Proof.
  induction pre as [|line pre IH]; intros Hall; [reflexivity|].
  inversion Hall as [|? ? [Hm Hs] Hrest]; subst.
  cbn [app]. rewrite deliver_cons, step_idle by assumption. apply IH. exact Hrest.
Qed.

Lemma deliver_read_lines middle rest : forall text,
  Forall (fun line => JS.includes line last && JS.includes line "{" = false /\
                      JS.includes line "Error Message" = false) middle ->
  deliver E stock_name from to first last (middle ++ rest) (scanning opened text)
  = deliver E stock_name from to first last rest (scanning opened (text ++ joined middle)).
Proof.
  induction middle as [|line middle IH]; intros text Hall.
  - cbn [app joined fold_right]. rewrite append_nil_r. reflexivity.
  - inversion Hall as [|? ? [He Hm] Hrest]; subst.
    cbn [app]. rewrite deliver_cons, step_read by assumption.
    rewrite IH by exact Hrest.
    change (joined (line :: middle)) with (line ++ joined middle)%string.
    rewrite append_assoc. reflexivity.
Qed.

Lemma deliver_finish_lines body rest : forall text,
  Forall (fun line => JS.includes line "}," = false /\
                      JS.includes line "Error Message" = false) body ->
  deliver E stock_name from to first last (body ++ rest) (scanning finishing text)
  = deliver E stock_name from to first last rest (scanning finishing (text ++ joined body)).
Proof.
  induction body as [|line body IH]; intros text Hall.
  - cbn [app joined fold_right]. rewrite append_nil_r. reflexivity.
  - inversion Hall as [|? ? [Hc Hm] Hrest]; subst.
    cbn [app]. rewrite deliver_cons, step_finish by assumption.
    rewrite IH by exact Hrest.
    change (joined (line :: body)) with (line ++ joined body)%string.
    rewrite append_assoc. reflexivity.
Qed.

(** What the ['pause'] listener settles once a window has been read. *)
Lemma settled_onPause text :
  String.eqb (text ++ "}") "{}" = false ->
  settled (onPause E stock_name
             {| state := finishing; stringResult := text;
                flowing := false; promise := None; faulted := false |})
  = responseOf E stock_name (text ++ "}") (fun r => Returns (ControllerSuccess r)) Faults.
Proof.
  intros Hne. unfold onPause, responseOf. cbn [stringResult promise state flowing faulted].
  rewrite Hne.
  destruct (JSON_parse E _) as [raw|]; [|reflexivity].
  destruct (formatJSONHistoryObject E raw); reflexivity.
Qed.

Lemma window_settled pre before closing body close post :
  Forall (fun line => JS.includes line "Error Message" = false /\
                      JS.includes line first && JS.includes line "{" = false) pre ->
  JS.includes (hd closing before) first && JS.includes (hd closing before) "{" = true ->
  Forall (fun line => JS.includes line last && JS.includes line "{" = false /\
                      JS.includes line "Error Message" = false) before ->
  JS.includes closing last && JS.includes closing "{" = true ->
  JS.includes closing "Error Message" = false ->
  JS.includes closing "}," = false ->
  Forall (fun line => JS.includes line "}," = false /\
                      JS.includes line "Error Message" = false) body ->
  JS.includes close "}," = true ->
  JS.includes close "Error Message" = false ->
  settled (deliver E stock_name from to first last
             (pre ++ windowLines before closing body ++ close :: post) start)
  = responseOf E stock_name
      (JS.slice_0_m1 ("{" ++ joined (windowLines before closing body) ++ close) ++ "}")
      (fun r => Returns (ControllerSuccess r)) Faults.
Proof.
  intros Hpre Hstart Hbefore Hc Hcm Hcc Hbody Hcl Hclm. unfold windowLines.
  change start with (scanning idle "{").
  rewrite deliver_idle_lines by exact Hpre.
  assert (Hend : forall text,
            settled (deliver E stock_name from to first last (body ++ close :: post)
                       (scanning finishing ("{" ++ text)))
            = responseOf E stock_name
                (JS.slice_0_m1 ("{" ++ (text ++ joined body) ++ close) ++ "}")
                (fun r => Returns (ControllerSuccess r)) Faults).
  { intros text. rewrite deliver_finish_lines by exact Hbody.
    rewrite deliver_cons, step_close by assumption.
    rewrite deliver_paused.
    2:{ unfold onPause. repeat split_match; reflexivity. }
    exact (settled_onPause (JS.slice_0_m1 ("{" ++ (text ++ joined body) ++ close))
             (window_not_empty_object (text ++ joined body) close Hcl)). }
  destruct before as [|opening middle].
  - cbn [hd app] in *.
    rewrite deliver_cons, step_open_last_day by assumption.
    rewrite Hend. reflexivity.
  - cbn [hd] in Hstart. inversion Hbefore as [|? ? [Hol Hom] Hmid]; subst.
    rewrite <- !app_assoc. cbn [app].
    rewrite deliver_cons, step_open by assumption.
    rewrite deliver_read_lines by exact Hmid.
    rewrite deliver_cons, step_last_day by assumption.
    rewrite !append_assoc. rewrite Hend.
    change (joined (opening :: middle ++ closing :: body))
      with (opening ++ joined (middle ++ closing :: body))%string.
    rewrite joined_app.
    change (joined (closing :: body)) with (closing ++ joined body)%string.
    rewrite !append_assoc. reflexivity.
Qed.

End Scanning.
End InlineWindows.

Lemma inline_window_outcome (E : Env) (stock_name from to first last : string)
    (pre before : list string) (closing : string) (body : list string) (close : string)
    (post : list string) :
  getValidationErrors E (historyChecks stock_name from to) = None ->
  alpha_getStockHistoryAsStream E stock_name
    = AlphaStream (pre ++ windowLines before closing body ++ close :: post) ->
  formatDate E to = Some first ->
  formatDate E from = Some last ->
  Forall (fun line => JS.includes line "Error Message" = false /\
                      JS.includes line first && JS.includes line "{" = false) pre ->
  JS.includes (hd closing before) first && JS.includes (hd closing before) "{" = true ->
  Forall (fun line => JS.includes line last && JS.includes line "{" = false /\
                      JS.includes line "Error Message" = false) before ->
  JS.includes closing last && JS.includes closing "{" = true ->
  JS.includes closing "Error Message" = false ->
  JS.includes closing "}," = false ->
  Forall (fun line => JS.includes line "}," = false /\
                      JS.includes line "Error Message" = false) body ->
  JS.includes close "}," = true ->
  JS.includes close "Error Message" = false ->
  outcome (Inline.getStockHistoryBySymbol E stock_name from to)
  = responseOf E stock_name
      (JS.slice_0_m1 ("{" ++ joined (windowLines before closing body) ++ close) ++ "}")
      (fun r => Returns (ControllerSuccess r)) Faults.
Proof.
  intros Hv Ha Hto Hfrom Hpre Hstart Hbefore Hc Hcm Hcc Hbody Hcl Hclm.
  rewrite (inline_delivered E stock_name from to first last _ Hv Ha Hto Hfrom).
  cbn [outcome fst]. apply InlineWindows.window_settled; assumption.
Qed.

(** X12.  The history window of the inline scanner.  On a stream made of
    lines that neither open the window nor carry the marker, then the
    lines of the window (none holding [},] from the one that names the
    [from] date on), then a line that holds [},], the response is what
    [JSON.parse] and the formatter make of the window's lines between
    braces with their last character removed, whatever that character
    is; if either throws, the promise is left pending. *)
Theorem inline_window_response (E : Env) (stock_name from to first last : string)
    (pre before : list string) (closing : string) (body : list string) (close : string)
    (post : list string) :
  getValidationErrors E (historyChecks stock_name from to) = None ->
  alpha_getStockHistoryAsStream E stock_name
    = AlphaStream (pre ++ windowLines before closing body ++ close :: post) ->
  formatDate E to = Some first ->
  formatDate E from = Some last ->
  Forall (fun line => JS.includes line "Error Message" = false /\
                      JS.includes line first && JS.includes line "{" = false) pre ->
  JS.includes (hd closing before) first && JS.includes (hd closing before) "{" = true ->
  Forall (fun line => JS.includes line last && JS.includes line "{" = false /\
                      JS.includes line "Error Message" = false) before ->
  JS.includes closing last && JS.includes closing "{" = true ->
  JS.includes closing "Error Message" = false ->
  JS.includes closing "}," = false ->
  Forall (fun line => JS.includes line "}," = false /\
                      JS.includes line "Error Message" = false) body ->
  JS.includes close "}," = true ->
  JS.includes close "Error Message" = false ->
  outcome (Inline.getStockHistoryBySymbol E stock_name from to)
  = responseOf E stock_name
      (JS.slice_0_m1 ("{" ++ joined (windowLines before closing body) ++ close) ++ "}")
      (fun r => Returns (ControllerSuccess r)) Faults.
Proof.
  exact (inline_window_outcome E stock_name from to first last pre before closing body
           close post).
Qed.

Lemma inline_window_response_witness :
  outcome (Inline.getStockHistoryBySymbol Fixture.mock "ibm" "2022-11-21" "2022-11-22")
  = Returns (ControllerSuccess (Fixture.window [Fixture.nov22; Fixture.nov21])).
Proof.
  rewrite (inline_window_response Fixture.mock "ibm" "2022-11-21" "2022-11-22"
             "2022-11-22" "2022-11-21"
             ["{"]
             (Fixture.day "2022-11-22" "147.6000" "149.3500" "147.0200" "149.1000" true)
             (hd EmptyString
                 (Fixture.day "2022-11-21" "147.5500" "147.9280" "146.4500" "146.6800" true))
             (firstn 4 (tl (Fixture.day "2022-11-21" "147.5500" "147.9280" "146.4500"
                              "146.6800" true)))
             "    },"
             (Fixture.day "2022-11-18" "146.5600" "148.3100" "145.9400" "147.6400" false
              ++ ["}"]));
    try (vm_compute; reflexivity);
    vm_compute; repeat constructor.
Defined.

Lemma no_brace_no_brace_comma (line : string) :
  JS.includes line "}" = false -> JS.includes line "}," = false.
Proof.
  intros H. destruct (JS.includes line "},") eqn:Hc; [|reflexivity].
  rewrite (includes_weaken line "}" "," Hc) in H. discriminate.
Qed.

(** X13.  On a window whose closing line ends with a comma and holds
    [},], and whose lines hold no closing brace from the one that names
    the [from] date on, the two texts agree: the inline scanner returns
    the window [HistorySearcher] returns, and leaves its promise pending
    where [HistorySearcher] answers [Unknown]. *)
Theorem scanners_agree (E : Env) (stock_name from to first last : string)
    (pre before : list string) (closing : string) (body : list string) (close : string)
    (post : list string) :
  getValidationErrors E (historyChecks stock_name from to) = None ->
  alpha_getStockHistoryAsStream E stock_name
    = AlphaStream (pre ++ windowLines before closing body ++ (close ++ ",")%string :: post) ->
  formatDate E to = Some first ->
  formatDate E from = Some last ->
  Forall (fun line => Searcher.foundStartOfWantedInterval line first = false /\
                      JS.includes line "Error Message" = false) pre ->
  Searcher.foundStartOfWantedInterval (hd closing before) first = true ->
  Forall (fun line => Searcher.foundEndOfWantedInterval line last = false /\
                      JS.includes line "Error Message" = false) before ->
  Searcher.foundEndOfWantedInterval closing last = true ->
  JS.includes closing "Error Message" = false ->
  JS.includes closing "}" = false ->
  Forall (fun line => JS.includes line "}" = false /\
                      JS.includes line "Error Message" = false) body ->
  JS.includes (close ++ ",") "}," = true ->
  JS.includes (close ++ ",") "Error Message" = false ->
  outcome (Inline.getStockHistoryBySymbol E stock_name from to)
  = match outcome (Searcher.getStockHistoryBySymbol E stock_name from to) with
    | ControllerSuccess r => Returns (ControllerSuccess r)
    | Errors _ => Faults
    end.
Proof.
  intros Hv Ha Hto Hfrom Hpre Hstart Hbefore Hc Hcm Hcb Hbody Hcl Hclm.
  rewrite (searcher_window_outcome E stock_name from to first last pre before closing body
             (close ++ ",") post); try assumption.
  2:{ apply (includes_weaken _ "}" ","). exact Hcl. }
  rewrite (inline_window_outcome E stock_name from to first last pre before closing body
             (close ++ ",") post); try assumption.
  - rewrite <- !append_assoc.
    rewrite SearcherFacts.removeLastComma_dropped, SearcherFacts.slice_comma.
    unfold responseOf.
    destruct (JSON_parse E _) as [raw|]; [|reflexivity].
    destruct (formatJSONHistoryObject E raw); reflexivity.
  - eapply Forall_impl; [|exact Hpre]. cbv beta. intros line [H1 H2]. split; assumption.
  - apply no_brace_no_brace_comma. exact Hcb.
  - eapply Forall_impl; [|exact Hbody]. cbv beta. intros line [H1 H2].
    split; [apply no_brace_no_brace_comma|]; assumption.
Qed.

Lemma scanners_agree_witness :
  outcome (Inline.getStockHistoryBySymbol Fixture.mock "ibm" "2022-11-21" "2022-11-22")
  = match outcome (Searcher.getStockHistoryBySymbol Fixture.mock "ibm" "2022-11-21" "2022-11-22")
    with
    | ControllerSuccess r => Returns (ControllerSuccess r)
    | Errors _ => Faults
    end.
Proof.
  apply (scanners_agree Fixture.mock "ibm" "2022-11-21" "2022-11-22"
           "2022-11-22" "2022-11-21"
           ["{"]
           (Fixture.day "2022-11-22" "147.6000" "149.3500" "147.0200" "149.1000" true)
           (hd EmptyString
               (Fixture.day "2022-11-21" "147.5500" "147.9280" "146.4500" "146.6800" true))
           (firstn 4 (tl (Fixture.day "2022-11-21" "147.5500" "147.9280" "146.4500"
                            "146.6800" true)))
           "    }"
           (Fixture.day "2022-11-18" "146.5600" "148.3100" "145.9400" "147.6400" false
            ++ ["}"]));
    try (vm_compute; reflexivity);
    vm_compute; repeat constructor.
Defined.

(** ** What follows the settling line *)

Lemma inline_deliver_stopped (E : Env) stock_name from to first last pre post : forall l,
  Inline.flowing (Inline.deliver E stock_name from to first last pre l) = false ->
  Inline.deliver E stock_name from to first last (pre ++ post) l
  = Inline.deliver E stock_name from to first last pre l.
Proof.
  induction pre as [|line pre IH]; intros l; cbn [app Inline.deliver].
  - destruct (Inline.flowing l && negb (Inline.faulted l)) eqn:Hc.
    + cbn [Inline.onEnd Inline.flowing]. intros Hf. rewrite Hf in Hc. discriminate.
    + intros _. destruct post; cbn [Inline.deliver]; rewrite Hc; reflexivity.
  - destruct (Inline.flowing l && negb (Inline.faulted l)); [apply IH | reflexivity].
Qed.

(** X14.  Once a scan has settled, nothing that follows in the stream
    changes its result: a settled promise of [HistorySearcher] keeps its
    value through every later line (the marker included), and the inline
    scanner, once paused, is handed no further line. *)
Theorem later_lines_do_not_matter (E : Env) (stock_name from to first last : string)
    (pre post : list string) :
  (Searcher.promise (Searcher.run first last pre) <> None ->
   Searcher.scanStreamForTimeInterval (pre ++ post) first last
   = Searcher.scanStreamForTimeInterval pre first last) /\
  (Inline.flowing (Inline.deliver E stock_name from to first last pre Inline.start) = false ->
   Inline.deliver E stock_name from to first last (pre ++ post) Inline.start
   = Inline.deliver E stock_name from to first last pre Inline.start).
Proof.
  split.
  - destruct (Searcher.promise (Searcher.run first last pre)) as [s|] eqn:Hp; [|congruence].
    intros _. rewrite (SearcherFacts.scan_settled first last pre s Hp).
    apply SearcherFacts.scan_settled. rewrite SearcherFacts.run_app.
    apply SearcherFacts.settled_lines. exact Hp.
  - apply inline_deliver_stopped.
Qed.

(** The two-day window of the tests, with the provider's marker appended
    after it. *)
Lemma later_lines_do_not_matter_witness :
  Searcher.scanStreamForTimeInterval
    (firstn 13 Fixture.AlphaReturnExample ++ [Fixture.errorLine]) "2022-11-22" "2022-11-21"
  = Searcher.scanStreamForTimeInterval
      (firstn 13 Fixture.AlphaReturnExample) "2022-11-22" "2022-11-21" /\
  Inline.deliver Fixture.mock "ibm" "2022-11-21" "2022-11-22" "2022-11-22" "2022-11-21"
    (firstn 13 Fixture.AlphaReturnExample ++ [Fixture.errorLine]) Inline.start
  = Inline.deliver Fixture.mock "ibm" "2022-11-21" "2022-11-22" "2022-11-22" "2022-11-21"
      (firstn 13 Fixture.AlphaReturnExample) Inline.start.
Proof.
  destruct (later_lines_do_not_matter Fixture.mock "ibm" "2022-11-21" "2022-11-22"
              "2022-11-22" "2022-11-21" (firstn 13 Fixture.AlphaReturnExample)
              [Fixture.errorLine]) as [Hs Hi].
  split.
  - apply Hs. vm_compute. discriminate.
  - apply Hi. vm_compute. reflexivity.
Defined.

(** ** A boundary that never appears *)

Lemma inline_onData_not_ending (E : Env) stock_name first last l line :
  Inline.ending (Inline.state l) = false ->
  JS.includes line "Error Message" = false ->
  JS.includes line last && JS.includes line "{" = false ->
  Inline.ending (Inline.state (Inline.onData E stock_name first last l line)) = false /\
  Inline.flowing (Inline.onData E stock_name first last l line) = Inline.flowing l /\
  Inline.faulted (Inline.onData E stock_name first last l line) = Inline.faulted l /\
  Inline.promise (Inline.onData E stock_name first last l line) = Inline.promise l.
Proof.
  intros He Hm Hl. unfold Inline.onData. rewrite Hm, Hl.
  destruct (Inline.faulted l) eqn:Hf; [rewrite Hf; auto|].
  destruct (JS.includes line first && JS.includes line "{");
    cbn [Inline.reading Inline.ending negb]; rewrite ?He;
    destruct (Inline.reading (Inline.state l)); cbn; rewrite ?He, ?Hf; auto.
Qed.

Lemma inline_never_ending (E : Env) stock_name from to first last lines : forall l,
  Inline.ending (Inline.state l) = false ->
  Inline.flowing l = true ->
  Inline.faulted l = false ->
  Inline.promise l = None ->
  Forall (fun line => JS.includes line last && JS.includes line "{" = false /\
                      JS.includes line "Error Message" = false) lines ->
  Inline.settled (Inline.deliver E stock_name from to first last lines l)
  = Returns (Errors [NotFoundError "from" from; NotFoundError "to" to]).
Proof.
  induction lines as [|line rest IH]; intros l He Hfl Hfa Hp Hall; cbn [Inline.deliver];
    rewrite Hfl, Hfa; cbn [andb negb].
  - unfold Inline.settled, Inline.onEnd. cbn [Inline.promise]. rewrite Hp. reflexivity.
  - inversion Hall as [|? ? [Hl Hm] Hrest]; subst.
    destruct (inline_onData_not_ending E stock_name first last l line He Hm Hl)
      as (H1 & H2 & H3 & H4).
    apply IH; try assumption; congruence.
Qed.

(** X15.  A window of which one boundary never appears is answered with
    [NotFound(from), NotFound(to)] by either text, whatever the other
    boundary does: when no line names the [to] date beside an opening
    brace, and when one does but none names the [from] date beside an
    opening brace (no line carrying the marker). *)
Theorem unmatched_boundary (E : Env) (stock_name from to first last : string)
    (lines : list string) :
  getValidationErrors E (historyChecks stock_name from to) = None ->
  alpha_getStockHistoryAsStream E stock_name = AlphaStream lines ->
  formatDate E to = Some first ->
  formatDate E from = Some last ->
  Forall (fun line => JS.includes line "Error Message" = false) lines ->
  Forall (fun line => Searcher.foundStartOfWantedInterval line first = false) lines \/
  Forall (fun line => Searcher.foundEndOfWantedInterval line last = false) lines ->
  outcome (Searcher.getStockHistoryBySymbol E stock_name from to)
    = Errors [NotFoundError "from" from; NotFoundError "to" to] /\
  outcome (Inline.getStockHistoryBySymbol E stock_name from to)
    = Returns (Errors [NotFoundError "from" from; NotFoundError "to" to]).
Proof.
  intros Hv Ha Hto Hfrom Hmarker Hmissing.
  rewrite (inline_delivered E stock_name from to first last lines Hv Ha Hto Hfrom).
  cbn [outcome fst].
  assert (Hscan : Searcher.scanStreamForTimeInterval lines first last
                  = Searcher.Rejected "fromto").
  { unfold Searcher.scanStreamForTimeInterval, Searcher.onEnd. cbn [Searcher.promise].
    assert (Hnone : Searcher.promise (Searcher.run first last lines) = None);
      [|rewrite Hnone; reflexivity].
    destruct Hmissing as [Hstart|Hend].
    - unfold Searcher.run. rewrite SearcherFacts.idle_lines; [reflexivity | reflexivity |].
      apply Forall_forall. intros line Hin. split.
      + apply (proj1 (Forall_forall _ _) Hstart line Hin).
      + apply (proj1 (Forall_forall _ _) Hmarker line Hin).
    - unfold Searcher.run.
      assert (Hinv : forall ls sc,
                Searcher.ending (Searcher.state sc) = false ->
                Searcher.promise sc = None ->
                Forall (fun line => JS.includes line "Error Message" = false) ls ->
                Forall (fun line => Searcher.foundEndOfWantedInterval line last = false) ls ->
                Searcher.promise (fold_left (Searcher.onData first last) ls sc) = None).
      { induction ls as [|line rest IH]; intros sc He Hp Hm Hl; [exact Hp|].
        inversion Hm as [|? ? Hm1 Hm2]; inversion Hl as [|? ? Hl1 Hl2]; subst.
        cbn [fold_left]. apply IH; try assumption.
        - unfold Searcher.onData. fold (Searcher.didntFoundStockInDatabase line).
          unfold Searcher.didntFoundStockInDatabase. rewrite Hm1, Hl1.
          unfold Searcher.finishedReadingLastObject.
          repeat split_match; cbn [Searcher.state Searcher.ending Searcher.startReading];
            try exact He; try (rewrite He in *; cbn in *; discriminate).
        - unfold Searcher.onData. unfold Searcher.didntFoundStockInDatabase.
          rewrite Hm1, Hl1, Hp. unfold Searcher.finishedReadingLastObject.
          destruct (Searcher.foundStartOfWantedInterval line first);
            cbn [Searcher.startReading Searcher.ending Searcher.reading
                   Searcher.shouldIgnoreForPerformance Bool.eqb];
            repeat split_match; cbn [Searcher.promise]; try reflexivity;
            rewrite He in *; cbn in *; discriminate. }
      apply Hinv; try reflexivity; assumption. }
  split.
  - rewrite (searcher_rejected E stock_name from to first last lines Hv Ha Hto Hfrom
               "fromto" Hscan). reflexivity.
  - destruct Hmissing as [Hstart|Hend].
    + rewrite InlineFacts.deliver_idle; try reflexivity.
      apply Forall_forall. intros line Hin. split.
      * apply (proj1 (Forall_forall _ _) Hmarker line Hin).
      * apply (proj1 (Forall_forall _ _) Hstart line Hin).
    + apply inline_never_ending; try reflexivity.
      apply Forall_forall. intros line Hin. split.
      * apply (proj1 (Forall_forall _ _) Hend line Hin).
      * apply (proj1 (Forall_forall _ _) Hmarker line Hin).
Qed.

(** A window that opens on 2022-11-22 and should close on a day the
    document does not hold. *)
Lemma unmatched_boundary_witness :
  outcome (Searcher.getStockHistoryBySymbol Fixture.mock "ibm" "2022-11-17" "2022-11-22")
    = Errors [NotFoundError "from" "2022-11-17"; NotFoundError "to" "2022-11-22"] /\
  outcome (Inline.getStockHistoryBySymbol Fixture.mock "ibm" "2022-11-17" "2022-11-22")
    = Returns (Errors [NotFoundError "from" "2022-11-17"; NotFoundError "to" "2022-11-22"]).
Proof.
  apply (unmatched_boundary Fixture.mock "ibm" "2022-11-17" "2022-11-22"
           "2022-11-22" "2022-11-17" Fixture.AlphaReturnExample);
    try reflexivity.
  - vm_compute. repeat constructor.
  - right. vm_compute. repeat constructor.
Defined.

(** ** The marker *)

(** X16.  In [HistorySearcher], the provider's marker on any line that
    arrives before the scan has settled, whether the window is open or
    not, makes the lookup answer [NotFound(stock_name)] and nothing
    else. *)
Theorem searcher_marker_answer (E : Env) (stock_name from to first last : string)
    (pre : list string) (line : string) (post : list string) :
  getValidationErrors E (historyChecks stock_name from to) = None ->
  alpha_getStockHistoryAsStream E stock_name = AlphaStream (pre ++ line :: post) ->
  formatDate E to = Some first ->
  formatDate E from = Some last ->
  Searcher.promise (Searcher.run first last pre) = None ->
  JS.includes line "Error Message" = true ->
  Searcher.getStockHistoryBySymbol E stock_name from to
  = (Errors [NotFoundError "stock_name" stock_name], [AlphaCall stock_name]).
Proof.
  intros Hv Ha Hto Hfrom Hp Hm.
  rewrite (io_eq (Searcher.getStockHistoryBySymbol E stock_name from to)).
  rewrite (searcher_calls E stock_name from to _ Hv Ha).
  rewrite (searcher_marker_aborts E stock_name from to first last _ Hv Ha Hto Hfrom
             pre line post eq_refl Hp Hm).
  reflexivity.
Qed.

(** The marker after a day of an open window. *)
Lemma searcher_marker_answer_witness :
  Searcher.getStockHistoryBySymbol (Fixture.interrupted true) "ibm" "2022-11-21" "2022-11-22"
  = (Errors [NotFoundError "stock_name" "ibm"], [AlphaCall "ibm"]).
Proof.
  apply (searcher_marker_answer (Fixture.interrupted true) "ibm" "2022-11-21" "2022-11-22"
           "2022-11-22" "2022-11-21"
           ("{" :: Fixture.day "2022-11-22" "147.6000" "149.3500" "147.0200" "149.1000" true)
           Fixture.errorLine ["}"]);
    vm_compute; reflexivity.
Defined.

Lemma inline_marker_step (E : Env) stock_name first last line :
  JS.includes line "Error Message" = true ->
  let l := Inline.onData E stock_name first last Inline.start line in
  Inline.flowing l = false /\
  Inline.promise l = Some (Errors [NotFoundError "stock_name" stock_name]).
Proof.
  intros Hm. cbv zeta.
  assert (Hpause : Inline.pause E stock_name Inline.start
                   = {| Inline.state := {| Inline.reading := false; Inline.ending := false |};
                        Inline.stringResult := "{}";
                        Inline.flowing := false;
                        Inline.promise := Some (Errors [NotFoundError "stock_name" stock_name]);
                        Inline.faulted := false |}) by reflexivity.
  unfold Inline.onData. rewrite Hm, Hpause.
  cbn [Inline.faulted Inline.state Inline.reading Inline.ending].
  destruct (JS.includes line first && JS.includes line "{"),
           (JS.includes line last && JS.includes line "{"),
           (JS.includes line "},"); split; reflexivity.
Qed.

(** X17.  In the inline text, the marker on a line that arrives before
    the window has opened makes the lookup answer
    [NotFound(stock_name)]. *)
Theorem inline_marker_before_window (E : Env) (stock_name from to first last : string)
    (pre : list string) (line : string) (post : list string) :
  getValidationErrors E (historyChecks stock_name from to) = None ->
  alpha_getStockHistoryAsStream E stock_name = AlphaStream (pre ++ line :: post) ->
  formatDate E to = Some first ->
  formatDate E from = Some last ->
  Forall (fun l => JS.includes l "Error Message" = false /\
                   JS.includes l first && JS.includes l "{" = false) pre ->
  JS.includes line "Error Message" = true ->
  Inline.getStockHistoryBySymbol E stock_name from to
  = (Returns (Errors [NotFoundError "stock_name" stock_name]), [AlphaCall stock_name]).
Proof.
  intros Hv Ha Hto Hfrom Hpre Hm.
  rewrite (inline_delivered E stock_name from to first last _ Hv Ha Hto Hfrom).
  f_equal.
  assert (Hidle : forall ls rest,
            Forall (fun l => JS.includes l "Error Message" = false /\
                             JS.includes l first && JS.includes l "{" = false) ls ->
            Inline.deliver E stock_name from to first last (ls ++ rest) Inline.start
            = Inline.deliver E stock_name from to first last rest Inline.start).
  { induction ls as [|x ls IH]; intros rest Hall; [reflexivity|].
    inversion Hall as [|? ? [Hxm Hxs] Hrest]; subst.
    cbn [app Inline.deliver Inline.start Inline.flowing Inline.faulted andb negb].
    change {| Inline.state := {| Inline.reading := false; Inline.ending := false |};
              Inline.stringResult := "{"; Inline.flowing := true;
              Inline.promise := None; Inline.faulted := false |} with Inline.start.
    rewrite InlineFacts.inline_onData_idle by (try reflexivity; assumption).
    apply IH. exact Hrest. }
  rewrite Hidle by exact Hpre.
  cbn [Inline.deliver Inline.start Inline.flowing Inline.faulted andb negb].
  change {| Inline.state := {| Inline.reading := false; Inline.ending := false |};
            Inline.stringResult := "{"; Inline.flowing := true;
            Inline.promise := None; Inline.faulted := false |} with Inline.start.
  destruct (inline_marker_step E stock_name first last line Hm) as [Hfl Hp].
  rewrite InlineWindows.deliver_paused by exact Hfl.
  unfold Inline.settled. rewrite Hp. reflexivity.
Qed.

(** The provider's error document. *)
Lemma inline_marker_before_window_witness :
  Inline.getStockHistoryBySymbol Fixture.mock "unknown" "2022-11-18" "2022-11-22"
  = (Returns (Errors [NotFoundError "stock_name" "unknown"]), [AlphaCall "unknown"]).
Proof.
  apply (inline_marker_before_window Fixture.mock "unknown" "2022-11-18" "2022-11-22"
           "2022-11-22" "2022-11-18" ["{"] Fixture.errorLine ["}"]);
    try reflexivity.
  vm_compute. repeat constructor.
Defined.

(** ** The two-date failure stays inside *)

Lemma quote_failure_single (E : Env) stock_name qerrs :
  passes E stock_name = true ->
  outcome (getStockBySymbol E stock_name) = Errors qerrs ->
  exists e, qerrs = [e].
Proof.
  unfold passes, getStockBySymbol.
  destruct (getValidationErrors E _); [discriminate|]. intros _. io.
  repeat split_match; io; intros H; try discriminate; injection H as <-; eexists; reflexivity.
Qed.

Lemma collapse_shape date errs f v e : collapse date errs <> [NotFoundError f v; e].
Proof.
  destruct errs as [|e0 [|e1 [|e2 rest]]]; try destruct e0; cbn; discriminate.
Qed.

(** X18.  A gains projection whose own validation and whose quote
    validation passed never hands the caller a failure of two errors
    that starts with a [NotFound]: the [NotFound(from), NotFound(to)] of
    the history lookup does not get out, in either text. *)
Theorem projectGains_hides_two_dates (E : Env) (stock_name amount date : string) :
  getValidationErrors E (gainsChecks stock_name amount date) = None ->
  passes E stock_name = true ->
  forall errs field value e,
    (outcome (Searcher.projectGains E stock_name amount date) = Returns (Errors errs) ->
     errs <> [NotFoundError field value; e]) /\
    (outcome (Inline.projectGains E stock_name amount date) = Returns (Errors errs) ->
     errs <> [NotFoundError field value; e]).
Proof.
  intros Hv Hpass errs field value e.
  destruct (outcome (getStockBySymbol E stock_name)) as [today|qerrs] eqn:Hq.
  - split.
    + destruct (outcome (Searcher.getStockHistoryBySymbol E stock_name date date))
        as [onDate|herrs] eqn:Hh.
      * unfold Searcher.projectGains. rewrite Hv. io. rewrite Hq, Hh.
        destruct (prices onDate); io; [discriminate|].
        destruct (Date_toISOString E date); io; discriminate.
      * rewrite (searcher_gains_history_failed E stock_name amount date Hv today herrs Hq Hh).
        intros H. injection H as <-. apply collapse_shape.
    + destruct (outcome (Inline.getStockHistoryBySymbol E stock_name date date))
        as [[onDate|herrs]|] eqn:Hh.
      * unfold Inline.projectGains. rewrite Hv. io. rewrite Hq, Hh.
        destruct (prices onDate); io; [discriminate|].
        destruct (Date_toISOString E date); io; discriminate.
      * rewrite (inline_gains_history_failed E stock_name amount date Hv today herrs Hq Hh).
        intros H. injection H as <-. apply collapse_shape.
      * unfold Inline.projectGains. rewrite Hv. io. rewrite Hh. io. discriminate.
  - destruct (quote_failure_single E stock_name qerrs Hpass Hq) as [e0 ->]. split.
    + rewrite (searcher_gains_quote_failed E stock_name amount date Hv _ Hq).
      intros H. injection H as <-. discriminate.
    + destruct (outcome (Inline.getStockHistoryBySymbol E stock_name date date))
        as [h|] eqn:Hh.
      * rewrite (inline_gains_quote_failed E stock_name amount date Hv _ h Hq Hh).
        intros H. injection H as <-. exact (collapse_shape date [e0] field value e).
      * unfold Inline.projectGains. rewrite Hv. io. rewrite Hh. io. discriminate.
Qed.

Lemma projectGains_hides_two_dates_witness :
  outcome (Searcher.projectGains Fixture.mock "ibm" "10" "2022-11-25")
    <> Returns (Errors [NotFoundError "from" "2022-11-25"; NotFoundError "to" "2022-11-25"]).
Proof.
  intros H.
  exact (proj1 (projectGains_hides_two_dates Fixture.mock "ibm" "10" "2022-11-25"
                  eq_refl eq_refl
                  [NotFoundError "from" "2022-11-25"; NotFoundError "to" "2022-11-25"]
                  "from" "2022-11-25" (NotFoundError "to" "2022-11-25")) H eq_refl).
Defined.
